(** * msticpy: the Log Analytics uploader and the IntSights result parser

  A shallow embedding of
  - [msticpy/data/uploaders/loganalytics_uploader.py] (class [LAUploader]) and
  - [msticpy/context/tiproviders/intsights.py]       (class [IntSights]),
  together with the parts of the Python standard library the two classes
  call ([base64], [hmac]/[hashlib.sha256], [json.dumps], [re.sub],
  [pathlib]), followed by the properties established about them.

  Conventions.  A Python [str] is a [string] whose characters are read as
  code points below 256; a Python [bytes] is a [list byte]; a Python [int]
  is a [Z].  Code that can raise returns a [result]; code that talks to the
  outside (HTTP, clock, file system, console) runs in the monad [M] over an
  explicit [world]. *)

From Stdlib Require Import ZArith List Bool Lia.
From Stdlib.Strings Require Import String Ascii Byte.
From Stdlib Require Import DecimalString DecimalZ.
Import ListNotations.

Set Warnings "-register-all".

Open Scope list_scope.
Open Scope string_scope.
Open Scope Z_scope.

(* ================================================================== *)
(** * Python strings, integers and bytes *)
(* ================================================================== *)

Module PyStr.

(** [len(s)] *)
Definition len (s : string) : Z := Z.of_nat (String.length s).

(** [str(n)] for an [int]. *)
Definition str_int (z : Z) : string := NilZero.string_of_int (Z.to_int z).

(** The one-character string ["\n"]. *)
Definition nl : string := String "010"%char EmptyString.

(** [ord(c)] *)
Definition ord (c : ascii) : Z := Z.of_N (N_of_ascii c).

Definition byte_of_Z (z : Z) : byte := byte_of_ascii (ascii_of_N (Z.to_N (z mod 256))).
Definition Z_of_byte (b : byte) : Z := Z.of_N (Byte.to_N b).

(** [bytes(s, encoding="utf-8")]: one byte below U+0080, two bytes from
    U+0080 to U+00FF. *)
Definition utf8_char (c : ascii) : list byte :=
  let cp := ord c in
  if cp <? 128 then [byte_of_Z cp]
  else [byte_of_Z (Z.lor 192 (Z.shiftr cp 6)); byte_of_Z (Z.lor 128 (Z.land cp 63))].

Definition encode_utf8 (s : string) : list byte :=
  flat_map utf8_char (list_ascii_of_string s).

(** [b.decode()] of bytes that are all ASCII (the only use in the sources). *)
Definition decode_ascii (b : list byte) : string :=
  string_of_list_ascii (map ascii_of_byte b).

(** [all(ord(c) < 128 for c in s)] *)
Definition isascii (s : string) : bool :=
  forallb (fun c => ord c <? 128) (list_ascii_of_string s).

(** [sep.join(parts)] *)
Fixpoint join (sep : string) (parts : list string) : string :=
  match parts with
  | [] => ""
  | [p] => p
  | p :: rest => p ++ sep ++ join sep rest
  end.

(** [s.split(sep)] for a one-character separator: the fields between the
    occurrences of [sep]; never the empty list. *)
Fixpoint split (sep : ascii) (s : string) : list string :=
  match s with
  | EmptyString => [""]
  | String c rest =>
      if Ascii.eqb c sep then "" :: split sep rest
      else match split sep rest with
           | [] => [String c ""]
           | field :: fields => String c field :: fields
           end
  end.

(** [xs[-1]] and [xs[0]] on a list that [split] returned (never empty; the
    default is not reached). *)
Definition last_item (xs : list string) : string := List.last xs "".
Definition first_item (xs : list string) : string := List.hd "" xs.

End PyStr.

(* ================================================================== *)
(** * Exceptions and results *)
(* ================================================================== *)

(** The exception classes that the two modules can raise or let through. *)
Inductive exc_class : Type :=
| BinasciiError            (* binascii.Error, from base64.b64decode *)
| ValueError
| TypeError
| KeyError
| AttributeError
| RequestsConnectionError  (* requests.ConnectionError *)
| RequestException         (* the other exceptions of requests *)
| OSError                  (* file system errors, from pandas.read_csv *)
| MsticpyConnectionError.  (* msticpy.common.exceptions *)

(** An exception object: its class, its message and, for the msticpy
  exceptions, the [title=] keyword. *)
Record exn : Type := mkExn {
exc_type : exc_class;
exc_message : string;
exc_title : option string
}.

Inductive result (A : Type) : Type :=
| Returns (a : A)
| Raises (e : exn).
Arguments Returns {A} a.
Arguments Raises {A} e.

Definition exc_class_eqb (a b : exc_class) : bool :=
match a, b with
| BinasciiError, BinasciiError | ValueError, ValueError | TypeError, TypeError
| KeyError, KeyError | AttributeError, AttributeError
| RequestsConnectionError, RequestsConnectionError
| RequestException, RequestException | OSError, OSError
| MsticpyConnectionError, MsticpyConnectionError => true
| _, _ => false
end.

(* ================================================================== *)
(** * base64 *)
(* ================================================================== *)

Module Base64.
Import PyStr.

Definition alphabet : string :=
  "ABCDEFGHIJKLMNOPQRSTUVWXYZabcdefghijklmnopqrstuvwxyz0123456789+/".

Definition enc6 (v : Z) : ascii :=
  match String.get (Z.to_nat (v mod 64)) alphabet with
  | Some c => c
  | None => "="%char
  end.

(** [base64.b64encode(data).decode()] *)
Fixpoint b64encode (data : list byte) : string :=
  match data with
  | [] => ""
  | [a] =>
      let a := Z_of_byte a in
      String (enc6 (Z.shiftr a 2))
        (String (enc6 (Z.shiftl (Z.land a 3) 4)) "==")
  | [a; b] =>
      let a := Z_of_byte a in
      let b := Z_of_byte b in
      String (enc6 (Z.shiftr a 2))
        (String (enc6 (Z.lor (Z.shiftl (Z.land a 3) 4) (Z.shiftr b 4)))
           (String (enc6 (Z.shiftl (Z.land b 15) 2)) "="))
  | a :: b :: c :: rest =>
      let a := Z_of_byte a in
      let b := Z_of_byte b in
      let c := Z_of_byte c in
      String (enc6 (Z.shiftr a 2))
        (String (enc6 (Z.lor (Z.shiftl (Z.land a 3) 4) (Z.shiftr b 4)))
           (String (enc6 (Z.lor (Z.shiftl (Z.land b 15) 2) (Z.shiftr c 6)))
              (String (enc6 (Z.land c 63)) (b64encode rest))))
  end.

(** The decoding table of [binascii]: the 6-bit value of an alphabet
    character, [None] for every other character. *)
Definition dec6 (c : ascii) : option Z :=
  let n := ord c in
  if (65 <=? n) && (n <=? 90) then Some (n - 65)
  else if (97 <=? n) && (n <=? 122) then Some (n - 71)
  else if (48 <=? n) && (n <=? 57) then Some (n + 4)
  else if n =? 43 then Some 62
  else if n =? 47 then Some 63
  else None.

(** The scanning loop of [binascii.a2b_base64] in its default, non-strict
    mode.  [quad_pos] is the position in the current group of four,
    [leftchar] the bits carried over, [pads] the run of ['='] seen, [out]
    the bytes produced so far, latest first. *)
Fixpoint a2b_loop (s : string) (quad_pos leftchar pads : Z) (out : list byte)
  : result (list byte) :=
  match s with
  | EmptyString =>
      if quad_pos =? 0 then Returns (rev out)
      else if quad_pos =? 1 then
        Raises (mkExn BinasciiError
          ("Invalid base64-encoded string: number of data characters ("
             ++ str_int (Z.of_nat (List.length out) / 3 * 4 + 1)
             ++ ") cannot be 1 more than a multiple of 4") None)
      else Raises (mkExn BinasciiError "Incorrect padding" None)
  | String c rest =>
      if Ascii.eqb c "="%char then
        if (2 <=? quad_pos) && (4 <=? quad_pos + (pads + 1)) then Returns (rev out)
        else a2b_loop rest quad_pos leftchar
               (if 2 <=? quad_pos then pads + 1 else pads) out
      else
        match dec6 c with
        | None => a2b_loop rest quad_pos leftchar pads out
        | Some v =>
            if quad_pos =? 0 then a2b_loop rest 1 v 0 out
            else if quad_pos =? 1 then
              a2b_loop rest 2 (Z.land v 15) 0
                (byte_of_Z (Z.lor (Z.shiftl leftchar 2) (Z.shiftr v 4)) :: out)
            else if quad_pos =? 2 then
              a2b_loop rest 3 (Z.land v 3) 0
                (byte_of_Z (Z.lor (Z.shiftl leftchar 4) (Z.shiftr v 2)) :: out)
            else
              a2b_loop rest 0 0 0
                (byte_of_Z (Z.lor (Z.shiftl leftchar 6) v) :: out)
        end
  end.

(** [base64.b64decode(s)] for a [str] argument: the text must be ASCII, then
    [binascii.a2b_base64] decodes it, skipping characters outside the
    alphabet. *)
Definition b64decode (s : string) : result (list byte) :=
  if isascii s then a2b_loop s 0 0 0 []
  else Raises (mkExn ValueError "string argument should contain only ASCII characters" None).

End Base64.

(* ================================================================== *)
(** * hashlib.sha256 and hmac *)
(* ================================================================== *)

Module Sha256.
Import PyStr.

Definition w32 (x : Z) : Z := x mod 4294967296.
Definition add32 (x y : Z) : Z := w32 (x + y).
Definition rotr (n x : Z) : Z := Z.lor (Z.shiftr x n) (w32 (Z.shiftl x (32 - n))).
Definition not32 (x : Z) : Z := Z.lxor x 4294967295.

Definition Ch (x y z : Z) : Z := Z.lxor (Z.land x y) (Z.land (not32 x) z).
Definition Maj (x y z : Z) : Z :=
  Z.lxor (Z.lxor (Z.land x y) (Z.land x z)) (Z.land y z).
Definition Sigma0 (x : Z) : Z := Z.lxor (Z.lxor (rotr 2 x) (rotr 13 x)) (rotr 22 x).
Definition Sigma1 (x : Z) : Z := Z.lxor (Z.lxor (rotr 6 x) (rotr 11 x)) (rotr 25 x).
Definition sigma0 (x : Z) : Z := Z.lxor (Z.lxor (rotr 7 x) (rotr 18 x)) (Z.shiftr x 3).
Definition sigma1 (x : Z) : Z := Z.lxor (Z.lxor (rotr 17 x) (rotr 19 x)) (Z.shiftr x 10).

Definition K : list Z :=
  [1116352408; 1899447441; 3049323471; 3921009573; 961987163; 1508970993;
   2453635748; 2870763221; 3624381080; 310598401; 607225278; 1426881987;
   1925078388; 2162078206; 2614888103; 3248222580; 3835390401; 4022224774;
   264347078; 604807628; 770255983; 1249150122; 1555081692; 1996064986;
   2554220882; 2821834349; 2952996808; 3210313671; 3336571891; 3584528711;
   113926993; 338241895; 666307205; 773529912; 1294757372; 1396182291;
   1695183700; 1986661051; 2177026350; 2456956037; 2730485921; 2820302411;
   3259730800; 3345764771; 3516065817; 3600352804; 4094571909; 275423344;
   430227734; 506948616; 659060556; 883997877; 958139571; 1322822218;
   1537002063; 1747873779; 1955562222; 2024104815; 2227730452; 2361852424;
   2428436474; 2756734187; 3204031479; 3329325298].

Definition H0 : list Z :=
  [1779033703; 3144134277; 1013904242; 2773480762;
   1359893119; 2600822924; 528734635; 1541459225].

(** Big-endian bytes of a word, and back. *)
Definition be_bytes (width : nat) (x : Z) : list byte :=
  map (fun i => byte_of_Z (Z.shiftr x (8 * Z.of_nat i))) (rev (seq 0 width)).

Fixpoint be_word (bs : list byte) (acc : Z) : Z :=
  match bs with
  | [] => acc
  | b :: rest => be_word rest (acc * 256 + Z_of_byte b)
  end.

(** Message padding: a [0x80] byte, zeros up to 56 modulo 64, then the bit
    length on 8 bytes. *)
Definition pad (msg : list byte) : list byte :=
  let l := Z.of_nat (List.length msg) in
  let zeros := Z.to_nat ((55 - l) mod 64) in
  (msg ++ [byte_of_Z 128] ++ repeat (byte_of_Z 0) zeros ++ be_bytes 8 (8 * l))%list.

(** The message cut in chunks of [n] items. *)
Fixpoint chunks {A} (fuel n : nat) (l : list A) : list (list A) :=
  match fuel, l with
  | _, [] => []
  | O, _ => []
  | S fuel', _ => firstn n l :: chunks fuel' n (skipn n l)
  end.

(** The message schedule, latest word first: [w] starts as the sixteen words
    of the block reversed, and grows by [more] words. *)
Fixpoint schedule (more : nat) (w : list Z) : list Z :=
  match more with
  | O => w
  | S more' =>
      let x := add32 (add32 (sigma1 (nth 1 w 0)) (nth 6 w 0))
                     (add32 (sigma0 (nth 14 w 0)) (nth 15 w 0)) in
      schedule more' (x :: w)
  end.

Definition state : Type := (Z * Z * Z * Z * Z * Z * Z * Z)%type.

Definition round (st : state) (kw : Z * Z) : state :=
  let '(a, b, c, d, e, f, g, h) := st in
  let '(k, w) := kw in
  let t1 := add32 (add32 (add32 h (Sigma1 e)) (add32 (Ch e f g) k)) w in
  let t2 := add32 (Sigma0 a) (Maj a b c) in
  (add32 t1 t2, a, b, c, add32 d t1, e, f, g).

Definition compress (st : state) (block : list byte) : state :=
  let words := map (fun c => be_word c 0) (chunks 16 4 block) in
  let w := rev (schedule 48 (rev words)) in
  let '(a, b, c, d, e, f, g, h) := fold_left round (combine K w) st in
  let '(a0, b0, c0, d0, e0, f0, g0, h0) := st in
  (add32 a0 a, add32 b0 b, add32 c0 c, add32 d0 d,
   add32 e0 e, add32 f0 f, add32 g0 g, add32 h0 h).

Definition initial : state :=
  (nth 0 H0 0, nth 1 H0 0, nth 2 H0 0, nth 3 H0 0,
   nth 4 H0 0, nth 5 H0 0, nth 6 H0 0, nth 7 H0 0).

(** [hashlib.sha256(msg).digest()] *)
Definition sha256 (msg : list byte) : list byte :=
  let padded := pad msg in
  let blocks := chunks (List.length padded) 64 padded in
  let '(a, b, c, d, e, f, g, h) := fold_left compress blocks initial in
  flat_map (be_bytes 4) [a; b; c; d; e; f; g; h].

(** [hmac.new(key, msg, digestmod=hashlib.sha256).digest()] *)
Definition hmac_sha256 (key msg : list byte) : list byte :=
  let key := if (64 <? Z.of_nat (List.length key)) then sha256 key else key in
  let key := (key ++ repeat (byte_of_Z 0) (64 - List.length key))%list in
  let ipad := map (fun b => byte_of_Z (Z.lxor (Z_of_byte b) 54)) key in
  let opad := map (fun b => byte_of_Z (Z.lxor (Z_of_byte b) 92)) key in
  sha256 (opad ++ sha256 (ipad ++ msg))%list.

End Sha256.

(* ================================================================== *)
(** * json.dumps *)
(* ================================================================== *)

Module Json.
Import PyStr.

Definition dquote : ascii := "034"%char.
Definition backslash : ascii := "092"%char.

Definition hex_digit (v : Z) : ascii :=
  match String.get (Z.to_nat (v mod 16)) "0123456789abcdef" with
  | Some c => c
  | None => "0"%char
  end.

(** The replacement of one character by [json.encoder]'s
    [py_encode_basestring_ascii] ([ensure_ascii=True], the default):
    the short escapes, the character itself from space to tilde, and
    [\u00XX] for the rest. *)
Definition escape_char (c : ascii) : string :=
  let n := ord c in
  if n =? 34 then String backslash (String dquote "")
  else if n =? 92 then String backslash (String backslash "")
  else if n =? 10 then String backslash "n"
  else if n =? 13 then String backslash "r"
  else if n =? 9 then String backslash "t"
  else if n =? 8 then String backslash "b"
  else if n =? 12 then String backslash "f"
  else if (32 <=? n) && (n <=? 126) then String c ""
  else String backslash
         (String "u" (String "0" (String "0"
            (String (hex_digit (Z.shiftr n 4)) (String (hex_digit n) ""))))).

Fixpoint escape (s : string) : string :=
  match s with
  | EmptyString => ""
  | String c rest => escape_char c ++ escape rest
  end.

(** [json.dumps(s)] for a [str]. *)
Definition dumps_str (s : string) : string :=
  String dquote (escape s ++ String dquote "").

(** A row as [upload_df] serialises it: a [dict] from column name to text,
    in insertion order. *)
Definition record : Type := list (string * string).

Definition dumps_item (kv : string * string) : string :=
  dumps_str (fst kv) ++ ": " ++ dumps_str (snd kv).

(** [json.dumps(d)] for a [dict] of strings. *)
Definition dumps_record (d : record) : string :=
  "{" ++ join ", " (map dumps_item d) ++ "}".

(** [json.dumps(events)] for a [list] of such dicts. *)
Definition dumps (events : list record) : string :=
  "[" ++ join ", " (map dumps_record events) ++ "]".

End Json.

(* ================================================================== *)
(** * re.sub with a pattern of the form [[class]+] *)
(* ================================================================== *)

Module Re.
Import PyStr.

(** Membership in the negated set [[^A-Za-z0-9_]]. *)
Definition in_A_Z (c : ascii) : bool := (65 <=? ord c) && (ord c <=? 90).
Definition in_a_z (c : ascii) : bool := (97 <=? ord c) && (ord c <=? 122).
Definition in_0_9 (c : ascii) : bool := (48 <=? ord c) && (ord c <=? 57).
Definition not_A_Za_z0_9_underscore (c : ascii) : bool :=
  negb (in_A_Z c || in_a_z c || in_0_9 c || (ord c =? 95)).

(** [re.sub("[class]+", repl, s)]: scanning left to right, every maximal
    run of characters of the class is one match and is replaced by [repl];
    the other characters are copied.  [in_match] tells that the previous
    character belonged to the match in progress. *)
Fixpoint sub_loop (class : ascii -> bool) (repl : string) (in_match : bool)
         (s : string) : string :=
  match s with
  | EmptyString => ""
  | String c rest =>
      if class c then
        if in_match then sub_loop class repl true rest
        else repl ++ sub_loop class repl true rest
      else String c (sub_loop class repl false rest)
  end.

Definition sub_class_plus (class : ascii -> bool) (repl s : string) : string :=
  sub_loop class repl false s.

End Re.

(* ================================================================== *)
(** * pathlib: pure paths and the matching of [glob] *)
(* ================================================================== *)

Module Pathlib.
Import PyStr.

(** A parsed path: the root (["" ], ["/"] or ["//"]) and the components
    below it. *)
Record PurePath : Type := mkPath {
  root : string;
  parts : list string
}.

(** What a platform's [pathlib] does: [Path(s)], [str(p)]. *)
Record flavour : Type := mkFlavour {
  parse : string -> PurePath;
  render : PurePath -> string
}.

(** [p / name] for a single component [name] (as [glob] builds its
    results). *)
Definition child (p : PurePath) (name : string) : PurePath :=
  mkPath (root p) (parts p ++ [name]).

(** [PurePosixPath]: components are separated by ["/"], empty components
    and ["."] are dropped, exactly two leading slashes are kept. *)
Definition posix_root (s : string) : string :=
  match s with
  | String "/" (String "/" (String "/" _)) => "/"
  | String "/" (String "/" _) => "//"
  | String "/" _ => "/"
  | _ => ""
  end.

Definition posix_parse (s : string) : PurePath :=
  mkPath (posix_root s)
         (filter (fun p => negb (String.eqb p "" || String.eqb p "."))
                 (split "/" s)).

Definition posix_render (p : PurePath) : string :=
  match root p, parts p with
  | EmptyString, [] => "."
  | r, ps => r ++ join "/" ps
  end.

Definition posix : flavour := mkFlavour posix_parse posix_render.

(** [fnmatch] on one path component, for patterns made of literal
    characters, [*] and [?] (case-sensitive, as on POSIX; [glob] does not
    treat a leading dot specially). *)
Fixpoint fnmatch (pat : string) : string -> bool :=
  match pat with
  | EmptyString => fun name => String.eqb name ""
  | String p pat' =>
      if Ascii.eqb p "*" then
        fix star (name : string) : bool :=
          fnmatch pat' name
          || match name with
             | EmptyString => false
             | String _ rest => star rest
             end
      else if Ascii.eqb p "?" then
        fun name => match name with
                    | EmptyString => false
                    | String _ rest => fnmatch pat' rest
                    end
      else
        fun name => match name with
                    | EmptyString => false
                    | String c rest => Ascii.eqb p c && fnmatch pat' rest
                    end
  end.

End Pathlib.

(* ================================================================== *)
(** * pandas: the part of a DataFrame that the uploader touches *)
(* ================================================================== *)

Module Pandas.
Import PyStr.

(** A cell of a row. *)
Inductive cell : Type :=
| CStr (s : string)
| CInt (z : Z)
| CBool (b : bool)
| CNone.

(** A row as [DataFrame.iterrows] yields it ([row[1]]): the column labels
    with the row's values, in column order. *)
Definition Series : Type := list (string * cell).
Definition DataFrame : Type := list Series.

(** [str(v)] of a cell, which is what [Series.astype(str)] applies. *)
Definition str_cell (v : cell) : string :=
  match v with
  | CStr s => s
  | CInt z => str_int z
  | CBool true => "True"
  | CBool false => "False"
  | CNone => "None"
  end.

(** [d[k] = v] on a [dict] kept in insertion order. *)
Fixpoint dict_set (d : Json.record) (k v : string) : Json.record :=
  match d with
  | [] => [(k, v)]
  | (k', v') :: rest =>
      if String.eqb k' k then (k', v) :: rest
      else (k', v') :: dict_set rest k v
  end.

(** [row.astype(str).to_dict()] *)
Definition astype_str_to_dict (row : Series) : Json.record :=
  fold_left (fun d kv => dict_set d (fst kv) (str_cell (snd kv))) row [].

End Pandas.
(* ================================================================== *)
(** * The outside world and the monad of effects *)
(* ================================================================== *)

Module Effects.
Import PyStr.

(** An HTTP request as [requests.post(uri, data=body, headers=headers)]
    receives it. *)
Record request : Type := mkRequest {
  req_uri : string;
  req_data : string;
  req_headers : list (string * string)
}.

(** What [requests.post] does with a request: it raises
    [requests.ConnectionError], raises another [requests] exception, or
    returns a response with a status code. *)
Inductive post_outcome : Type :=
| RaisesConnectionError (msg : string)
| RaisesRequestException (msg : string)
| Response (status_code : Z).

(** What reaches the console: [print] and the [tqdm] progress bar. *)
Inductive console_event : Type :=
| Print (line : string)
| TqdmOpen (total : Z)
| TqdmUpdate (n : Z)
| TqdmClose.

(** The surroundings of a run, fixed while it lasts: the remote service
    (its answer to a request, given the requests made before), the clock
    (the formatted time at each reading), the size of the header of a [str]
    object that [sys.getsizeof] adds to its length, the platform's [pathlib],
    the names in a directory in listing order, and [pandas.read_csv] on a
    path with a delimiter. *)
Record environment : Type := mkEnv {
  requests_post : list request -> request -> post_outcome;
  utcnow_strftime : nat -> string;
  getsizeof_header : Z;
  flavour : Pathlib.flavour;
  fnmatch_name : string -> string -> bool;
  scandir : string -> list string;
  read_csv : string -> string -> result Pandas.DataFrame
}.

(** What a run changes: the requests posted with their outcomes (earliest
    first), the number of clock readings, the console. *)
Record world : Type := mkWorld {
  posted : list (request * post_outcome);
  clock_reads : nat;
  console : list console_event
}.

Definition M (A : Type) : Type := world -> result A * world.

Definition ret {A : Type} (a : A) : M A := fun w => (Returns a, w).

Definition raise {A : Type} (e : exn) : M A := fun w => (Raises e, w).

Definition bind {A B : Type} (m : M A) (k : A -> M B) : M B :=
  fun w =>
    match m w with
    | (Returns a, w') => k a w'
    | (Raises e, w') => (Raises e, w')
    end.

Definition lift {A : Type} (r : result A) : M A := fun w => (r, w).

(** [try: m  except cls: handler] *)
Definition try_except {A : Type} (m : M A) (cls : exc_class) (handler : M A) : M A :=
  fun w =>
    match m w with
    | (Returns a, w') => (Returns a, w')
    | (Raises e, w') =>
        if exc_class_eqb (exc_type e) cls then handler w' else (Raises e, w')
    end.

(** [print(line)] *)
Definition print (line : string) : M unit :=
  fun w => (Returns tt, mkWorld (posted w) (clock_reads w) (console w ++ [Print line])).

Definition tqdm (ev : console_event) : M unit :=
  fun w => (Returns tt, mkWorld (posted w) (clock_reads w) (console w ++ [ev])).

(** [datetime.datetime.utcnow().strftime(...)] *)
Definition utcnow (env : environment) : M string :=
  fun w => (Returns (utcnow_strftime env (clock_reads w)),
            mkWorld (posted w) (S (clock_reads w)) (console w)).

(** [requests.post(uri, data=body, headers=headers)]: the request goes out and
    is recorded with its outcome; the call returns the status code of the
    response or raises. *)
Definition post (env : environment) (uri body : string)
           (headers : list (string * string)) : M Z :=
  fun w =>
    let req := mkRequest uri body headers in
    let outcome := requests_post env (map fst (posted w)) req in
    let w' := mkWorld (posted w ++ [(req, outcome)]) (clock_reads w) (console w) in
    match outcome with
    | RaisesConnectionError msg => (Raises (mkExn RequestsConnectionError msg None), w')
    | RaisesRequestException msg => (Raises (mkExn RequestException msg None), w')
    | Response status_code => (Returns status_code, w')
    end.

(** [sys.getsizeof(s)] for the ASCII text that [json.dumps] returns. *)
Definition sys_getsizeof (env : environment) (s : string) : Z :=
  getsizeof_header env + len s.

End Effects.

Notation "x <- m ;; k" := (Effects.bind m (fun x => k))
  (at level 61, m at next level, right associativity).
Notation "m ;; k" := (Effects.bind m (fun _ => k))
  (at level 61, right associativity).

(* ================================================================== *)
(** * loganalytics_uploader.py: class LAUploader *)
(* ================================================================== *)

Module LAUploaderPy.
Import PyStr Effects.

Record LAUploader : Type := mkLAUploader {
  workspace : string;
  workspace_secret : string;
  _debug : bool;
  ops_loc : string
}.

(** [LAUploader.__init__(workspace, workspace_secret, **kwargs)] with the two
    keywords it reads. *)
Definition __init__ (workspace workspace_secret : string)
           (debug : option bool) (opsinsight_loc : option string) : LAUploader :=
  mkLAUploader workspace workspace_secret
    (match debug with Some b => b | None => false end)
    (match opsinsight_loc with Some s => s | None => ".ods.opinsights.azure.com" end).

(** [LAUploader._build_signature] *)
Definition _build_signature (self : LAUploader) (date : string)
           (content_length : Z) (method content_type resource : string)
  : result string :=
  let x_headers := "x-ms-date:" ++ date in
  let string_to_hash :=
    (((((((method
           ++ nl)
          ++ str_int content_length)
         ++ nl)
        ++ content_type)
       ++ nl)
      ++ x_headers)
     ++ nl)
    ++ resource in
  let bytes_to_hash := encode_utf8 string_to_hash in
  match Base64.b64decode (workspace_secret self) with
  | Raises e => Raises e
  | Returns decoded_key =>
      let encoded_hash :=
        Base64.b64encode (Sha256.hmac_sha256 decoded_key bytes_to_hash) in
      let authorization :=
        "SharedKey " ++ workspace self ++ ":" ++ encoded_hash in
      Returns authorization
  end.

(** The exception of the [except requests.ConnectionError] branch. *)
Definition unable_to_connect : exn :=
  mkExn MsticpyConnectionError
    "Unable to connect to workspace, ensure your Workspace ID is correct."
    (Some "Unable to connect to Workspace").

(** The exception of the status-code test. *)
Definition upload_failed (status_code : Z) : exn :=
  mkExn MsticpyConnectionError
    ("LogAnalytics data upload failed with code " ++ str_int status_code ++ "."
       ++ nl ++ "                Check Workspace ID and key")
    (Some "Data Upload Failed").

(** [LAUploader._post_data] *)
Definition _post_data (env : environment) (self : LAUploader)
           (body table_name : string) : M unit :=
  let table_name := Re.sub_class_plus Re.not_A_Za_z0_9_underscore "" table_name in
  let resource := "/api/logs" in
  let content_type := "application/json" in
  rfc1123date <- utcnow env ;;
  let content_length := len body in
  signature <- lift (_build_signature self rfc1123date content_length
                       "POST" content_type resource) ;;
  let uri :=
    ((("https://" ++ workspace self) ++ ops_loc self) ++ resource)
    ++ "?api-version=2016-04-01" in
  let headers :=
    [("content-type", content_type);
     ("Authorization", signature);
     ("Log-Type", table_name);
     ("x-ms-date", rfc1123date)] in
  status_code <-
    try_except (post env uri body headers) RequestsConnectionError
               (raise unable_to_connect) ;;
  (if _debug self
   then print ("Upload response code: " ++ str_int status_code)
   else ret tt) ;;
  if (status_code <? 200) || (status_code >? 299)
  then raise (upload_failed status_code)
  else ret tt.

(** The [for row in data.iterrows()] loop of [upload_df]; [events] is the
    list that the loop appends to and resets, also its value on exit. *)
Fixpoint upload_df_loop (env : environment) (self : LAUploader)
         (table_name : string) (rows : Pandas.DataFrame)
         (events : list Json.record) : M (list Json.record) :=
  match rows with
  | [] => ret events
  | row :: rest =>
      let events := (events ++ [Pandas.astype_str_to_dict row])%list in
      if sys_getsizeof env (Json.dumps events) >? 26214400 then
        (if _debug self
         then print "Data larger than 25MB spliting data requests."
         else ret tt) ;;
        let body := Json.dumps events in
        _post_data env self body table_name ;;
        upload_df_loop env self table_name rest []
      else upload_df_loop env self table_name rest events
  end.

(** [LAUploader.upload_df] *)
Definition upload_df (env : environment) (self : LAUploader)
           (data : Pandas.DataFrame) (table_name : string) : M unit :=
  events <- upload_df_loop env self table_name data [] ;;
  (match events with
   | [] => ret tt
   | _ :: _ =>
       let body := Json.dumps events in
       _post_data env self body table_name
   end) ;;
  if _debug self
  then print ("Upload to " ++ table_name ++ " complete")
  else ret tt.

(** Truth value of an optional [str] argument: [None] and [""] are false. *)
Definition truthy (table_name : option string) : bool :=
  match table_name with
  | None => false
  | Some s => negb (String.eqb s "")
  end.

(** The value of a [str] variable known to be assigned. *)
Definition assigned (table_name : option string) : string :=
  match table_name with
  | Some s => s
  | None => ""
  end.

(** The expression [str(path).split("\\")[-1].split(".")[0]] that
    [upload_file] and [upload_folder] both use. *)
Definition table_name_from_path (env : environment) (path : Pathlib.PurePath)
  : string :=
  first_item (split "." (last_item (split "\" (Pathlib.render (flavour env) path)))).

(** [LAUploader.upload_file] *)
Definition upload_file (env : environment) (self : LAUploader)
           (file_path : string) (table_name : option string) (delim : string)
  : M unit :=
  let path := Pathlib.parse (flavour env) file_path in
  data <- lift (read_csv env (Pathlib.render (flavour env) path) delim) ;;
  let table_name :=
    if negb (truthy table_name)
    then Some (table_name_from_path env path)
    else table_name in
  upload_df env self data (assigned table_name).

(** [Path(folder_path).glob(ext)] with a one-component pattern: the entries
    of the directory whose name matches, as children of the directory. *)
Definition glob (env : environment) (folder : Pathlib.PurePath) (ext : string)
  : list Pathlib.PurePath :=
  map (Pathlib.child folder)
      (filter (fnmatch_name env ext)
              (scandir env (Pathlib.render (flavour env) folder))).

(** The [for path in input_files] loop of [upload_folder]; [table_name] is
    the variable that the loop reassigns when [t_name] is false. *)
Fixpoint upload_folder_loop (env : environment) (self : LAUploader)
         (delim : string) (t_name : bool) (input_files : list Pathlib.PurePath)
         (table_name : option string) : M unit :=
  match input_files with
  | [] => ret tt
  | path :: rest =>
      data <- lift (read_csv env (Pathlib.render (flavour env) path) delim) ;;
      let table_name :=
        if negb t_name
        then Some (table_name_from_path env path)
        else table_name in
      upload_df env self data (assigned table_name) ;;
      tqdm (TqdmUpdate 1) ;;
      upload_folder_loop env self delim t_name rest table_name
  end.

(** [LAUploader.upload_folder] *)
Definition upload_folder (env : environment) (self : LAUploader)
           (folder_path : string) (table_name : option string) (delim : string)
  : M unit :=
  let ext := if negb (String.eqb delim ",") then "*" else "*.csv" in
  let t_name := truthy table_name in
  let input_files := glob env (Pathlib.parse (flavour env) folder_path) ext in
  tqdm (TqdmOpen (Z.of_nat (List.length input_files))) ;;
  upload_folder_loop env self delim t_name input_files table_name ;;
  tqdm TqdmClose.

End LAUploaderPy.
(* ================================================================== *)
(** * Python values, as far as the IntSights parser handles them *)
(* ================================================================== *)

Module PyVal.
Import PyStr.

(** [datetime.datetime] *)
Record datetime : Type := mkDatetime {
  year : Z; month : Z; day : Z;
  hour : Z; minute : Z; second : Z; microsecond : Z
}.

(** The values of a decoded JSON response, and [datetime]. *)
Inductive pyval : Type :=
| PNone
| PBool (b : bool)
| PInt (z : Z)
| PStr (s : string)
| PList (items : list pyval)
| PDict (items : list (string * pyval))
| PDatetime (d : datetime).

Definition pydict : Type := list (string * pyval).

Definition rbind {A B : Type} (r : result A) (k : A -> result B) : result B :=
  match r with
  | Returns a => k a
  | Raises e => Raises e
  end.

Fixpoint lookup (d : pydict) (key : string) : option pyval :=
  match d with
  | [] => None
  | (k, v) :: rest => if String.eqb k key then Some v else lookup rest key
  end.

(** [d[key]] *)
Definition getitem (d : pydict) (key : string) : result pyval :=
  match lookup d key with
  | Some v => Returns v
  | None => Raises (mkExn KeyError key None)
  end.

(** [isinstance(v, dict)] *)
Definition isinstance_dict (v : pyval) : bool :=
  match v with
  | PDict _ => true
  | _ => false
  end.

(** [v.get(key, default)] *)
Definition get (v : pyval) (key : string) (default : pyval) : result pyval :=
  match v with
  | PDict d =>
      match lookup d key with
      | Some x => Returns x
      | None => Returns default
      end
  | _ => Raises (mkExn AttributeError "object has no attribute 'get'" None)
  end.

(** [bool(v)] *)
Definition truth (v : pyval) : bool :=
  match v with
  | PNone => false
  | PBool b => b
  | PInt z => negb (z =? 0)
  | PStr s => negb (String.eqb s "")
  | PList l => match l with [] => false | _ => true end
  | PDict d => match d with [] => false | _ => true end
  | PDatetime _ => true
  end.

(** [a + b] on the values above: lists and strings are concatenated,
    integers (booleans among them) are added, the rest is a [TypeError]. *)
Definition int_of (v : pyval) : option Z :=
  match v with
  | PInt z => Some z
  | PBool b => Some (if b then 1 else 0)
  | _ => None
  end.

Definition add (a b : pyval) : result pyval :=
  match a, b with
  | PList x, PList y => Returns (PList (x ++ y)%list)
  | PStr x, PStr y => Returns (PStr (x ++ y))
  | _, _ =>
      match int_of a, int_of b with
      | Some x, Some y => Returns (PInt (x + y))
      | _, _ => Raises (mkExn TypeError "unsupported operand type(s) for +" None)
      end
  end.

(** [v == s] for a string literal [s]. *)
Definition eq_str (v : pyval) (s : string) : bool :=
  match v with
  | PStr x => String.eqb x s
  | _ => false
  end.

End PyVal.

Notation "'let!' x ':=' r 'in' k" := (PyVal.rbind r (fun x => k))
  (at level 10, x name, r at level 100, k at level 200).

(* ================================================================== *)
(** * intsights.py: class IntSights *)
(* ================================================================== *)

Module IntSightsPy.
Import PyStr PyVal.

(** Modelled from the spec: the enumeration [ResultSeverity] of
    [result_severity.py], which is not among the sources; the specification
    names its four levels, information, warning, high and unknown. *)
Inductive ResultSeverity : Type :=
| information
| warning
| high
| unknown.

Section Provider.

(** The inherited method [HttpTIProvider._failed_response], whose class is
    not among the sources. *)
Variable _failed_response : pydict -> bool.

(** [datetime.datetime.strptime(text, format)] *)
Variable strptime : string -> string -> result datetime.

(** [dt.datetime.strptime(v, format)] with the type check of its first
    argument. *)
Definition dt_strptime (v : pyval) (format : string) : result pyval :=
  match v with
  | PStr text =>
      let! d := strptime text format in
      Returns (PDatetime d)
  | _ => Raises (mkExn TypeError "strptime() argument 1 must be str" None)
  end.

(** [response["RawResult"].get(key, default)] *)
Definition raw_get (response : pydict) (key : string) (default : pyval)
  : result pyval :=
  let! raw := getitem response "RawResult" in
  get raw key default.

(** [IntSights.parse_results] *)
Definition parse_results (response : pydict)
  : result (bool * ResultSeverity * pyval) :=
  let! not_found :=
    (if _failed_response response then Returns true
     else
       let! raw := getitem response "RawResult" in
       Returns (negb (isinstance_dict raw))) in
  if not_found then Returns (false, information, PStr "Not found.")
  else
    let! whitelisted := raw_get response "whitelisted" (PBool false) in
    if truth whitelisted then Returns (false, information, PStr "Whitelisted.")
    else
      let! sev := raw_get response "severity" (PStr "Low") in
      let! threat_actors := raw_get response "relatedThreatActors" (PStr "") in
      let! geolocation := raw_get response "geolocation" PNone in
      let! response_code := getitem response "Status" in
      let! tags := raw_get response "tags" (PList []) in
      let! system_tags := raw_get response "SystemTags" (PList []) in
      let! all_tags := add tags system_tags in
      let! malware := raw_get response "relatedMalware" (PList []) in
      let! campaigns := raw_get response "relatedCampaigns" (PList []) in
      let! score := raw_get response "score" (PInt 0) in
      let! first_seen_text := raw_get response "firstSeen" PNone in
      let! first_seen := dt_strptime first_seen_text "%Y-%m-%dT%H:%M:%S.%fZ" in
      let! last_seen_text := raw_get response "lastSeen" PNone in
      let! last_seen := dt_strptime last_seen_text "%Y-%m-%dT%H:%M:%S.%fZ" in
      let! last_update_text := raw_get response "lastUpdateDate" PNone in
      let! last_update := dt_strptime last_update_text "%Y-%m-%dT%H:%M:%S.%fZ" in
      let result_dict :=
        PDict [("threat_actors", threat_actors);
               ("geolocation", geolocation);
               ("response_code", response_code);
               ("tags", all_tags);
               ("malware", malware);
               ("campaigns", campaigns);
               ("score", score);
               ("first_seen", first_seen);
               ("last_seen", last_seen);
               ("last_update", last_update)] in
      let severity :=
        if eq_str sev "Low" then information
        else if eq_str sev "Medium" then warning
        else if eq_str sev "High" then high
        else unknown in
      Returns (true, severity, result_dict).

End Provider.

(** ** Stand-ins for the two parameters, used in the examples *)

(** A failure test in the manner of the base class: a response has failed
    when its [Status] is absent or is not 200. *)
Definition status_failed_response (response : pydict) : bool :=
  match lookup response "Status" with
  | Some (PInt 200) => false
  | _ => true
  end.

Definition digit_value (c : ascii) : option Z :=
  let n := ord c in
  if (48 <=? n) && (n <=? 57) then Some (n - 48) else None.

Fixpoint number (s : string) (acc : Z) : option Z :=
  match s with
  | EmptyString => Some acc
  | String c rest =>
      match digit_value c with
      | Some d => number rest (acc * 10 + d)
      | None => None
      end
  end.

Definition is_leap (y : Z) : bool :=
  ((y mod 4 =? 0) && negb (y mod 100 =? 0)) || (y mod 400 =? 0).

Definition days_in_month (y m : Z) : Z :=
  if m =? 2 then (if is_leap y then 29 else 28)
  else if (m =? 4) || (m =? 6) || (m =? 9) || (m =? 11) then 30
  else 31.

(** A [strptime] for the one format the parser uses, restricted to
    zero-padded fields: [YYYY-MM-DDTHH:MM:SS.f..fZ] with one to six digits of
    fraction, a valid calendar date and seconds below 60.  On such text it
    returns the [datetime] that [datetime.strptime] returns; everything else
    is refused with a [ValueError]. *)
Definition strptime_padded (text format : string) : result datetime :=
  let bad := Raises (mkExn ValueError "time data does not match format" None) in
  if negb (String.eqb format "%Y-%m-%dT%H:%M:%S.%fZ") then bad
  else
    let n := String.length text in
    let frac_len := (n - 21)%nat in
    if negb ((22 <=? n)%nat && (n <=? 27)%nat) then bad
    else if negb (String.eqb (substring 4 1 text) "-"
                  && String.eqb (substring 7 1 text) "-"
                  && String.eqb (substring 10 1 text) "T"
                  && String.eqb (substring 13 1 text) ":"
                  && String.eqb (substring 16 1 text) ":"
                  && String.eqb (substring 19 1 text) "."
                  && String.eqb (substring (n - 1) 1 text) "Z") then bad
    else
      match number (substring 0 4 text) 0, number (substring 5 2 text) 0,
            number (substring 8 2 text) 0, number (substring 11 2 text) 0,
            number (substring 14 2 text) 0, number (substring 17 2 text) 0,
            number (substring 20 frac_len text) 0 with
      | Some y, Some mo, Some d, Some h, Some mi, Some s, Some f =>
          if (1 <=? y) && (1 <=? mo) && (mo <=? 12) && (1 <=? d)
             && (d <=? days_in_month y mo) && (h <=? 23) && (mi <=? 59)
             && (s <=? 59)
          then Returns (mkDatetime y mo d h mi s
                          (f * 10 ^ (6 - Z.of_nat frac_len)))
          else bad
      | _, _, _, _, _, _, _ => bad
      end.

(** Sample responses. *)
Definition sample_raw : pydict :=
  [("severity", PStr "High");
   ("tags", PList [PStr "botnet"]);
   ("firstSeen", PStr "2020-01-02T03:04:05.678Z");
   ("lastSeen", PStr "2021-02-28T23:59:59.000001Z");
   ("lastUpdateDate", PStr "2024-02-29T00:00:00.5Z")].

Definition sample_response : pydict :=
  [("Status", PInt 200); ("RawResult", PDict sample_raw)].

Definition sample_response_without_first_seen : pydict :=
  [("Status", PInt 200);
   ("RawResult", PDict [("severity", PStr "High");
                        ("lastSeen", PStr "2021-02-28T23:59:59.000001Z");
                        ("lastUpdateDate", PStr "2024-02-29T00:00:00.5Z")])].

End IntSightsPy.
(* ================================================================== *)
(** * Notions used to state the properties *)
(* ================================================================== *)

Module Notions.
Import PyStr Effects LAUploaderPy.

(** The request that [_post_data] builds from its arguments, the date it
    read and the signature it computed. *)
Definition built_request (self : LAUploader) (body table_name date signature : string)
  : request :=
  mkRequest
    (((("https://" ++ workspace self) ++ ops_loc self) ++ "/api/logs")
     ++ "?api-version=2016-04-01")
    body
    [("content-type", "application/json");
     ("Authorization", signature);
     ("Log-Type", Re.sub_class_plus Re.not_A_Za_z0_9_underscore "" table_name);
     ("x-ms-date", date)].

(** The value of a header of a request. *)
Fixpoint header (name : string) (headers : list (string * string)) : option string :=
  match headers with
  | [] => None
  | (k, v) :: rest => if String.eqb k name then Some v else header name rest
  end.

Definition log_type (r : request) : option string := header "Log-Type" (req_headers r).

(** The bodies of a list of recorded requests. *)
Definition bodies (l : list (request * post_outcome)) : list string :=
  map (fun p => req_data (fst p)) l.

(** A request has failed unless it was answered with a status from 200 to
    299. *)
Definition failed (o : post_outcome) : bool :=
  match o with
  | Response status_code => (status_code <? 200) || (status_code >? 299)
  | _ => true
  end.

(** The exception that [_post_data] raises for a failed request. *)
Definition raised_for (o : post_outcome) : exn :=
  match o with
  | RaisesConnectionError _ => unable_to_connect
  | RaisesRequestException msg => mkExn RequestException msg None
  | Response status_code => upload_failed status_code
  end.

(** The service answers every request with a status from 200 to 299. *)
Definition accepts_all (env : environment) : Prop :=
  forall history r, failed (requests_post env history r) = false.

(** The batching as the specification words it: records are appended one at
    a time; after each append the size of the serialised batch is compared
    with the ceiling; a batch over the ceiling is emitted with the record
    that took it there and accumulation restarts from the empty batch; at
    the end of the source a non-empty residue is emitted. *)
Fixpoint spec_batches (size : list Json.record -> Z) (ceiling : Z)
         (records batch : list Json.record) : list (list Json.record) :=
  match records with
  | [] => match batch with [] => [] | _ :: _ => [batch] end
  | r :: rest =>
      let batch := (batch ++ [r])%list in
      if size batch >? ceiling
      then batch :: spec_batches size ceiling rest []
      else spec_batches size ceiling rest batch
  end.

(** The size that [upload_df] measures. *)
Definition measured_size (env : environment) (events : list Json.record) : Z :=
  sys_getsizeof env (Json.dumps events).

(** The sanitisation of a table name as the specification words it: the
    characters that are ASCII letters, digits or the underscore are kept, in
    order. *)
Definition word_chars : string :=
  "ABCDEFGHIJKLMNOPQRSTUVWXYZabcdefghijklmnopqrstuvwxyz0123456789_".

Fixpoint occurs (c : ascii) (s : string) : bool :=
  match s with
  | EmptyString => false
  | String d rest => Ascii.eqb c d || occurs c rest
  end.

Fixpoint keep_word_chars (s : string) : string :=
  match s with
  | EmptyString => ""
  | String c rest =>
      if occurs c word_chars then String c (keep_word_chars rest)
      else keep_word_chars rest
  end.

(** The requests that a computation adds to the record keep to fail-fast
    when either none of them failed, or only the last one did and the
    computation raised the exception of that failure. *)
Definition all_accepted (l : list (request * post_outcome)) : Prop :=
  Forall (fun p => failed (snd p) = false) l.

Definition stops_at_failure {A : Type} (new : list (request * post_outcome))
           (res : result A) : Prop :=
  all_accepted new
  \/ exists l r o,
       new = (l ++ [(r, o)])%list /\ all_accepted l /\ failed o = true
       /\ res = Raises (raised_for o).

Definition fail_fast {A : Type} (m : M A) : Prop :=
  forall w, exists new,
    posted (snd (m w)) = (posted w ++ new)%list
    /\ stops_at_failure new (fst (m w)).

(** ** Sample surroundings and inputs *)

(** A service that answers every request with [status_code]. *)
Definition answering (status_code : Z) : list request -> request -> post_outcome :=
  fun _ _ => Response status_code.

(** A service that cannot be reached. *)
Definition unreachable : list request -> request -> post_outcome :=
  fun _ _ => RaisesConnectionError "Connection refused".

(** A service that accepts the first [n] requests and answers the later
    ones with 403. *)
Definition forbidding_after (n : nat) : list request -> request -> post_outcome :=
  fun history _ =>
    if (List.length history <? n)%nat then Response 200 else Response 403.

(** A POSIX system running CPython 3.11, where the header of an ASCII [str]
    takes 49 bytes, with a given service, directory listing and files. *)
Definition posix_env (service : list request -> request -> post_outcome)
           (listing : string -> list string)
           (files : string -> string -> result Pandas.DataFrame) : environment :=
  mkEnv service (fun _ => "Mon, 02 Nov 2026 10:00:00 GMT") 49
        Pathlib.posix Pathlib.fnmatch listing files.

Definition no_listing : string -> list string := fun _ => [].

Definition no_files : string -> string -> result Pandas.DataFrame :=
  fun _ _ => Raises (mkExn OSError "No such file or directory" None).

(** An uploader for workspace ["ws"] whose secret is the base64 of
    ["secret-key"]. *)
Definition sample_uploader : LAUploader :=
  __init__ "ws" "c2VjcmV0LWtleQ==" None None.

Definition fresh : world := mkWorld [] 0 [].

(** The requests that a computation adds stop at the first failed one: no
    request follows it, and the computation raises its exception. *)
Definition aborts_at_first_failure {A : Type} (m : M A) : Prop :=
  forall w, exists new,
    posted (snd (m w)) = (posted w ++ new)%list
    /\ forall before r o after,
         new = (before ++ (r, o) :: after)%list -> failed o = true ->
         after = [] /\ fst (m w) = Raises (raised_for o).

(** Every request that a computation adds satisfies [P]. *)
Definition posts_only {A : Type} (P : request -> Prop) (m : M A) : Prop :=
  forall w, exists new,
    posted (snd (m w)) = (posted w ++ new)%list
    /\ Forall (fun p => P (fst p)) new.

(** A string of [n] copies of a character. *)
Fixpoint repeat_char (c : ascii) (n : nat) : string :=
  match n with
  | O => ""
  | S n' => String c (repeat_char c n')
  end.

(** A row with one column ["c"] whose value is 10,485,751 letters, so that
    its JSON object [{"c": "aa...a"}] takes 10 MiB = 10,485,760 characters. *)
Definition ten_mib_value : string := repeat_char "a" (Z.to_nat 10485751).

Definition ten_mib_row : Pandas.Series := [("c", Pandas.CStr ten_mib_value)].

Definition ten_mib_record : Json.record := [("c", ten_mib_value)].

End Notions.

(* ================================================================== *)
(** * rag_agents.py, rag_magic.py and executor_agent_magic.py *)
(* ================================================================== *)

Module AgentsPy.
Import PyStr PyVal.

(** ** The string methods used *)

(** [c.isspace()] for a code point below 256. *)
Definition isspace (c : ascii) : bool :=
  let n := ord c in
  ((9 <=? n) && (n <=? 13)) || ((28 <=? n) && (n <=? 32))
  || (n =? 133) || (n =? 160).

(** [s.lstrip()], [s.rstrip()], [s.strip()] *)
Fixpoint lstrip (s : string) : string :=
  match s with
  | EmptyString => ""
  | String c rest => if isspace c then lstrip rest else s
  end.

Fixpoint rstrip (s : string) : string :=
  match s with
  | EmptyString => ""
  | String c rest =>
      let rest' := rstrip rest in
      if isspace c && String.eqb rest' "" then "" else String c rest'
  end.

Definition strip (s : string) : string := rstrip (lstrip s).

(** [needle in s] for two strings: [needle] occurs somewhere in [s]. *)
Fixpoint contains (s needle : string) : bool :=
  String.prefix needle s
  || match s with
     | EmptyString => false
     | String _ rest => contains rest needle
     end.

Fixpoint keyword_value (name : string) (kwargs : list (string * string))
  : option string :=
  match kwargs with
  | [] => None
  | (k, v) :: rest => if String.eqb k name then Some v else keyword_value name rest
  end.

(** [template.format] with keyword arguments of string value, for templates whose
    replacement fields are plain names: [{{] and [}}] stand for a brace, and
    [{name}] is replaced by the value of [name] ([KeyError] when there is
    none).  [field] is the name being read, when inside a field.  Positional
    fields ([{}], [{0}]), conversions, format specifications, attributes and
    indices are not part of this model: [plain_fields] tells the templates
    that have none of them. *)
Fixpoint format_loop (template : string) (field : option string)
         (kwargs : list (string * string)) : result string :=
  match field, template with
  | None, EmptyString => Returns ""
  | None, String "{" (String "{" rest) =>
      let! t := format_loop rest None kwargs in Returns (String "{" t)
  | None, String "{" rest => format_loop rest (Some "") kwargs
  | None, String "}" (String "}" rest) =>
      let! t := format_loop rest None kwargs in Returns (String "}" t)
  | None, String "}" _ =>
      Raises (mkExn ValueError "Single '}' encountered in format string" None)
  | None, String c rest =>
      let! t := format_loop rest None kwargs in Returns (String c t)
  | Some name, EmptyString =>
      Raises (mkExn ValueError
                (if String.eqb name ""
                 then "Single '{' encountered in format string"
                 else "expected '}' before end of string") None)
  | Some name, String "}" rest =>
      match keyword_value name kwargs with
      | Some v => let! t := format_loop rest None kwargs in Returns (v ++ t)
      | None => Raises (mkExn KeyError name None)
      end
  | Some name, String "{" _ =>
      Raises (mkExn ValueError "unexpected '{' in field name" None)
  | Some name, String c rest => format_loop rest (Some (name ++ String c "")) kwargs
  end.

(** A field name within the model: not empty, not a number, and free of
    [!], [:], [.] and [[]. *)
Definition plain_name (name : string) : bool :=
  negb (forallb (fun c => (48 <=? ord c) && (ord c <=? 57))
                (list_ascii_of_string name))
  && forallb (fun c => negb ((ord c =? 33) || (ord c =? 58)
                             || (ord c =? 46) || (ord c =? 91)))
             (list_ascii_of_string name).

(** Every replacement field of the template has a plain name. *)
Fixpoint plain_fields (template : string) (field : option string) : bool :=
  match field, template with
  | None, EmptyString => true
  | None, String "{" (String "{" rest) => plain_fields rest None
  | None, String "{" rest => plain_fields rest (Some "")
  | None, String _ rest => plain_fields rest None
  | Some name, EmptyString => true
  | Some name, String "}" rest => plain_name name && plain_fields rest None
  | Some name, String c rest => plain_fields rest (Some (name ++ String c ""))
  end.

Definition format (template : string) (kwargs : list (string * string))
  : result string :=
  format_loop template None kwargs.

(** ** Calls *)

(** An argument of a call: an agent object (known by its name) or a
    string. *)
Inductive arg : Type :=
| AgentArg (name : string)
| StrArg (s : string).

Fixpoint index_of (name : string) (params : list string) : option nat :=
  match params with
  | [] => None
  | p :: rest =>
      if String.eqb p name then Some 0%nat
      else match index_of name rest with
           | Some i => Some (S i)
           | None => None
           end
  end.

(** The names of the missing parameters as CPython lists them. *)
Fixpoint quoted_names_tail (names : list string) : string :=
  match names with
  | [] => ""
  | [a] => "and '" ++ a ++ "'"
  | a :: rest => "'" ++ a ++ "', " ++ quoted_names_tail rest
  end.

Definition quoted_names (names : list string) : string :=
  match names with
  | [] => ""
  | [a] => "'" ++ a ++ "'"
  | [a; b] => "'" ++ a ++ "' and '" ++ b ++ "'"
  | a :: rest => "'" ++ a ++ "', " ++ quoted_names_tail rest
  end.

(** The keyword arguments of a call, checked in order against the
    parameters: a name that is no parameter, or a parameter that a
    positional argument already fills, is a [TypeError]. *)
Fixpoint bind_keywords (fname : string) (params : list string)
         (n_positional : nat) (kwargs : list (string * arg))
  : result (list (string * arg)) :=
  match kwargs with
  | [] => Returns []
  | (k, v) :: rest =>
      match index_of k params with
      | None =>
          Raises (mkExn TypeError
                    (fname ++ "() got an unexpected keyword argument '" ++ k ++ "'")
                    None)
      | Some i =>
          if (i <? n_positional)%nat
          then Raises (mkExn TypeError
                         (fname ++ "() got multiple values for argument '" ++ k ++ "'")
                         None)
          else let! bound := bind_keywords fname params n_positional rest in
               Returns ((k, v) :: bound)
      end
  end.

Fixpoint bound_value (name : string) (bound : list (string * arg)) : option arg :=
  match bound with
  | [] => None
  | (k, v) :: rest => if String.eqb k name then Some v else bound_value name rest
  end.

(** The binding of the positional and keyword arguments of a call to the
    parameters of a function defined with plain parameters (no defaults, no
    [*args], no [**kwargs]), in the order in which CPython reports errors:
    keywords first, then too many positional arguments, then missing
    ones. *)
Definition bind_arguments (fname : string) (params : list string)
           (args : list arg) (kwargs : list (string * arg))
  : result (list (string * arg)) :=
  let n := List.length args in
  let! keywords := bind_keywords fname params n kwargs in
  if (List.length params <? n)%nat then
    Raises (mkExn TypeError
              (fname ++ "() takes " ++ str_int (Z.of_nat (List.length params))
                 ++ (if (List.length params =? 1)%nat
                     then " positional argument but "
                     else " positional arguments but ")
                 ++ str_int (Z.of_nat n)
                 ++ (if (n =? 1)%nat then " was given" else " were given"))
              None)
  else
    let bound := (combine params args ++ keywords)%list in
    let missing :=
      filter (fun p => match bound_value p bound with
                       | Some _ => false
                       | None => true
                       end) params in
    match missing with
    | [] => Returns bound
    | _ :: _ =>
        Raises (mkExn TypeError
                  (fname ++ "() missing " ++ str_int (Z.of_nat (List.length missing))
                     ++ (if (List.length missing =? 1)%nat
                         then " required positional argument: "
                         else " required positional arguments: ")
                     ++ quoted_names missing)
                  None)
    end.

(** ** The notebook and the agents *)

(** What the magics do to the outside: calls of the agents' methods and
    output. *)
Inductive agent_event : Type :=
| Reset (agent : string)
| InitiateChat (proxy recipient problem : string)
| DisplayMarkdown (text : string).

(** [autogen]'s [ChatResult], of which the magics read the summary. *)
Record ChatResult : Type := mkChatResult { summary : string }.

(** The agents' side of a chat: given what happened before and the problem,
    [initiate_chat] returns a result or raises. *)
Definition chat_service : Type :=
  list agent_event -> string -> result ChatResult.

Definition AM (A : Type) : Type :=
  list agent_event -> result A * list agent_event.

Definition aret {A : Type} (a : A) : AM A := fun h => (Returns a, h).

Definition araise {A : Type} (e : exn) : AM A := fun h => (Raises e, h).

Definition abind {A B : Type} (m : AM A) (k : A -> AM B) : AM B :=
  fun h =>
    match m h with
    | (Returns a, h') => k a h'
    | (Raises e, h') => (Raises e, h')
    end.

Definition alift {A : Type} (r : result A) : AM A := fun h => (r, h).

Definition record (ev : agent_event) : AM unit :=
  fun h => (Returns tt, (h ++ [ev])%list).

(** A Python function with plain parameters. *)
Record pyfunction : Type := mkFunction {
  fname : string;
  fparams : list string;
  fbody : list (string * arg) -> AM ChatResult
}.

(** A call of [f] with positional and keyword arguments. *)
Definition call (f : pyfunction) (args : list arg) (kwargs : list (string * arg))
  : AM ChatResult :=
  match bind_arguments (fname f) (fparams f) args kwargs with
  | Raises e => araise e
  | Returns bound => fbody f bound
  end.

(** A method of an agent, called on an argument: a string has no such
    method. *)
Definition agent_name (method : string) (a : option arg) : result string :=
  match a with
  | Some (AgentArg name) => Returns name
  | _ => Raises (mkExn AttributeError
                   ("'str' object has no attribute '" ++ method ++ "'") None)
  end.

Definition text_of (a : option arg) : string :=
  match a with
  | Some (StrArg s) => s
  | Some (AgentArg name) => name
  | None => ""
  end.

(** [rag_agents.ask_question] *)
Definition ask_question (chat : chat_service) : pyfunction :=
  mkFunction "ask_question"
    ["assistant_agent"; "user_proxy_agent"; "question"]
    (fun bound =>
       let assistant_agent := bound_value "assistant_agent" bound in
       let user_proxy_agent := bound_value "user_proxy_agent" bound in
       let question := bound_value "question" bound in
       abind (alift (agent_name "reset" assistant_agent)) (fun assistant =>
       abind (record (Reset assistant)) (fun _ =>
       abind (alift (agent_name "initiate_chat" user_proxy_agent)) (fun proxy =>
       fun h =>
         (chat h (text_of question),
          (h ++ [InitiateChat proxy assistant (text_of question)])%list))))).

(** The text of [CUSTOM_SYSTEM_MESSAGE], line by line ([q] is the double
    quote). *)
Definition CUSTOM_SYSTEM_MESSAGE : string :=
  let q := String "034"%char "" in
  join nl
  ["";
   "    Answer the question. If you don't know the answer, just say that you don't know, don't try to make";
   "    up an answer.";
   "";
   "    Question: <<<{question}>>>";
   "";
   "    Additional instructions:";
   "    1. When answering give preference to functions that are exposed";
   "    via a pandas extension method (e.g. `df.mp_plot.<func_name>()`) or";
   "    a pivot function (e.g. `IpAddress.<func_name>()`) over a standard function.";
   "";
   "    2. Supply any relevant code examples and include these with your answer";
   "    (ensure you delimit the code with triple backticks and add the language name).";
   "";
   "    3. Examine your answer and ensure that you are not using functions imported";
   "    from a deprecated location. Your examples must not include any functions or";
   "    modules imported from the paths 'msticpy.sectools' or 'msticpy.nbtools'.";
   "";
   "    4. The URL reference to the source document is included in the " ++ q ++ "url" ++ q ++ " property";
   "    of the retrieved document metadata. Try to include a URL reference";
   "    to the source documents.";
   "";
   "    5. Do not infer the existence of msticpy methods or classes that you have not seen in your context. If you are";
   "    asked about something and you cannot find an exact match for the term that you being are asked for,";
   "    clarify this with the user. Say that you could not find " ++ q ++ "<unmatched-term>" ++ q ++ ". If you have some close matches add those";
   "    to the response as alternatives that the user may be searching for (e.g. " ++ q ++ "Did you mean " ++ q ++ "<alternative_1>" ++ q ++ " or " ++ q ++ "<alternative_2>)" ++ q;
   "";
   "    Return the answer in Markdown format.";
   ""].

(** [rag_magic.DocsRagMagic]: the two agents it holds. *)
Record DocsRagMagic : Type := mkDocsRagMagic {
  assistant_agent : string;
  user_proxy_agent : string
}.

(** [IPython.display.display_markdown(text, raw=True)] *)
Definition display_markdown (text : string) : AM unit := record (DisplayMarkdown text).

(** [DocsRagMagic.ask] *)
Definition ask (chat : chat_service) (self : DocsRagMagic) (line cell : string)
  : AM unit :=
  let question := strip cell in
  abind (alift (format CUSTOM_SYSTEM_MESSAGE [("question", question)]))
        (fun agent_prompt =>
  abind (call (ask_question chat)
              [AgentArg (assistant_agent self); AgentArg (user_proxy_agent self)]
              [("question", StrArg question); ("agent_prompt", StrArg agent_prompt)])
        (fun response =>
  let answer := summary response in
  abind (display_markdown (nl ++ "**Question**: " ++ question)) (fun _ =>
  display_markdown (nl ++ "**Answer**: " ++ answer)))).

(** ** executor_agent_magic.py *)

(** [needle in container] for a string [needle]. *)
Definition contains_item (needle : string) (container : pyval) : result bool :=
  match container with
  | PStr s => Returns (contains s needle)
  | PList items => Returns (existsb (fun v => eq_str v needle) items)
  | PDict items => Returns (existsb (fun kv => String.eqb (fst kv) needle) items)
  | _ => Raises (mkExn TypeError "argument is not iterable" None)
  end.

Definition is_None (v : pyval) : bool :=
  match v with
  | PNone => true
  | _ => false
  end.

(** The [is_termination_msg] of the user proxy of [CodeAutogenMagic]:
    [lambda msg: msg.get("content") is not None and "TERMINATE" in msg["content"]] *)
Definition is_termination_msg (msg : pydict) : result bool :=
  let! content := get (PDict msg) "content" PNone in
  if negb (is_None content) then
    let! content := getitem msg "content" in
    contains_item "TERMINATE" content
  else Returns false.

(** [rag_agents.add_two_numbers] *)
Definition add_two_numbers (a b : Z) : Z := a + b.

End AgentsPy.

(* ================================================================== *)
(** * Further notions *)
(* ================================================================== *)

Module MoreNotions.
Import PyStr Effects LAUploaderPy Notions.

(** A request as [_post_data] of [self] makes them: it goes to the
    workspace's endpoint, has the four headers in their order, its date is a
    reading of the clock, and its [Authorization] is the signature of that
    date and of the length of its own body. *)
Definition well_signed (env : environment) (self : LAUploader) (r : request) : Prop :=
  req_uri r
  = "https://" ++ workspace self ++ ops_loc self ++ "/api/logs?api-version=2016-04-01"
  /\ exists signature table date n,
       req_headers r
       = [("content-type", "application/json");
          ("Authorization", signature);
          ("Log-Type", table);
          ("x-ms-date", date)]
       /\ date = utcnow_strftime env n
       /\ _build_signature self date (len (req_data r)) "POST"
            "application/json" "/api/logs"
          = Returns signature.

(** Seen without its last record a batch is within the ceiling (or empty). *)
Definition within_before_last (size : list Json.record -> Z) (ceiling : Z)
           (b : list Json.record) : Prop :=
  removelast b = [] \/ size (removelast b) <= ceiling.

(** The events of the progress bar, as opposed to printed lines. *)
Definition is_progress (ev : console_event) : bool :=
  match ev with
  | Print _ => false
  | _ => true
  end.

(** A computation adds printed lines to the console, and nothing else. *)
Definition prints_only {A : Type} (m : M A) : Prop :=
  forall w, exists said,
    console (snd (m w)) = (console w ++ said)%list
    /\ filter is_progress said = [].

(** The bodies that the upload of one file of a folder is to send: the
    batches of its rows, serialised; none when the file cannot be read. *)
Definition file_bodies (env : environment) (delim : string)
           (path : Pathlib.PurePath) : list string :=
  match read_csv env (Pathlib.render (flavour env) path) delim with
  | Returns data =>
      map Json.dumps
          (spec_batches (measured_size env) 26214400
             (map Pandas.astype_str_to_dict data) [])
  | Raises _ => []
  end.

(** Each request that a computation adds was made with a clock reading of
    its own: the clock is read once per request, and the date header of the
    [i]-th new request is the [i]-th new reading. *)
Definition reads_clock_per_request {A : Type} (env : environment) (m : M A) : Prop :=
  forall w, exists new,
    posted (snd (m w)) = (posted w ++ new)%list
    /\ clock_reads (snd (m w)) = (clock_reads w + List.length new)%nat
    /\ forall i p,
         nth_error new i = Some p ->
         header "x-ms-date" (req_headers (fst p))
         = Some (utcnow_strftime env (clock_reads w + i)).

(** The body and the table of each request of a list. *)
Definition body_and_table (l : list (request * post_outcome))
  : list (string * option string) :=
  map (fun p => (req_data (fst p), log_type (fst p))) l.

(** An uploader whose secret [base64] refuses: nine characters of the
    alphabet, one more than a multiple of four. *)
Definition uploader_with_bad_secret : LAUploader :=
  __init__ "ws" "not base64!" None None.

(** A table of two rows. *)
Definition two_rows : Pandas.DataFrame :=
  [[("host", Pandas.CStr "srv1"); ("port", Pandas.CInt 22)];
   [("host", Pandas.CStr "srv2"); ("port", Pandas.CInt 443)]].

End MoreNotions.

(* ================================================================== *)
(** * Properties *)
(* ================================================================== *)

Module MonadFacts.
Import PyStr Effects LAUploaderPy Notions.

(** What one call of [_post_data] does, step by step: the clock is read, the
    signature is built, and if that succeeds exactly one request is recorded
    and its outcome decides the result. *)
Lemma _post_data_run (env : environment) (self : LAUploader)
      (body table_name : string) (w : world) :
  _post_data env self body table_name w =
  let date := utcnow_strftime env (clock_reads w) in
  match _build_signature self date (len body) "POST" "application/json" "/api/logs" with
  | Raises e => (Raises e, mkWorld (posted w) (S (clock_reads w)) (console w))
  | Returns signature =>
      let req := built_request self body table_name date signature in
      let o := requests_post env (map fst (posted w)) req in
      let said :=
        match o with
        | Response status_code =>
            if _debug self
            then [Print ("Upload response code: " ++ str_int status_code)]
            else []
        | _ => []
        end in
      (if failed o then Raises (raised_for o) else Returns tt,
       mkWorld (posted w ++ [(req, o)]) (S (clock_reads w)) (console w ++ said))
  end.
Proof.
  unfold _post_data, bind, utcnow, lift, try_except, post, raise, ret, print.
  cbv zeta. cbn [posted clock_reads console].
  destruct (_build_signature self (utcnow_strftime env (clock_reads w))
              (len body) "POST" "application/json" "/api/logs") as [sig | e];
    [ | reflexivity ].
  fold (built_request self body table_name (utcnow_strftime env (clock_reads w)) sig).
  destruct (requests_post env (map fst (posted w))
              (built_request self body table_name
                 (utcnow_strftime env (clock_reads w)) sig)) as [msg | msg | sc];
    cbn [exc_type exc_class_eqb failed raised_for posted clock_reads console].
  - rewrite app_nil_r. reflexivity.
  - rewrite app_nil_r. reflexivity.
  - destruct (_debug self); cbn [posted clock_reads console];
      destruct ((sc <? 200) || (sc >? 299)); cbn; rewrite ?app_nil_r; reflexivity.
Qed.

End MonadFacts.

Module FailFast.
Import PyStr Effects LAUploaderPy Notions MonadFacts.

Lemma quiet_fail_fast {A : Type} (m : M A) :
  (forall w, posted (snd (m w)) = posted w) -> fail_fast m.
Proof.
  intros H w. exists []. rewrite app_nil_r. split; [apply H | left; constructor].
Qed.

Lemma ret_fail_fast {A : Type} (a : A) : fail_fast (ret a).
Proof. apply quiet_fail_fast. reflexivity. Qed.

Lemma raise_fail_fast {A : Type} (e : exn) : fail_fast (@raise A e).
Proof. apply quiet_fail_fast. reflexivity. Qed.

Lemma lift_fail_fast {A : Type} (r : result A) : fail_fast (lift r).
Proof. apply quiet_fail_fast. reflexivity. Qed.

Lemma print_fail_fast (line : string) : fail_fast (print line).
Proof. apply quiet_fail_fast. reflexivity. Qed.

Lemma tqdm_fail_fast (ev : console_event) : fail_fast (tqdm ev).
Proof. apply quiet_fail_fast. reflexivity. Qed.

(** Sequencing keeps fail-fast: what follows a computation runs only when
    that computation returned, and then none of its requests had failed. *)
Lemma bind_fail_fast {A B : Type} (m : M A) (k : A -> M B) :
  fail_fast m -> (forall a, fail_fast (k a)) -> fail_fast (bind m k).
Proof.
  intros Hm Hk w. unfold bind.
  destruct (Hm w) as [new1 [Hp1 Ht1]].
  destruct (m w) as [[a | e] w1] eqn:Hrun; cbn [fst snd] in *.
  - destruct (Hk a w1) as [new2 [Hp2 Ht2]].
    exists (new1 ++ new2)%list. split.
    + rewrite Hp2, Hp1, app_assoc. reflexivity.
    + assert (Hok : all_accepted new1).
      { destruct Ht1 as [Hok | [l [r [o [_ [_ [_ Habs]]]]]]];
          [exact Hok | discriminate Habs]. }
      destruct Ht2 as [Hok2 | [l [r [o [Hl [Hokl [Hf Hres]]]]]]].
      * left. apply Forall_app. split; assumption.
      * right. exists (new1 ++ l)%list, r, o. repeat split.
        -- rewrite Hl, app_assoc. reflexivity.
        -- apply Forall_app. split; assumption.
        -- exact Hf.
        -- exact Hres.
  - exists new1. split; [exact Hp1 | ].
    destruct Ht1 as [Hok | [l [r [o [Hl [Hokl [Hf Hres]]]]]]].
    + left. exact Hok.
    + right. exists l, r, o. repeat split; try assumption.
      inversion Hres. reflexivity.
Qed.

Lemma _post_data_fail_fast (env : environment) (self : LAUploader)
      (body table_name : string) :
  fail_fast (_post_data env self body table_name).
Proof.
  intros w. rewrite _post_data_run. cbv zeta.
  destruct (_build_signature self (utcnow_strftime env (clock_reads w))
              (len body) "POST" "application/json" "/api/logs") as [sig | e].
  - cbn [fst snd posted].
    set (req := built_request self body table_name _ sig).
    set (o := requests_post env (map fst (posted w)) req).
    exists [(req, o)]. split; [reflexivity | ].
    destruct (failed o) eqn:Hf.
    + right. exists [], req, o. repeat split; [constructor | exact Hf].
    + left. constructor; [exact Hf | constructor].
  - exists []. cbn [fst snd posted]. rewrite app_nil_r.
    split; [reflexivity | left; constructor].
Qed.

Lemma upload_df_loop_fail_fast (env : environment) (self : LAUploader)
      (table_name : string) (rows : Pandas.DataFrame) :
  forall events, fail_fast (upload_df_loop env self table_name rows events).
Proof.
  induction rows as [| row rest IH]; intros events.
  - apply ret_fail_fast.
  - cbn [upload_df_loop].
    destruct (sys_getsizeof env (Json.dumps (events ++ [Pandas.astype_str_to_dict row])) >? 26214400).
    + apply bind_fail_fast.
      * destruct (_debug self); [apply print_fail_fast | apply ret_fail_fast].
      * intros _. apply bind_fail_fast; [apply _post_data_fail_fast | intros _; apply IH].
    + apply IH.
Qed.

Lemma upload_df_fail_fast (env : environment) (self : LAUploader)
      (data : Pandas.DataFrame) (table_name : string) :
  fail_fast (upload_df env self data table_name).
Proof.
  unfold upload_df. apply bind_fail_fast; [apply upload_df_loop_fail_fast | ].
  intros events. apply bind_fail_fast.
  - destruct events; [apply ret_fail_fast | apply _post_data_fail_fast].
  - intros _. destruct (_debug self); [apply print_fail_fast | apply ret_fail_fast].
Qed.

Lemma upload_file_fail_fast (env : environment) (self : LAUploader)
      (file_path : string) (table_name : option string) (delim : string) :
  fail_fast (upload_file env self file_path table_name delim).
Proof.
  unfold upload_file. apply bind_fail_fast; [apply lift_fail_fast | ].
  intros data. apply upload_df_fail_fast.
Qed.

Lemma upload_folder_loop_fail_fast (env : environment) (self : LAUploader)
      (delim : string) (t_name : bool) (input_files : list Pathlib.PurePath) :
  forall table_name,
    fail_fast (upload_folder_loop env self delim t_name input_files table_name).
Proof.
  induction input_files as [| path rest IH]; intros table_name.
  - apply ret_fail_fast.
  - cbn [upload_folder_loop].
    apply bind_fail_fast; [apply lift_fail_fast | intros data].
    apply bind_fail_fast; [apply upload_df_fail_fast | intros _].
    apply bind_fail_fast; [apply tqdm_fail_fast | intros _]. apply IH.
Qed.

Lemma upload_folder_fail_fast (env : environment) (self : LAUploader)
      (folder_path : string) (table_name : option string) (delim : string) :
  fail_fast (upload_folder env self folder_path table_name delim).
Proof.
  unfold upload_folder.
  apply bind_fail_fast; [apply tqdm_fail_fast | intros _].
  apply bind_fail_fast; [apply upload_folder_loop_fail_fast | intros _].
  apply tqdm_fail_fast.
Qed.

(** A failed request in a fail-fast record is the last one, and its
    exception is the result. *)
Lemma stops_at_failure_last {A : Type} (new : list (request * post_outcome))
      (res : result A) :
  stops_at_failure new res ->
  forall before r o after,
    new = (before ++ (r, o) :: after)%list -> failed o = true ->
    after = [] /\ res = Raises (raised_for o).
Proof.
  intros [Hok | [l [r' [o' [Hl [Hokl [Hf Hres]]]]]]] before r o after Hnew Hfail.
  - exfalso. subst new. apply Forall_app in Hok. destruct Hok as [_ Hok].
    inversion Hok as [| x xs Hx _]; subst. cbn in Hx. congruence.
  - subst new.
    destruct (@exists_last _ ((r, o) :: after)) as [l' [x Hx]]; [discriminate | ].
    rewrite Hx, app_assoc in Hnew. apply app_inj_tail in Hnew.
    destruct Hnew as [Hpre Hlast]. subst x.
    destruct l' as [| y l'].
    + revert Hres. cbn in Hx. inversion Hx; subst. intros Hres.
      split; [reflexivity | exact Hres].
    + exfalso. cbn in Hx. inversion Hx; subst y.
      subst l. apply Forall_app in Hokl. destruct Hokl as [_ Hokl].
      inversion Hokl as [| z zs Hz _]; subst. cbn in Hz. congruence.
Qed.

End FailFast.

Module Batching.
Import PyStr Effects LAUploaderPy Notions MonadFacts.

(** ** The batches of the specification, as pure lists *)

Lemma spec_batches_concat (size : list Json.record -> Z) (ceiling : Z)
      (records : list Json.record) :
  forall batch,
    List.concat (spec_batches size ceiling records batch) = (batch ++ records)%list.
Proof.
  induction records as [| r rest IH]; intros batch; cbn [spec_batches].
  - destruct batch; cbn; rewrite ?app_nil_r; reflexivity.
  - destruct (size (batch ++ [r])%list >? ceiling).
    + cbn [List.concat]. rewrite IH. cbn. rewrite <- app_assoc. reflexivity.
    + rewrite IH, <- app_assoc. reflexivity.
Qed.

Lemma spec_batches_nonempty (size : list Json.record -> Z) (ceiling : Z)
      (records : list Json.record) :
  forall batch,
    Forall (fun b => b <> []) (spec_batches size ceiling records batch).
Proof.
  induction records as [| r rest IH]; intros batch; cbn [spec_batches].
  - destruct batch; constructor; [discriminate | constructor].
  - destruct (size (batch ++ [r])%list >? ceiling).
    + constructor; [ | apply IH]. destruct batch; discriminate.
    + apply IH.
Qed.

(** ** One call of [_post_data], seen from the record of requests *)

Lemma _post_data_cases (env : environment) (self : LAUploader)
      (body table_name : string) (w : world) :
  (posted (snd (_post_data env self body table_name w)) = posted w
   /\ exists e, fst (_post_data env self body table_name w) = Raises e)
  \/ exists req o,
      posted (snd (_post_data env self body table_name w)) = (posted w ++ [(req, o)])%list
      /\ req_data req = body
      /\ o = requests_post env (map fst (posted w)) req
      /\ fst (_post_data env self body table_name w)
         = if failed o then Raises (raised_for o) else Returns tt.
Proof.
  rewrite _post_data_run. cbv zeta.
  destruct (_build_signature self (utcnow_strftime env (clock_reads w))
              (len body) "POST" "application/json" "/api/logs") as [sig | e].
  - right. eexists. eexists. cbn [fst snd posted].
    split; [reflexivity | ]. split; [reflexivity | ]. split; reflexivity.
  - left. cbn [fst snd posted]. split; [reflexivity | exists e; reflexivity].
Qed.

(** The optional debugging line changes the console only. *)
Lemma debug_then {A : Type} (d : bool) (line : string) (k : M A) (w : world) :
  exists w1,
    ((if d then print line else ret tt) ;; k) w = k w1
    /\ posted w1 = posted w.
Proof.
  destruct d.
  - eexists. unfold bind, print. split; reflexivity.
  - exists w. unfold bind, ret. split; reflexivity.
Qed.

(** ** The requests of the loop and of [upload_df] *)

(** The loop posts, in order, a prefix of the batches of the specification
    (measured as the code measures them); when it returns, what it posted and
    the residue it returns make up all of them. *)
Lemma upload_df_loop_run (env : environment) (self : LAUploader)
      (table_name : string) (rows : Pandas.DataFrame) :
  forall events w,
  exists new k,
    posted (snd (upload_df_loop env self table_name rows events w))
      = (posted w ++ new)%list
    /\ bodies new
       = map Json.dumps
           (firstn k (spec_batches (measured_size env) 26214400
                        (map Pandas.astype_str_to_dict rows) events))
    /\ forall residue,
         fst (upload_df_loop env self table_name rows events w) = Returns residue ->
         spec_batches (measured_size env) 26214400
           (map Pandas.astype_str_to_dict rows) events
         = (firstn k (spec_batches (measured_size env) 26214400
                        (map Pandas.astype_str_to_dict rows) events)
            ++ match residue with [] => [] | _ :: _ => [residue] end)%list.
Proof.
  induction rows as [| row rest IH]; intros events w.
  - exists [], 0%nat. cbn. rewrite app_nil_r. repeat split.
    intros residue H. inversion H. reflexivity.
  - cbn [upload_df_loop map spec_batches].
    set (events' := (events ++ [Pandas.astype_str_to_dict row])%list).
    change (sys_getsizeof env (Json.dumps events')) with (measured_size env events').
    destruct (measured_size env events' >? 26214400).
    + destruct (debug_then (_debug self)
                  "Data larger than 25MB spliting data requests."
                  (_post_data env self (Json.dumps events') table_name ;;
                   upload_df_loop env self table_name rest []) w)
        as [w1 [Hrun Hw1]].
      rewrite Hrun. clear Hrun. unfold bind.
      destruct (_post_data_cases env self (Json.dumps events') table_name w1)
        as [[Hp [e He]] | [req [o [Hp [Hbody [_ Hres]]]]]].
      * destruct (_post_data env self (Json.dumps events') table_name w1)
          as [res w2]. cbn [fst snd] in *. subst res.
        exists [], 0%nat. cbn [fst snd]. rewrite app_nil_r, Hp, Hw1.
        repeat split. intros residue H. discriminate H.
      * destruct (_post_data env self (Json.dumps events') table_name w1)
          as [res w2]. cbn [fst snd] in *. subst res.
        destruct (failed o).
        -- exists [(req, o)], 1%nat. cbn [fst snd]. rewrite Hp, Hw1.
           repeat split.
           ++ cbn. rewrite Hbody. reflexivity.
           ++ intros residue H. discriminate H.
        -- destruct (IH [] w2) as [new [k [Hp2 [Hb2 Hr2]]]].
           exists ((req, o) :: new), (S k). repeat split.
           ++ rewrite Hp2, Hp, Hw1, <- app_assoc. reflexivity.
           ++ cbn [bodies map firstn fst]. rewrite Hbody. f_equal. exact Hb2.
           ++ intros residue H. cbn [firstn app]. f_equal. apply Hr2. exact H.
    + apply IH.
Qed.

(** [upload_df] posts, in order, a prefix of the batches of the
    specification, and all of them when it returns. *)
Lemma upload_df_run (env : environment) (self : LAUploader)
      (data : Pandas.DataFrame) (table_name : string) (w : world) :
  exists new k,
    posted (snd (upload_df env self data table_name w)) = (posted w ++ new)%list
    /\ bodies new
       = map Json.dumps
           (firstn k (spec_batches (measured_size env) 26214400
                        (map Pandas.astype_str_to_dict data) []))
    /\ (fst (upload_df env self data table_name w) = Returns tt ->
        bodies new
        = map Json.dumps
            (spec_batches (measured_size env) 26214400
               (map Pandas.astype_str_to_dict data) [])).
Proof.
  set (sb := spec_batches (measured_size env) 26214400
               (map Pandas.astype_str_to_dict data) []).
  destruct (upload_df_loop_run env self table_name data [] w)
    as [new [k [Hp [Hb Hr]]]]. fold sb in Hb, Hr.
  unfold upload_df, bind.
  destruct (upload_df_loop env self table_name data [] w) as [[events | e] w1];
    cbn [fst snd] in *.
  - specialize (Hr events eq_refl).
    destruct events as [| ev events].
    + (* nothing is left over *)
      rewrite app_nil_r in Hr.
      exists new, k.
      unfold ret. destruct (_debug self); unfold print, ret; cbn [fst snd posted];
        (repeat split; try assumption; intros _; rewrite Hb, <- Hr; reflexivity).
    + (* the residue is posted *)
      destruct (_post_data_cases env self (Json.dumps (ev :: events)) table_name w1)
        as [[Hp1 [e He]] | [req [o [Hp1 [Hbody [_ Hres]]]]]].
      * destruct (_post_data env self (Json.dumps (ev :: events)) table_name w1)
          as [res w2]. cbn [fst snd] in *. subst res.
        exists new, k. cbn [fst snd]. rewrite Hp1. repeat split; try assumption.
        intros H. discriminate H.
      * destruct (_post_data env self (Json.dumps (ev :: events)) table_name w1)
          as [res w2]. cbn [fst snd] in *. subst res.
        assert (Hall : bodies (new ++ [(req, o)])
                       = map Json.dumps (firstn (S (List.length sb)) sb)).
        { rewrite firstn_all2 by lia.
          unfold bodies in *. rewrite map_app, Hb. cbn [map fst]. rewrite Hbody.
          rewrite Hr at 2. rewrite map_app. reflexivity. }
        destruct (failed o).
        -- exists (new ++ [(req, o)])%list, (S (List.length sb)). cbn [fst snd].
           rewrite Hp1, Hp, <- app_assoc. repeat split; try assumption.
           intros H. discriminate H.
        -- exists (new ++ [(req, o)])%list, (S (List.length sb)).
           destruct (_debug self); unfold print, ret; cbn [fst snd posted];
             rewrite Hp1, Hp, <- app_assoc;
             (repeat split; try assumption; intros _;
              rewrite Hall, firstn_all2 by lia; reflexivity).
  - exists new, k. repeat split; try assumption. intros H. discriminate H.
Qed.

End Batching.

Module StringFacts.
Import PyStr.

Lemma append_assoc (a b c : string) : (a ++ b) ++ c = a ++ (b ++ c).
Proof. induction a as [| x a IH]; cbn; [reflexivity | rewrite IH; reflexivity]. Qed.

Lemma append_empty_r (a : string) : a ++ "" = a.
Proof. induction a as [| x a IH]; cbn; [reflexivity | rewrite IH; reflexivity]. Qed.

Lemma len_append (a b : string) : len (a ++ b) = len a + len b.
Proof.
  unfold len. induction a as [| x a IH]; cbn [String.append String.length].
  - reflexivity.
  - rewrite !Nat2Z.inj_succ, IH. lia.
Qed.

Lemma len_String (c : ascii) (s : string) : len (String c s) = 1 + len s.
Proof. unfold len. cbn [String.length]. rewrite Nat2Z.inj_succ. lia. Qed.

Lemma len_nonneg (s : string) : 0 <= len s.
Proof. unfold len. lia. Qed.

(** [str] of an integer determines the integer. *)
Lemma str_int_inj (a b : Z) : str_int a = str_int b -> a = b.
Proof.
  unfold str_int. intros H.
  assert (Hnorm : forall z, Decimal.norm (Z.to_int z) = Z.to_int z).
  { intros z. rewrite <- (DecimalZ.of_to z) at 2. rewrite DecimalZ.to_of.
    reflexivity. }
  assert (Hi : forall z, NilZero.int_of_string (NilZero.string_of_int (Z.to_int z))
                         = Some (Z.to_int z)).
  { intros z. apply NilZero.isi.
    - intros Habs. pose proof (Hnorm z) as Hn. rewrite Habs in Hn. discriminate Hn.
    - intros Habs. pose proof (Hnorm z) as Hn. rewrite Habs in Hn. discriminate Hn. }
  apply DecimalZ.to_int_inj.
  pose proof (Hi a) as Ha. rewrite H, Hi in Ha. inversion Ha. reflexivity.
Qed.

End StringFacts.

Module Signature.
Import PyStr Effects LAUploaderPy Notions StringFacts.

(** The canonical string that is signed, as the specification writes it. *)
Lemma canonical_string_join (date method content_type resource : string)
      (content_length : Z) :
  (((((((method ++ nl) ++ str_int content_length) ++ nl) ++ content_type) ++ nl)
    ++ ("x-ms-date:" ++ date)) ++ nl) ++ resource
  = join nl [method; str_int content_length; content_type;
             "x-ms-date:" ++ date; resource].
Proof. cbn [join]. rewrite !append_assoc. reflexivity. Qed.

(** C3 -- [_build_signature]: with a secret that [base64] decodes to [key],
    the result is the text ["SharedKey "], the workspace id, a colon and the
    base64 of the HMAC-SHA256, under [key], of the canonical string
    [method \n str(content_length) \n content_type \n x-ms-date:date \n
    resource]: the five fields in that order, joined by single newlines, with
    nothing after the resource.  The result is a function of the uploader's
    two fields and the five arguments alone. *)
Theorem build_signature_spec (self : LAUploader) (key : list byte)
        (date method content_type resource : string) (content_length : Z) :
  Base64.b64decode (workspace_secret self) = Returns key ->
  _build_signature self date content_length method content_type resource
  = Returns
      ("SharedKey " ++ workspace self ++ ":"
       ++ Base64.b64encode
            (Sha256.hmac_sha256 key
               (encode_utf8
                  (method ++ nl ++ str_int content_length ++ nl ++ content_type
                   ++ nl ++ "x-ms-date:" ++ date ++ nl ++ resource))))
  /\ method ++ nl ++ str_int content_length ++ nl ++ content_type
     ++ nl ++ "x-ms-date:" ++ date ++ nl ++ resource
     = join nl [method; str_int content_length; content_type;
                "x-ms-date:" ++ date; resource].
Proof.
  intros Hkey. unfold _build_signature. rewrite Hkey. cbv zeta.
  rewrite canonical_string_join. cbn [join].
  rewrite !append_assoc. split; reflexivity.
Qed.

(** A secret that [base64] refuses makes [_build_signature] raise the
    decoder's exception. *)
Lemma build_signature_bad_secret (self : LAUploader) (e : exn)
      (date method content_type resource : string) (content_length : Z) :
  Base64.b64decode (workspace_secret self) = Raises e ->
  _build_signature self date content_length method content_type resource = Raises e.
Proof. intros H. unfold _build_signature. rewrite H. reflexivity. Qed.

(** With a decodable secret a signature is always produced. *)
Lemma build_signature_returns (self : LAUploader) (key : list byte)
      (date method content_type resource : string) (content_length : Z) :
  Base64.b64decode (workspace_secret self) = Returns key ->
  exists signature,
    _build_signature self date content_length method content_type resource
    = Returns signature.
Proof. intros H. unfold _build_signature. rewrite H. eexists. reflexivity. Qed.

End Signature.

Module PostData.
Import PyStr Effects LAUploaderPy Notions MonadFacts StringFacts.

Lemma append_inj_l (p a b : string) : p ++ a = p ++ b -> a = b.
Proof.
  induction p as [| c p IH]; cbn; intros H; [exact H | ].
  inversion H. apply IH. assumption.
Qed.

Lemma append_inj_r (a b c : string) : a ++ c = b ++ c -> a = b.
Proof.
  revert b. induction a as [| x a IH]; intros [| y b] H; cbn in H.
  - reflexivity.
  - exfalso. apply (f_equal len) in H. rewrite len_String, len_append in H.
    pose proof (len_nonneg b). lia.
  - exfalso. apply (f_equal len) in H. rewrite len_String, len_append in H.
    pose proof (len_nonneg a). lia.
  - inversion H. f_equal. apply IH. assumption.
Qed.

(** The status code can be read back from the exception of a refused
    upload. *)
Lemma upload_failed_inj (a b : Z) : upload_failed a = upload_failed b -> a = b.
Proof.
  unfold upload_failed. intros H. inversion H as [Hmsg].
  apply append_inj_r in Hmsg. apply str_int_inj. exact Hmsg.
Qed.

Lemma unable_to_connect_not_upload_failed (status_code : Z) :
  unable_to_connect <> upload_failed status_code.
Proof. unfold unable_to_connect, upload_failed. intros H. inversion H. Qed.

(** C4, as amended -- [_post_data] with a decodable secret sends exactly one
    request, with the body it was given, and never a second one.  It raises
    the "unable to connect" exception exactly when [requests.post] raised
    [ConnectionError]; it raises the "upload failed" exception of a status
    code exactly when the response carried that code and the code is below
    200 or above 299; it returns exactly when the code lies in 200..299.
    Both exceptions are instances of the one class [MsticpyConnectionError];
    they differ in title and message, and the message of the second
    determines the status code. *)
Theorem post_data_error_semantics (env : environment) (self : LAUploader)
        (body table_name : string) (w : world) (key : list byte) :
  Base64.b64decode (workspace_secret self) = Returns key ->
  exists req o,
    posted (snd (_post_data env self body table_name w)) = (posted w ++ [(req, o)])%list
    /\ o = requests_post env (map fst (posted w)) req
    /\ req_data req = body
    /\ (fst (_post_data env self body table_name w) = Raises unable_to_connect
        <-> exists msg, o = RaisesConnectionError msg)
    /\ (forall status_code,
          fst (_post_data env self body table_name w) = Raises (upload_failed status_code)
          <-> o = Response status_code /\ (status_code < 200 \/ 299 < status_code))
    /\ (fst (_post_data env self body table_name w) = Returns tt
        <-> exists status_code,
              o = Response status_code /\ 200 <= status_code <= 299)
    /\ (forall status_code,
          exc_type unable_to_connect = MsticpyConnectionError
          /\ exc_type (upload_failed status_code) = MsticpyConnectionError
          /\ exc_title unable_to_connect <> exc_title (upload_failed status_code)
          /\ unable_to_connect <> upload_failed status_code)
    /\ (forall a b, upload_failed a = upload_failed b -> a = b).
Proof.
  intros Hkey. rewrite _post_data_run. cbv zeta.
  unfold _build_signature. rewrite Hkey. cbv zeta.
  match goal with
  | |- context [built_request self body table_name ?d ?s] =>
      set (req := built_request self body table_name d s)
  end.
  set (o := requests_post env (map fst (posted w)) req).
  exists req, o. cbn [fst snd posted].
  split; [reflexivity | ]. split; [reflexivity | ]. split; [reflexivity | ].
  split; [ | split; [ | split; [ | split ]]].
  - destruct o as [msg | msg | sc]; cbn [failed raised_for].
    + split; [intros _; exists msg; reflexivity | reflexivity].
    + split; [intros H; inversion H | intros [m H]; discriminate H].
    + split.
      * destruct ((sc <? 200) || (sc >? 299)); intros H;
          [inversion H | discriminate H].
      * intros [m H]. discriminate H.
  - intros status_code. destruct o as [msg | msg | sc]; cbn [failed raised_for].
    + split; [intros H; inversion H | intros [H _]; discriminate H].
    + split; [intros H; inversion H | intros [H _]; discriminate H].
    + destruct ((sc <? 200) || (sc >? 299)) eqn:Hf.
      * split.
        -- intros H. assert (Heq : upload_failed sc = upload_failed status_code)
             by congruence.
           apply upload_failed_inj in Heq. subst sc. split; [reflexivity | lia].
        -- intros [H _]. inversion H. reflexivity.
      * split; [intros H; discriminate H | ].
        intros [H Hr]. inversion H. subst sc. lia.
  - destruct o as [msg | msg | sc]; cbn [failed raised_for].
    + split; [intros H; discriminate H | intros [s [H _]]; discriminate H].
    + split; [intros H; discriminate H | intros [s [H _]]; discriminate H].
    + destruct ((sc <? 200) || (sc >? 299)) eqn:Hf.
      * split; [intros H; discriminate H | ].
        intros [s [H Hr]]. inversion H. subst s. lia.
      * split; [ | reflexivity]. intros _. exists sc. split; [reflexivity | lia].
  - intros status_code. split; [reflexivity | ]. split; [reflexivity | ].
    split; [cbn; discriminate | apply unable_to_connect_not_upload_failed].
  - apply upload_failed_inj.
Qed.

(** With an undecodable secret nothing is sent. *)
Lemma post_data_bad_secret (env : environment) (self : LAUploader)
      (body table_name : string) (w : world) (e : exn) :
  Base64.b64decode (workspace_secret self) = Raises e ->
  fst (_post_data env self body table_name w) = Raises e
  /\ posted (snd (_post_data env self body table_name w)) = posted w.
Proof.
  intros H. rewrite _post_data_run. cbv zeta. unfold _build_signature.
  rewrite H. split; reflexivity.
Qed.

(** Every request that [_post_data] records carries the sanitised table name
    in its [Log-Type] header. *)
Lemma post_data_log_type (env : environment) (self : LAUploader)
      (body table_name : string) (w : world) :
  exists new,
    posted (snd (_post_data env self body table_name w)) = (posted w ++ new)%list
    /\ Forall (fun p => log_type (fst p)
                        = Some (Re.sub_class_plus Re.not_A_Za_z0_9_underscore
                                  "" table_name)) new.
Proof.
  rewrite _post_data_run. cbv zeta.
  destruct (_build_signature self (utcnow_strftime env (clock_reads w))
              (len body) "POST" "application/json" "/api/logs") as [sig | e].
  - eexists. cbn [fst snd posted]. split; [reflexivity | ].
    constructor; [reflexivity | constructor].
  - exists []. cbn [snd posted]. rewrite app_nil_r. split; [reflexivity | constructor].
Qed.

End PostData.

Module Sanitize.
Import PyStr Effects LAUploaderPy Notions PostData.

Lemma class_is_not_word_char (c : ascii) :
  Re.not_A_Za_z0_9_underscore c = negb (occurs c word_chars).
Proof.
  destruct c as [[] [] [] [] [] [] [] []]; vm_compute; reflexivity.
Qed.

Lemma sub_loop_keeps_word_chars (s : string) :
  forall in_match,
    Re.sub_loop Re.not_A_Za_z0_9_underscore "" in_match s = keep_word_chars s.
Proof.
  induction s as [| c s IH]; intros in_match; cbn [Re.sub_loop keep_word_chars].
  - reflexivity.
  - rewrite class_is_not_word_char.
    destruct (occurs c word_chars); cbn [negb].
    + rewrite IH. reflexivity.
    + destruct in_match; cbn [String.append]; apply IH.
Qed.

Lemma keep_word_chars_idempotent (s : string) :
  keep_word_chars (keep_word_chars s) = keep_word_chars s.
Proof.
  induction s as [| c s IH]; cbn [keep_word_chars]; [reflexivity | ].
  destruct (occurs c word_chars) eqn:Hc; [ | exact IH].
  cbn [keep_word_chars]. rewrite Hc, IH. reflexivity.
Qed.

Lemma table_name_log_type (env : environment) (self : LAUploader)
      (body table_name : string) (w : world) :
  exists new,
    posted (snd (_post_data env self body table_name w)) = (posted w ++ new)%list
    /\ Forall (fun p => log_type (fst p) = Some (keep_word_chars table_name)) new.
Proof.
  destruct (post_data_log_type env self body table_name w) as [new [Hp Hall]].
  exists new. split; [exact Hp | ].
  unfold Re.sub_class_plus in Hall. rewrite sub_loop_keeps_word_chars in Hall.
  exact Hall.
Qed.

(** C6 -- the sanitisation that [_post_data] applies to the table name
    ([re.sub("[^A-Za-z0-9_]+", "", table_name)]) keeps exactly the ASCII
    letters, the digits and the underscore, in their order, and drops every
    other character; applying it twice gives what applying it once gives;
    ["My-Table!1"] becomes ["MyTable1"]; and the result is the [Log-Type]
    header of every request that [_post_data] sends. *)
Theorem table_name_sanitization (table_name : string) :
  Re.sub_class_plus Re.not_A_Za_z0_9_underscore "" table_name
  = keep_word_chars table_name
  /\ Re.sub_class_plus Re.not_A_Za_z0_9_underscore ""
       (Re.sub_class_plus Re.not_A_Za_z0_9_underscore "" table_name)
     = Re.sub_class_plus Re.not_A_Za_z0_9_underscore "" table_name
  /\ Re.sub_class_plus Re.not_A_Za_z0_9_underscore "" "My-Table!1" = "MyTable1"
  /\ forall env self body w,
     exists new,
       posted (snd (_post_data env self body table_name w)) = (posted w ++ new)%list
       /\ Forall (fun p => log_type (fst p) = Some (keep_word_chars table_name)) new.
Proof.
  unfold Re.sub_class_plus. rewrite !sub_loop_keeps_word_chars.
  split; [reflexivity | ]. split; [apply keep_word_chars_idempotent | ].
  split; [reflexivity | ].
  intros env self body w. apply table_name_log_type.
Qed.

End Sanitize.

Module Propagation.
Import PyStr Effects LAUploaderPy Notions MonadFacts FailFast.

Lemma fail_fast_aborts {A : Type} (m : M A) :
  fail_fast m -> aborts_at_first_failure m.
Proof.
  intros H w. destruct (H w) as [new [Hp Ht]]. exists new. split; [exact Hp | ].
  apply stops_at_failure_last. exact Ht.
Qed.

(** C5 -- fail-fast: in a run of [upload_df], of [upload_file] or of
    [upload_folder], a request that fails (the connection could not be made,
    or the status code is outside 200..299) is the last request of the run:
    nothing is sent after it, for this table or file or for the ones that
    would follow, and the run ends by raising the exception of that
    failure. *)
Theorem fail_fast_propagation (env : environment) (self : LAUploader) :
  (forall data table_name,
      aborts_at_first_failure (upload_df env self data table_name))
  /\ (forall file_path table_name delim,
         aborts_at_first_failure (upload_file env self file_path table_name delim))
  /\ (forall folder_path table_name delim,
         aborts_at_first_failure (upload_folder env self folder_path table_name delim)).
Proof.
  split; [ | split]; intros; apply fail_fast_aborts.
  - apply upload_df_fail_fast.
  - apply upload_file_fail_fast.
  - apply upload_folder_fail_fast.
Qed.

(** The scenario of the specification: two files, the service answers the
    second request with 403; the first file's batch and the refused batch
    are all that is sent, and the run raises the 403 failure. *)
Example status_403_stops_the_folder :
  let env := posix_env (forbidding_after 1)
               (fun _ => ["a.csv"; "b.csv"; "c.csv"])
               (fun _ _ => Returns [[("n", Pandas.CInt 1)]]) in
  let run := upload_folder env sample_uploader "logs" (Some "AllLogs") "," fresh in
  fst run = Raises (upload_failed 403)
  /\ map snd (posted (snd run)) = [Response 200; Response 403].
Proof. vm_compute. split; reflexivity. Qed.

End Propagation.

Module Accepted.
Import PyStr Effects LAUploaderPy Notions MonadFacts Batching.

Lemma _post_data_accepted (env : environment) (self : LAUploader)
      (key : list byte) (body table_name : string) (w : world) :
  accepts_all env ->
  Base64.b64decode (workspace_secret self) = Returns key ->
  fst (_post_data env self body table_name w) = Returns tt.
Proof.
  intros Hacc Hkey. rewrite _post_data_run. cbv zeta.
  unfold _build_signature. rewrite Hkey. cbv zeta. cbn [fst].
  rewrite Hacc. reflexivity.
Qed.

Lemma upload_df_loop_accepted (env : environment) (self : LAUploader)
      (key : list byte) (table_name : string) (rows : Pandas.DataFrame) :
  accepts_all env ->
  Base64.b64decode (workspace_secret self) = Returns key ->
  forall events w,
  exists residue,
    fst (upload_df_loop env self table_name rows events w) = Returns residue.
Proof.
  intros Hacc Hkey. induction rows as [| row rest IH]; intros events w.
  - exists events. reflexivity.
  - cbn [upload_df_loop].
    set (events' := (events ++ [Pandas.astype_str_to_dict row])%list).
    destruct (sys_getsizeof env (Json.dumps events') >? 26214400).
    + destruct (debug_then (_debug self)
                  "Data larger than 25MB spliting data requests."
                  (_post_data env self (Json.dumps events') table_name ;;
                   upload_df_loop env self table_name rest []) w)
        as [w1 [Hrun _]].
      rewrite Hrun. unfold bind.
      pose proof (_post_data_accepted env self key (Json.dumps events')
                    table_name w1 Hacc Hkey) as Hok.
      destruct (_post_data env self (Json.dumps events') table_name w1) as [res w2].
      cbn [fst] in Hok. subst res. apply IH.
    + apply IH.
Qed.

(** When the service accepts everything and the secret decodes, [upload_df]
    returns. *)
Lemma upload_df_accepted (env : environment) (self : LAUploader)
      (key : list byte) (data : Pandas.DataFrame) (table_name : string) (w : world) :
  accepts_all env ->
  Base64.b64decode (workspace_secret self) = Returns key ->
  fst (upload_df env self data table_name w) = Returns tt.
Proof.
  intros Hacc Hkey. unfold upload_df, bind.
  destruct (upload_df_loop_accepted env self key table_name data Hacc Hkey [] w)
    as [residue Hres].
  destruct (upload_df_loop env self table_name data [] w) as [res w1].
  cbn [fst] in Hres. subst res.
  destruct residue as [| ev residue].
  - unfold ret. destruct (_debug self); reflexivity.
  - pose proof (_post_data_accepted env self key (Json.dumps (ev :: residue))
                  table_name w1 Hacc Hkey) as Hok.
    destruct (_post_data env self (Json.dumps (ev :: residue)) table_name w1)
      as [res w2].
    cbn [fst] in Hok. subst res. destruct (_debug self); reflexivity.
Qed.

End Accepted.

Module Preservation.
Import PyStr Effects LAUploaderPy Notions MonadFacts Batching Accepted.

(** C2 -- record preservation: when [upload_df] returns, the bodies it has
    sent are, in order, the serialisations of non-empty batches whose
    concatenation is the input record sequence (each row stringified), so no
    record is lost, repeated or moved; and for an empty DataFrame nothing is
    sent at all. *)
Theorem upload_df_preserves_records (env : environment) (self : LAUploader)
        (data : Pandas.DataFrame) (table_name : string) (w : world) :
  fst (upload_df env self data table_name w) = Returns tt ->
  (exists new batches,
      posted (snd (upload_df env self data table_name w)) = (posted w ++ new)%list
      /\ bodies new = map Json.dumps batches
      /\ Forall (fun b => b <> []) batches
      /\ List.concat batches = map Pandas.astype_str_to_dict data)
  /\ posted (snd (upload_df env self [] table_name w)) = posted w.
Proof.
  intros Hret. split.
  - destruct (upload_df_run env self data table_name w) as [new [k [Hp [_ Hall]]]].
    exists new, (spec_batches (measured_size env) 26214400
                   (map Pandas.astype_str_to_dict data) []).
    split; [exact Hp | ]. split; [apply Hall; exact Hret | ].
    split; [apply spec_batches_nonempty | apply spec_batches_concat].
  - unfold upload_df, bind. cbn [upload_df_loop]. unfold ret.
    destruct (_debug self); reflexivity.
Qed.

(** Whether or not the run returns, the records sent are the input records
    up to some point. *)
Lemma upload_df_sends_a_prefix (env : environment) (self : LAUploader)
      (data : Pandas.DataFrame) (table_name : string) (w : world) :
  exists new batches rest,
    posted (snd (upload_df env self data table_name w)) = (posted w ++ new)%list
    /\ bodies new = map Json.dumps batches
    /\ (List.concat batches ++ rest)%list = map Pandas.astype_str_to_dict data.
Proof.
  destruct (upload_df_run env self data table_name w) as [new [k [Hp [Hb _]]]].
  set (sb := spec_batches (measured_size env) 26214400
               (map Pandas.astype_str_to_dict data) []) in *.
  exists new, (firstn k sb), (List.concat (skipn k sb)).
  split; [exact Hp | ]. split; [exact Hb | ].
  rewrite <- concat_app, firstn_skipn. apply spec_batches_concat.
Qed.

End Preservation.

Module Policy.
Import PyStr Effects LAUploaderPy Notions MonadFacts Batching Accepted StringFacts.

(** ** Lengths of serialised batches *)

Lemma len_dumps_one (d1 : Json.record) :
  len (Json.dumps [d1]) = len (Json.dumps_record d1) + 2.
Proof.
  unfold Json.dumps. cbn [map join]. rewrite !len_append.
  change (len "[") with 1. change (len "]") with 1. lia.
Qed.

Lemma len_dumps_two (d1 d2 : Json.record) :
  len (Json.dumps [d1; d2])
  = len (Json.dumps_record d1) + len (Json.dumps_record d2) + 4.
Proof.
  unfold Json.dumps. cbn [map join]. rewrite !len_append.
  change (len "[") with 1. change (len "]") with 1. change (len ", ") with 2. lia.
Qed.

Lemma len_dumps_three (d1 d2 d3 : Json.record) :
  len (Json.dumps [d1; d2; d3])
  = len (Json.dumps_record d1) + len (Json.dumps_record d2)
    + len (Json.dumps_record d3) + 6.
Proof.
  unfold Json.dumps. cbn [map join]. rewrite !len_append.
  change (len "[") with 1. change (len "]") with 1. change (len ", ") with 2. lia.
Qed.

Lemma gtb_false (a b : Z) : a <= b -> (a >? b) = false.
Proof. intros H. rewrite Z.gtb_ltb. apply Z.ltb_ge. exact H. Qed.

Lemma gtb_true (a b : Z) : b < a -> (a >? b) = true.
Proof. intros H. rewrite Z.gtb_ltb. apply Z.ltb_lt. exact H. Qed.

(** Three records of 10 MiB each make one batch: the first two appends stay
    under the ceiling (20 MiB and a few bytes), the third goes over it. *)
Lemma three_ten_mib_records_one_batch (env : environment)
      (d1 d2 d3 : Json.record) :
  0 <= getsizeof_header env <= 5242876 ->
  len (Json.dumps_record d1) = 10485760 ->
  len (Json.dumps_record d2) = 10485760 ->
  len (Json.dumps_record d3) = 10485760 ->
  spec_batches (measured_size env) 26214400 [d1; d2; d3] [] = [[d1; d2; d3]].
Proof.
  intros Hh H1 H2 H3. cbn [spec_batches app].
  assert (S1 : (measured_size env [d1] >? 26214400) = false).
  { apply gtb_false. unfold measured_size, sys_getsizeof.
    rewrite len_dumps_one, H1. lia. }
  assert (S2 : (measured_size env [d1; d2] >? 26214400) = false).
  { apply gtb_false. unfold measured_size, sys_getsizeof.
    rewrite len_dumps_two, H1, H2. lia. }
  assert (S3 : (measured_size env [d1; d2; d3] >? 26214400) = true).
  { apply gtb_true. unfold measured_size, sys_getsizeof.
    rewrite len_dumps_three, H1, H2, H3. lia. }
  rewrite S1, S2, S3. reflexivity.
Qed.

(** In a run where every request is accepted, the bodies sent are the
    serialisations of the batches of the specification. *)
Lemma upload_df_posts_spec_batches (env : environment) (self : LAUploader)
      (key : list byte) (table_name : string) (data : Pandas.DataFrame) (w : world) :
  accepts_all env ->
  Base64.b64decode (workspace_secret self) = Returns key ->
  exists new,
    posted (snd (upload_df env self data table_name w)) = (posted w ++ new)%list
    /\ bodies new
       = map Json.dumps
           (spec_batches (measured_size env) 26214400
              (map Pandas.astype_str_to_dict data) []).
Proof.
  intros Hacc Hkey.
  destruct (upload_df_run env self data table_name w) as [new [k [Hp [_ Hb]]]].
  exists new. split; [exact Hp | ]. apply Hb.
  apply (upload_df_accepted env self key); assumption.
Qed.

(** Three rows of 10 MiB each, all requests accepted: one request, with the
    three records. *)
Lemma three_ten_mib_rows_one_post (env : environment) (self : LAUploader)
      (key : list byte) (table_name : string) (r1 r2 r3 : Pandas.Series) (w : world) :
  accepts_all env ->
  Base64.b64decode (workspace_secret self) = Returns key ->
  0 <= getsizeof_header env <= 5242876 ->
  len (Json.dumps_record (Pandas.astype_str_to_dict r1)) = 10485760 ->
  len (Json.dumps_record (Pandas.astype_str_to_dict r2)) = 10485760 ->
  len (Json.dumps_record (Pandas.astype_str_to_dict r3)) = 10485760 ->
  exists req o,
    posted (snd (upload_df env self [r1; r2; r3] table_name w))
    = (posted w ++ [(req, o)])%list
    /\ req_data req
       = Json.dumps [Pandas.astype_str_to_dict r1;
                     Pandas.astype_str_to_dict r2;
                     Pandas.astype_str_to_dict r3].
Proof.
  intros Hacc Hkey Hh H1 H2 H3.
  destruct (upload_df_posts_spec_batches env self key table_name [r1; r2; r3] w
              Hacc Hkey) as [new [Hp Hb]].
  cbn [map] in Hb.
  rewrite (three_ten_mib_records_one_batch env _ _ _ Hh H1 H2 H3) in Hb.
  unfold bodies in Hb.
  destruct new as [| [req o] [| x new]]; cbn [map fst] in Hb;
    try discriminate Hb.
  exists req, o. split; [exact Hp | ]. injection Hb as Hb. exact Hb.
Qed.

(** C1, as amended -- the batching of [upload_df], in a run where every
    request is accepted: the bodies sent are the serialisations of the
    batches that the policy of the specification forms when the size of a
    batch is what the code measures, [sys.getsizeof(json.dumps(batch))],
    against the ceiling 26,214,400: the size is compared after each append,
    a batch over the ceiling is sent with the record that took it over, and
    accumulation restarts from the empty batch.  A batch whose serialised
    text is longer than the ceiling measures over the ceiling.  Three records
    of 10 MiB each give exactly one request, which carries the three of
    them: the ceiling is first exceeded after the third append, and nothing
    is left for a second request. *)
Theorem upload_df_batching_policy (env : environment) (self : LAUploader)
        (key : list byte) (table_name : string) (r1 r2 r3 : Pandas.Series) :
  accepts_all env ->
  Base64.b64decode (workspace_secret self) = Returns key ->
  0 <= getsizeof_header env <= 5242876 ->
  len (Json.dumps_record (Pandas.astype_str_to_dict r1)) = 10485760 ->
  len (Json.dumps_record (Pandas.astype_str_to_dict r2)) = 10485760 ->
  len (Json.dumps_record (Pandas.astype_str_to_dict r3)) = 10485760 ->
  (forall data w,
      exists new,
        posted (snd (upload_df env self data table_name w)) = (posted w ++ new)%list
        /\ bodies new
           = map Json.dumps
               (spec_batches (measured_size env) 26214400
                  (map Pandas.astype_str_to_dict data) []))
  /\ (forall batch, 26214400 < len (Json.dumps batch) ->
                    (measured_size env batch >? 26214400) = true)
  /\ (forall w,
        exists req o,
          posted (snd (upload_df env self [r1; r2; r3] table_name w))
          = (posted w ++ [(req, o)])%list
          /\ req_data req
             = Json.dumps [Pandas.astype_str_to_dict r1;
                           Pandas.astype_str_to_dict r2;
                           Pandas.astype_str_to_dict r3]).
Proof.
  intros Hacc Hkey Hh H1 H2 H3. split; [ | split].
  - intros data w. apply (upload_df_posts_spec_batches env self key); assumption.
  - intros batch Hlen. apply gtb_true. unfold measured_size, sys_getsizeof. lia.
  - intros w. apply (three_ten_mib_rows_one_post env self key); assumption.
Qed.

(** ** The scenario on concrete data *)

Lemma len_escape_repeat_a (n : nat) :
  len (Json.escape (repeat_char "a" n)) = Z.of_nat n.
Proof.
  induction n as [| n IH]; cbn [repeat_char Json.escape].
  - reflexivity.
  - change (Json.escape_char "a") with "a". cbn [String.append].
    rewrite len_String, IH. lia.
Qed.

Lemma len_dumps_record_single (k v : string) :
  len (Json.dumps_record [(k, v)])
  = len (Json.escape k) + len (Json.escape v) + 8.
Proof.
  unfold Json.dumps_record, Json.dumps_item, Json.dumps_str.
  cbn [map join fst snd]. rewrite !len_append, !len_String, !len_append.
  change (len "") with 0. change (len (String Json.dquote "")) with 1. lia.
Qed.

Lemma astype_str_to_dict_single (k v : string) :
  Pandas.astype_str_to_dict [(k, Pandas.CStr v)] = [(k, v)].
Proof. reflexivity. Qed.

Lemma ten_mib_row_to_dict : Pandas.astype_str_to_dict ten_mib_row = ten_mib_record.
Proof. unfold ten_mib_row, ten_mib_record. apply astype_str_to_dict_single. Qed.

Lemma len_ten_mib_record : len (Json.dumps_record ten_mib_record) = 10485760.
Proof.
  unfold ten_mib_record. rewrite len_dumps_record_single.
  unfold ten_mib_value. rewrite len_escape_repeat_a.
  rewrite Z2Nat.id by lia. change (len (Json.escape "c")) with 1. lia.
Qed.

Lemma len_ten_mib_row :
  len (Json.dumps_record (Pandas.astype_str_to_dict ten_mib_row)) = 10485760.
Proof. rewrite ten_mib_row_to_dict. apply len_ten_mib_record. Qed.

Lemma answering_200_accepts_all :
  accepts_all (posix_env (answering 200) no_listing no_files).
Proof. intros history r. reflexivity. Qed.

Lemma posix_env_header service listing files :
  0 <= getsizeof_header (posix_env service listing files) <= 5242876.
Proof. cbn. lia. Qed.

Lemma sample_uploader_key :
  Base64.b64decode (workspace_secret sample_uploader)
  = Returns (encode_utf8 "secret-key").
Proof. vm_compute. reflexivity. Qed.

End Policy.

Module Scenarios.
Import PyStr Effects LAUploaderPy Notions MonadFacts StringFacts.
Import Signature PostData Preservation Policy.

(** The batching theorem at three 10 MiB rows, on CPython 3.11 with a
    service that answers 200: one request, carrying the three records. *)
Lemma upload_df_batching_policy_witness :
  exists req o,
    posted (snd (upload_df (posix_env (answering 200) no_listing no_files)
                   sample_uploader [ten_mib_row; ten_mib_row; ten_mib_row]
                   "Hosts" fresh))
    = [(req, o)]
    /\ req_data req = Json.dumps [ten_mib_record; ten_mib_record; ten_mib_record].
Proof.
  destruct (upload_df_batching_policy
              (posix_env (answering 200) no_listing no_files) sample_uploader
              (encode_utf8 "secret-key") "Hosts"
              ten_mib_row ten_mib_row ten_mib_row
              answering_200_accepts_all sample_uploader_key
              (posix_env_header (answering 200) no_listing no_files)
              len_ten_mib_row len_ten_mib_row len_ten_mib_row)
    as [_ [_ H]].
  destruct (H fresh) as [req [o [Hp Hb]]].
  exists req, o. split; [exact Hp | ].
  rewrite ten_mib_row_to_dict in Hb. exact Hb.
Defined.

(** The scenario as the specification has it -- two requests, the first with records
    1 and 2, the second with record 3 -- is not what [upload_df] does with
    three 10 MiB rows. *)
Lemma three_ten_mib_rows_not_two_posts :
  ~ (bodies (posted (snd (upload_df (posix_env (answering 200) no_listing no_files)
                            sample_uploader
                            [ten_mib_row; ten_mib_row; ten_mib_row]
                            "Hosts" fresh)))
     = [Json.dumps [ten_mib_record; ten_mib_record]; Json.dumps [ten_mib_record]]).
Proof.
  destruct (three_ten_mib_rows_one_post
              (posix_env (answering 200) no_listing no_files) sample_uploader
              (encode_utf8 "secret-key") "Hosts"
              ten_mib_row ten_mib_row ten_mib_row fresh
              answering_200_accepts_all sample_uploader_key
              (posix_env_header (answering 200) no_listing no_files)
              len_ten_mib_row len_ten_mib_row len_ten_mib_row)
    as [req [o [Hp _]]].
  intros Hc. rewrite Hp in Hc.
  apply (f_equal (@List.length string)) in Hc.
  unfold bodies in Hc. cbn [posted fresh app map List.length] in Hc.
  discriminate Hc.
Qed.

(** The preservation theorem at a two-row table. *)
Lemma upload_df_preserves_records_witness :
  exists new batches,
    posted (snd (upload_df (posix_env (answering 200) no_listing no_files)
                   sample_uploader
                   [[("host", Pandas.CStr "srv1"); ("port", Pandas.CInt 22)];
                    [("host", Pandas.CStr "srv2"); ("port", Pandas.CInt 443)]]
                   "Hosts" fresh))
    = new
    /\ bodies new = map Json.dumps batches
    /\ List.concat batches
       = [[("host", "srv1"); ("port", "22")]; [("host", "srv2"); ("port", "443")]].
Proof.
  destruct (upload_df_preserves_records
              (posix_env (answering 200) no_listing no_files) sample_uploader
              [[("host", Pandas.CStr "srv1"); ("port", Pandas.CInt 22)];
               [("host", Pandas.CStr "srv2"); ("port", Pandas.CInt 443)]]
              "Hosts" fresh)
    as [[new [batches [Hp [Hb [_ Hc]]]]] _].
  - vm_compute. reflexivity.
  - exists new, batches. split; [exact Hp | ]. split; [exact Hb | exact Hc].
Defined.

(** The signature theorem at the sample uploader; the value is the one that
    Python's [hmac], [hashlib] and [base64] give. *)
Lemma build_signature_spec_witness :
  _build_signature sample_uploader "Mon, 02 Nov 2026 10:00:00 GMT" 24
    "POST" "application/json" "/api/logs"
  = Returns "SharedKey ws:lHsrYw4GpTRtSvGQ2GQNoZr/72CzzMyssjMsmJ140Ug=".
Proof.
  destruct (build_signature_spec sample_uploader (encode_utf8 "secret-key")
              "Mon, 02 Nov 2026 10:00:00 GMT" "POST" "application/json"
              "/api/logs" 24 sample_uploader_key) as [H _].
  rewrite H. vm_compute. reflexivity.
Defined.

(** The error semantics at a service that answers 403. *)
Lemma post_data_error_semantics_witness :
  fst (_post_data (posix_env (answering 403) no_listing no_files)
         sample_uploader "[]" "Hosts" fresh)
  = Raises (upload_failed 403)
  /\ List.length
       (posted (snd (_post_data (posix_env (answering 403) no_listing no_files)
                       sample_uploader "[]" "Hosts" fresh)))
     = 1%nat.
Proof.
  destruct (post_data_error_semantics
              (posix_env (answering 403) no_listing no_files)
              sample_uploader "[]" "Hosts" fresh (encode_utf8 "secret-key")
              sample_uploader_key)
    as [req [o [Hp [Ho [_ [_ [Hst _]]]]]]].
  split.
  - apply Hst. split; [rewrite Ho; reflexivity | right; reflexivity].
  - rewrite Hp. reflexivity.
Defined.

(** The specification has the two failures as errors of distinguishable
    types; the exception raised when the service cannot be reached and the
    one raised on status 403 are of the same type. *)
Lemma post_data_errors_share_their_type :
  ~ (forall e1 e2,
        fst (_post_data (posix_env unreachable no_listing no_files)
               sample_uploader "[]" "Hosts" fresh) = Raises e1 ->
        fst (_post_data (posix_env (answering 403) no_listing no_files)
               sample_uploader "[]" "Hosts" fresh) = Raises e2 ->
        exc_type e1 <> exc_type e2).
Proof.
  intros H.
  apply (H unable_to_connect (upload_failed 403)); vm_compute; reflexivity.
Qed.

End Scenarios.

Module Naming.
Import PyStr Effects LAUploaderPy Notions MonadFacts StringFacts.

(** ** Matching of the two patterns of [upload_folder] *)

Lemma fnmatch_star (name : string) : Pathlib.fnmatch "*" name = true.
Proof.
  cbn [Pathlib.fnmatch]. change (Ascii.eqb "*" "*") with true. cbv iota.
  induction name as [| c name IH].
  - reflexivity.
  - cbn [String.eqb]. cbn [orb]. exact IH.
Qed.

Lemma fnmatch_dot_csv (name : string) :
  Pathlib.fnmatch ".csv" name = String.eqb name ".csv".
Proof.
  destruct name as [| c0 [| c1 [| c2 [| c3 [| c4 name]]]]];
    cbn [Pathlib.fnmatch String.eqb]; try reflexivity;
    change (Ascii.eqb "." "*") with false; change (Ascii.eqb "." "?") with false;
    change (Ascii.eqb "c" "*") with false; change (Ascii.eqb "c" "?") with false;
    change (Ascii.eqb "s" "*") with false; change (Ascii.eqb "s" "?") with false;
    change (Ascii.eqb "v" "*") with false; change (Ascii.eqb "v" "?") with false;
    cbv iota;
    rewrite ?(Ascii.eqb_sym "." c0), ?(Ascii.eqb_sym "c" c1),
            ?(Ascii.eqb_sym "s" c2), ?(Ascii.eqb_sym "v" c3);
    repeat match goal with
           | |- context [Ascii.eqb ?c ?d] => destruct (Ascii.eqb c d)
           end; reflexivity.
Qed.

(** [*.csv] matches the names that end in [.csv], and only those. *)
Lemma fnmatch_star_dot_csv (name : string) :
  Pathlib.fnmatch "*.csv" name = true <-> exists stem, name = stem ++ ".csv".
Proof.
  change (Pathlib.fnmatch "*.csv" name)
    with ((fix star (n : string) : bool :=
             Pathlib.fnmatch ".csv" n
             || match n with
                | EmptyString => false
                | String _ rest => star rest
                end) name).
  induction name as [| c name IH].
  - rewrite fnmatch_dot_csv. cbn. split; [discriminate | ].
    intros [[| x stem] H]; discriminate H.
  - rewrite fnmatch_dot_csv. rewrite orb_true_iff. split.
    + intros [H | H].
      * apply String.eqb_eq in H. exists "". cbn. exact H.
      * apply IH in H. destruct H as [stem H]. exists (String c stem).
        cbn. rewrite H. reflexivity.
    + intros [[| x stem] H]; cbn in H.
      * left. rewrite H. reflexivity.
      * right. apply IH. exists stem. inversion H. reflexivity.
Qed.

(** The files that [upload_folder] selects on a POSIX system: with the
    comma, the entries of the folder whose name ends in [.csv]; with another
    delimiter, all the entries. *)
Lemma upload_folder_selection (env : environment) (folder : Pathlib.PurePath)
      (delim : string) (path : Pathlib.PurePath) :
  fnmatch_name env = Pathlib.fnmatch ->
  In path (glob env folder (if negb (String.eqb delim ",") then "*" else "*.csv"))
  <-> exists name,
        In name (scandir env (Pathlib.render (flavour env) folder))
        /\ path = Pathlib.child folder name
        /\ (delim = "," -> exists stem, name = stem ++ ".csv").
Proof.
  intros Hm. unfold glob. rewrite Hm, in_map_iff. split.
  - intros [name [Hpath Hin]]. apply filter_In in Hin. destruct Hin as [Hin Hmatch].
    exists name. split; [exact Hin | ]. split; [symmetry; exact Hpath | ].
    intros Hd. subst delim. cbn in Hmatch. apply fnmatch_star_dot_csv. exact Hmatch.
  - intros [name [Hin [Hpath Hext]]]. exists name. split; [symmetry; exact Hpath | ].
    apply filter_In. split; [exact Hin | ].
    destruct (String.eqb delim ",") eqn:Hd; cbn [negb].
    + apply fnmatch_star_dot_csv. apply Hext. apply String.eqb_eq. exact Hd.
    + apply fnmatch_star.
Qed.

(** ** One table name for a whole folder *)

Lemma quiet_posts_only {A : Type} (P : request -> Prop) (m : M A) :
  (forall w, posted (snd (m w)) = posted w) -> posts_only P m.
Proof.
  intros H w. exists []. rewrite app_nil_r. split; [apply H | constructor].
Qed.

Lemma bind_posts_only {A B : Type} (P : request -> Prop) (m : M A) (k : A -> M B) :
  posts_only P m -> (forall a, posts_only P (k a)) -> posts_only P (bind m k).
Proof.
  intros Hm Hk w. unfold bind. destruct (Hm w) as [new1 [Hp1 Hall1]].
  destruct (m w) as [[a | e] w1]; cbn [fst snd] in *.
  - destruct (Hk a w1) as [new2 [Hp2 Hall2]]. exists (new1 ++ new2)%list.
    split; [rewrite Hp2, Hp1, app_assoc; reflexivity | ].
    apply Forall_app. split; assumption.
  - exists new1. split; assumption.
Qed.

Lemma _post_data_posts_only (env : environment) (self : LAUploader)
      (body table_name : string) :
  posts_only (fun r => log_type r = Some (keep_word_chars table_name))
             (_post_data env self body table_name).
Proof.
  intros w.
  destruct (Sanitize.table_name_log_type env self body table_name w)
    as [new [Hp Hall]].
  exists new. split; assumption.
Qed.

Lemma upload_df_posts_only (env : environment) (self : LAUploader)
      (data : Pandas.DataFrame) (table_name : string) :
  posts_only (fun r => log_type r = Some (keep_word_chars table_name))
             (upload_df env self data table_name).
Proof.
  assert (Hloop : forall rows events,
             posts_only (fun r => log_type r = Some (keep_word_chars table_name))
                        (upload_df_loop env self table_name rows events)).
  { induction rows as [| row rest IH]; intros events.
    - apply quiet_posts_only. reflexivity.
    - cbn [upload_df_loop].
      destruct (sys_getsizeof env _ >? 26214400); [ | apply IH].
      apply bind_posts_only.
      + destruct (_debug self); apply quiet_posts_only; reflexivity.
      + intros _. apply bind_posts_only; [apply _post_data_posts_only | ].
        intros _. apply IH. }
  unfold upload_df. apply bind_posts_only; [apply Hloop | intros events].
  apply bind_posts_only.
  - destruct events; [apply quiet_posts_only; reflexivity | ].
    apply _post_data_posts_only.
  - intros _. destruct (_debug self); apply quiet_posts_only; reflexivity.
Qed.

(** When the caller gives a table name, every request of [upload_folder]
    carries it (sanitised) as its [Log-Type], whatever the files are. *)
Lemma upload_folder_shared_name (env : environment) (self : LAUploader)
      (folder_path name delim : string) :
  name <> "" ->
  posts_only (fun r => log_type r = Some (keep_word_chars name))
             (upload_folder env self folder_path (Some name) delim).
Proof.
  intros Hname. unfold upload_folder.
  assert (Ht : truthy (Some name) = true).
  { cbn. destruct (String.eqb name "") eqn:E; [ | reflexivity].
    apply String.eqb_eq in E. contradiction. }
  rewrite Ht.
  apply bind_posts_only; [apply quiet_posts_only; reflexivity | intros _].
  apply bind_posts_only; [ | intros _; apply quiet_posts_only; reflexivity].
  generalize (glob env (Pathlib.parse (flavour env) folder_path)
                (if negb (String.eqb delim ",") then "*" else "*.csv")).
  intros files. induction files as [| path rest IH].
  - apply quiet_posts_only. reflexivity.
  - cbn [upload_folder_loop negb assigned].
    apply bind_posts_only; [apply quiet_posts_only; reflexivity | intros data].
    apply bind_posts_only; [apply upload_df_posts_only | intros _].
    apply bind_posts_only; [apply quiet_posts_only; reflexivity | intros _].
    exact IH.
Qed.

(** Without a table name, [upload_file] sends everything under the name
    derived from the path. *)
Lemma upload_file_derived_name (env : environment) (self : LAUploader)
      (file_path delim : string) :
  posts_only (fun r => log_type r
                       = Some (keep_word_chars
                                 (table_name_from_path env
                                    (Pathlib.parse (flavour env) file_path))))
             (upload_file env self file_path None delim).
Proof.
  unfold upload_file.
  apply bind_posts_only; [apply quiet_posts_only; reflexivity | intros data].
  cbn [truthy negb assigned]. apply upload_df_posts_only.
Qed.

(** ** The table name derived from a path *)

(** C7 -- the table name that [upload_file] derives for [data/hosts.csv] on
    a POSIX system, where [str(path)] has no backslash to split at: the whole
    path up to its first dot, ["data/hosts"], which reaches the service as
    [Log-Type: datahosts]. *)
Theorem upload_file_posix_table_name_keeps_directory :
  let env := posix_env (answering 200) no_listing
               (fun _ _ => Returns [[("host", Pandas.CStr "srv1")]]) in
  table_name_from_path env (Pathlib.parse (flavour env) "data/hosts.csv")
  = "data/hosts"
  /\ map (fun p => log_type (fst p))
         (posted (snd (upload_file env sample_uploader "data/hosts.csv" None "," fresh)))
     = [Some "datahosts"].
Proof. vm_compute. split; reflexivity. Qed.

(** The derivation gives [hosts] when the path has no directory, or when the
    directory is separated by a backslash; a dot in a directory name cuts
    the name short. *)
Example table_name_from_path_samples :
  let env := posix_env (answering 200) no_listing no_files in
  map (fun p => table_name_from_path env (Pathlib.parse (flavour env) p))
      ["hosts.csv"; "./hosts.csv"; "data\hosts.csv"; "/var/data/hosts.csv";
       "../hosts.csv"; "run.1/hosts.csv"]
  = ["hosts"; "hosts"; "hosts"; "/var/data/hosts"; ""; "run"].
Proof. vm_compute. reflexivity. Qed.

(** C8 -- [upload_folder] without a table name on a POSIX system, for the
    folder [v1.2] that holds [hosts.csv], [users.csv] and [notes.txt]: the
    two [.csv] files are selected, and both are uploaded under the name
    derived from the folder, [v1], not under [hosts] and [users]. *)
Theorem upload_folder_posix_table_names_from_folder :
  let env := posix_env (answering 200)
               (fun _ => ["hosts.csv"; "users.csv"; "notes.txt"])
               (fun path _ => Returns [[("file", Pandas.CStr path)]]) in
  let run := upload_folder env sample_uploader "v1.2" None "," fresh in
  fst run = Returns tt
  /\ map (fun p => (req_data (fst p), log_type (fst p))) (posted (snd run))
     = [(Json.dumps [[("file", "v1.2/hosts.csv")]], Some "v1");
        (Json.dumps [[("file", "v1.2/users.csv")]], Some "v1")].
Proof. vm_compute. split; reflexivity. Qed.

(** With a table name from the caller, every file goes under that name. *)
Example upload_folder_shared_table_name :
  let env := posix_env (answering 200)
               (fun _ => ["hosts.csv"; "users.csv"; "notes.txt"])
               (fun path _ => Returns [[("file", Pandas.CStr path)]]) in
  let run := upload_folder env sample_uploader "logs" (Some "AllLogs") "," fresh in
  map (fun p => (req_data (fst p), log_type (fst p))) (posted (snd run))
  = [(Json.dumps [[("file", "logs/hosts.csv")]], Some "AllLogs");
     (Json.dumps [[("file", "logs/users.csv")]], Some "AllLogs")].
Proof. vm_compute. reflexivity. Qed.

(** With another delimiter every entry of the folder is read. *)
Example upload_folder_other_delimiter :
  let env := posix_env (answering 200)
               (fun _ => ["hosts.csv"; "users.csv"; "notes.txt"])
               (fun path _ => Returns [[("file", Pandas.CStr path)]]) in
  let run := upload_folder env sample_uploader "logs" (Some "AllLogs") ";" fresh in
  map (fun p => req_data (fst p)) (posted (snd run))
  = [Json.dumps [[("file", "logs/hosts.csv")]];
     Json.dumps [[("file", "logs/users.csv")]];
     Json.dumps [[("file", "logs/notes.txt")]]].
Proof. vm_compute. reflexivity. Qed.

End Naming.

Module Severity.
Import PyStr PyVal IntSightsPy.

Section Parser.

Variable _failed_response : pydict -> bool.
Variable strptime : string -> string -> result datetime.

Lemma raw_get_dict (response d : pydict) (key : string) (default : pyval) :
  lookup response "RawResult" = Some (PDict d) ->
  raw_get response key default
  = Returns (match lookup d key with Some v => v | None => default end).
Proof.
  intros H. unfold raw_get, getitem. rewrite H. cbn [rbind get].
  destruct (lookup d key); reflexivity.
Qed.

(** The first test of [parse_results] lets a response through when the
    failure test does, and its [RawResult] is a [dict]. *)
Lemma parse_results_past_not_found (response d : pydict) :
  _failed_response response = false ->
  lookup response "RawResult" = Some (PDict d) ->
  parse_results _failed_response strptime response
  = (let! whitelisted := raw_get response "whitelisted" (PBool false) in
     if truth whitelisted then Returns (false, information, PStr "Whitelisted.")
     else
       let! sev := raw_get response "severity" (PStr "Low") in
       let! threat_actors := raw_get response "relatedThreatActors" (PStr "") in
       let! geolocation := raw_get response "geolocation" PNone in
       let! response_code := getitem response "Status" in
       let! tags := raw_get response "tags" (PList []) in
       let! system_tags := raw_get response "SystemTags" (PList []) in
       let! all_tags := add tags system_tags in
       let! malware := raw_get response "relatedMalware" (PList []) in
       let! campaigns := raw_get response "relatedCampaigns" (PList []) in
       let! score := raw_get response "score" (PInt 0) in
       let! first_seen_text := raw_get response "firstSeen" PNone in
       let! first_seen := dt_strptime strptime first_seen_text "%Y-%m-%dT%H:%M:%S.%fZ" in
       let! last_seen_text := raw_get response "lastSeen" PNone in
       let! last_seen := dt_strptime strptime last_seen_text "%Y-%m-%dT%H:%M:%S.%fZ" in
       let! last_update_text := raw_get response "lastUpdateDate" PNone in
       let! last_update := dt_strptime strptime last_update_text "%Y-%m-%dT%H:%M:%S.%fZ" in
       Returns (true,
                if eq_str sev "Low" then information
                else if eq_str sev "Medium" then warning
                else if eq_str sev "High" then high
                else unknown,
                PDict [("threat_actors", threat_actors);
                       ("geolocation", geolocation);
                       ("response_code", response_code);
                       ("tags", all_tags);
                       ("malware", malware);
                       ("campaigns", campaigns);
                       ("score", score);
                       ("first_seen", first_seen);
                       ("last_seen", last_seen);
                       ("last_update", last_update)])).
Proof.
  intros Hf Hraw. unfold parse_results. rewrite Hf.
  unfold getitem at 1. rewrite Hraw. reflexivity.
Qed.

(** What a matched response gives, whenever it gives something: the flag is
    [True], the severity follows the text under ["severity"] (["Low"] when
    the key is absent), and the details are a [dict]. *)
Lemma parse_results_matched (response d : pydict)
      (is_match : bool) (severity : ResultSeverity) (details : pyval) :
  _failed_response response = false ->
  lookup response "RawResult" = Some (PDict d) ->
  truth (match lookup d "whitelisted" with Some v => v | None => PBool false end)
  = false ->
  parse_results _failed_response strptime response
  = Returns (is_match, severity, details) ->
  is_match = true
  /\ severity
     = (let sev := match lookup d "severity" with Some v => v | None => PStr "Low" end in
        if eq_str sev "Low" then information
        else if eq_str sev "Medium" then warning
        else if eq_str sev "High" then high
        else unknown)
  /\ exists items, details = PDict items.
Proof.
  intros Hf Hraw Hw. rewrite (parse_results_past_not_found response d Hf Hraw).
  rewrite !(raw_get_dict response d _ _ Hraw). cbn [rbind]. rewrite Hw.
  destruct (getitem response "Status") as [code | e]; cbn [rbind];
    [ | discriminate].
  destruct (add _ _) as [all_tags | e]; cbn [rbind]; [ | discriminate].
  destruct (dt_strptime strptime _ _) as [first_seen | e]; cbn [rbind];
    [ | discriminate].
  destruct (dt_strptime strptime _ _) as [last_seen | e]; cbn [rbind];
    [ | discriminate].
  destruct (dt_strptime strptime _ _) as [last_update | e]; cbn [rbind];
    [ | discriminate].
  intros H. inversion H. split; [reflexivity | ]. split; [reflexivity | ].
  eexists. reflexivity.
Qed.

(** C9 -- [parse_results]: a response that the failure test rejects, or
    whose [RawResult] is not a [dict], gives [(False, information,
    "Not found.")]; a response that passes and is whitelisted gives [(False,
    information, "Whitelisted.")]; for a response that passes, is not
    whitelisted and is parsed to a result [(m, severity, details)], [m] is
    [True], [details] is a [dict], and [severity] is [information] for
    ["Low"], [warning] for ["Medium"], [high] for ["High"] and [unknown] for
    any other value under ["severity"]. *)
Theorem parse_results_severity_mapping (response : pydict) :
  (_failed_response response = true ->
   parse_results _failed_response strptime response
   = Returns (false, information, PStr "Not found."))
  /\ (forall raw,
         lookup response "RawResult" = Some raw -> isinstance_dict raw = false ->
         parse_results _failed_response strptime response
         = Returns (false, information, PStr "Not found."))
  /\ (forall d flag,
         _failed_response response = false ->
         lookup response "RawResult" = Some (PDict d) ->
         lookup d "whitelisted" = Some flag -> truth flag = true ->
         parse_results _failed_response strptime response
         = Returns (false, information, PStr "Whitelisted."))
  /\ (forall d is_match severity details,
         _failed_response response = false ->
         lookup response "RawResult" = Some (PDict d) ->
         truth (match lookup d "whitelisted" with Some v => v | None => PBool false end)
         = false ->
         parse_results _failed_response strptime response
         = Returns (is_match, severity, details) ->
         is_match = true
         /\ (exists items, details = PDict items)
         /\ (lookup d "severity" = Some (PStr "Low") -> severity = information)
         /\ (lookup d "severity" = Some (PStr "Medium") -> severity = warning)
         /\ (lookup d "severity" = Some (PStr "High") -> severity = high)
         /\ (forall v, lookup d "severity" = Some v ->
                       v <> PStr "Low" -> v <> PStr "Medium" -> v <> PStr "High" ->
                       severity = unknown)).
Proof.
  split; [ | split; [ | split]].
  - intros Hf. unfold parse_results. rewrite Hf. reflexivity.
  - intros raw Hraw Hnd. unfold parse_results.
    destruct (_failed_response response); [reflexivity | ].
    unfold getitem. rewrite Hraw. cbn [rbind]. rewrite Hnd. reflexivity.
  - intros d flag Hf Hraw Hflag Ht.
    rewrite (parse_results_past_not_found response d Hf Hraw).
    rewrite (raw_get_dict response d _ _ Hraw), Hflag. cbn [rbind].
    rewrite Ht. reflexivity.
  - intros d is_match severity details Hf Hraw Hw Hres.
    destruct (parse_results_matched response d is_match severity details
                Hf Hraw Hw Hres) as [Hm [Hsev Hdet]].
    split; [exact Hm | ]. split; [exact Hdet | ].
    cbv zeta in Hsev. repeat split.
    + intros H. rewrite H in Hsev. exact Hsev.
    + intros H. rewrite H in Hsev. exact Hsev.
    + intros H. rewrite H in Hsev. exact Hsev.
    + intros v H Hl Hm' Hh. rewrite H in Hsev. rewrite Hsev.
      destruct v as [| b | z | s | l | items | t]; try reflexivity.
      cbn [eq_str].
      destruct (String.eqb s "Low") eqn:E1;
        [apply String.eqb_eq in E1; subst s; contradiction Hl; reflexivity | ].
      destruct (String.eqb s "Medium") eqn:E2;
        [apply String.eqb_eq in E2; subst s; contradiction Hm'; reflexivity | ].
      destruct (String.eqb s "High") eqn:E3;
        [apply String.eqb_eq in E3; subst s; contradiction Hh; reflexivity | ].
      reflexivity.
Qed.

(** C10 -- [parse_results] is not total on matched responses: a response
    that passes the failure test, whose [RawResult] is a [dict] that is not
    whitelisted and lacks one of the keys ["firstSeen"], ["lastSeen"] and
    ["lastUpdateDate"], makes it raise instead of returning a triple. *)
Theorem parse_results_raises_without_dates (response d : pydict) (key : string) :
  _failed_response response = false ->
  lookup response "RawResult" = Some (PDict d) ->
  truth (match lookup d "whitelisted" with Some v => v | None => PBool false end)
  = false ->
  key = "firstSeen" \/ key = "lastSeen" \/ key = "lastUpdateDate" ->
  lookup d key = None ->
  exists e, parse_results _failed_response strptime response = Raises e.
Proof.
  intros Hf Hraw Hw Hkey Hnone.
  rewrite (parse_results_past_not_found response d Hf Hraw).
  rewrite !(raw_get_dict response d _ _ Hraw). cbn [rbind]. rewrite Hw.
  destruct (getitem response "Status") as [code | e]; cbn [rbind];
    [ | exists e; reflexivity].
  destruct (add _ _) as [all_tags | e]; cbn [rbind]; [ | exists e; reflexivity].
  destruct Hkey as [-> | [-> | ->]]; rewrite Hnone.
  - cbn [dt_strptime rbind]. eexists. reflexivity.
  - destruct (dt_strptime strptime _ _) as [first_seen | e]; cbn [rbind];
      [ | exists e; reflexivity].
    cbn [dt_strptime rbind]. eexists. reflexivity.
  - destruct (dt_strptime strptime _ _) as [first_seen | e]; cbn [rbind];
      [ | exists e; reflexivity].
    destruct (dt_strptime strptime _ _) as [last_seen | e]; cbn [rbind];
      [ | exists e; reflexivity].
    cbn [dt_strptime rbind]. eexists. reflexivity.
Qed.

End Parser.

(** ** The two theorems at sample responses *)

Lemma parse_results_severity_mapping_witness :
  exists details,
    parse_results status_failed_response strptime_padded sample_response
    = Returns (true, high, details).
Proof.
  destruct (parse_results status_failed_response strptime_padded sample_response)
    as [[[is_match severity] details] | e] eqn:Hrun;
    [ | vm_compute in Hrun; discriminate Hrun].
  destruct (parse_results_severity_mapping status_failed_response strptime_padded
              sample_response) as [_ [_ [_ H]]].
  destruct (H sample_raw is_match severity details eq_refl eq_refl eq_refl Hrun)
    as [Hm [_ [_ [_ [Hhigh _]]]]].
  exists details. rewrite Hm, (Hhigh eq_refl). reflexivity.
Defined.

Lemma parse_results_raises_without_dates_witness :
  exists e,
    parse_results status_failed_response strptime_padded
      sample_response_without_first_seen
    = Raises e.
Proof.
  apply (parse_results_raises_without_dates status_failed_response strptime_padded
           sample_response_without_first_seen
           [("severity", PStr "High");
            ("lastSeen", PStr "2021-02-28T23:59:59.000001Z");
            ("lastUpdateDate", PStr "2024-02-29T00:00:00.5Z")]
           "firstSeen").
  - reflexivity.
  - reflexivity.
  - reflexivity.
  - left. reflexivity.
  - reflexivity.
Defined.

(** The exception is the [TypeError] of [strptime] on [None]. *)
Example parse_results_type_error :
  parse_results status_failed_response strptime_padded
    sample_response_without_first_seen
  = Raises (mkExn TypeError "strptime() argument 1 must be str" None).
Proof. vm_compute. reflexivity. Qed.

End Severity.

(* ================================================================== *)
(** * Further properties of the uploader *)
(* ================================================================== *)

Module Requests.
Import PyStr Effects LAUploaderPy Notions MoreNotions MonadFacts StringFacts.
Import Batching Naming.

(** A property of the requests of [_post_data], whatever the body and the
    table, is a property of the requests of the three upload methods. *)
Lemma upload_df_posts_only_from_post_data (P : request -> Prop)
      (env : environment) (self : LAUploader) :
  (forall body table_name, posts_only P (_post_data env self body table_name)) ->
  forall data table_name, posts_only P (upload_df env self data table_name).
Proof.
  intros Hpost data table_name.
  assert (Hloop : forall rows events,
             posts_only P (upload_df_loop env self table_name rows events)).
  { induction rows as [| row rest IH]; intros events.
    - apply quiet_posts_only. reflexivity.
    - cbn [upload_df_loop].
      destruct (sys_getsizeof env _ >? 26214400); [ | apply IH].
      apply bind_posts_only.
      + destruct (_debug self); apply quiet_posts_only; reflexivity.
      + intros _. apply bind_posts_only; [apply Hpost | intros _; apply IH]. }
  unfold upload_df. apply bind_posts_only; [apply Hloop | intros events].
  apply bind_posts_only.
  - destruct events; [apply quiet_posts_only; reflexivity | apply Hpost].
  - intros _. destruct (_debug self); apply quiet_posts_only; reflexivity.
Qed.

Lemma upload_file_posts_only_from_post_data (P : request -> Prop)
      (env : environment) (self : LAUploader) :
  (forall body table_name, posts_only P (_post_data env self body table_name)) ->
  forall file_path table_name delim,
    posts_only P (upload_file env self file_path table_name delim).
Proof.
  intros Hpost file_path table_name delim. unfold upload_file.
  apply bind_posts_only; [apply quiet_posts_only; reflexivity | intros data].
  apply upload_df_posts_only_from_post_data. exact Hpost.
Qed.

Lemma upload_folder_posts_only_from_post_data (P : request -> Prop)
      (env : environment) (self : LAUploader) :
  (forall body table_name, posts_only P (_post_data env self body table_name)) ->
  forall folder_path table_name delim,
    posts_only P (upload_folder env self folder_path table_name delim).
Proof.
  intros Hpost folder_path table_name delim. unfold upload_folder.
  apply bind_posts_only; [apply quiet_posts_only; reflexivity | intros _].
  apply bind_posts_only; [ | intros _; apply quiet_posts_only; reflexivity].
  generalize (glob env (Pathlib.parse (flavour env) folder_path)
                (if negb (String.eqb delim ",") then "*" else "*.csv")).
  intros files. generalize (truthy table_name). intros t_name. revert table_name.
  induction files as [| path rest IH]; intros table_name.
  - apply quiet_posts_only. reflexivity.
  - cbn [upload_folder_loop].
    apply bind_posts_only; [apply quiet_posts_only; reflexivity | intros data].
    apply bind_posts_only;
      [apply upload_df_posts_only_from_post_data; exact Hpost | intros _].
    apply bind_posts_only; [apply quiet_posts_only; reflexivity | intros _].
    apply IH.
Qed.

Lemma _post_data_well_signed (env : environment) (self : LAUploader)
      (body table_name : string) :
  posts_only (well_signed env self) (_post_data env self body table_name).
Proof.
  intros w. rewrite _post_data_run. cbv zeta.
  destruct (_build_signature self (utcnow_strftime env (clock_reads w))
              (len body) "POST" "application/json" "/api/logs")
    as [sig | e] eqn:Hsig.
  - eexists. cbn [fst snd posted]. split; [reflexivity | ].
    constructor; [ | constructor]. cbn [fst]. unfold well_signed, built_request.
    cbn [req_uri req_headers req_data]. split.
    + rewrite !append_assoc. reflexivity.
    + eexists. eexists. eexists. exists (clock_reads w).
      split; [reflexivity | ]. split; [reflexivity | exact Hsig].
  - exists []. cbn [snd posted]. rewrite app_nil_r. split; [reflexivity | constructor].
Qed.

(** X1 -- every request that [upload_df], [upload_file] or [upload_folder]
    sends goes to [https://{workspace}{ops_loc}/api/logs?api-version=2016-04-01]
    with exactly the headers [content-type], [Authorization], [Log-Type] and
    [x-ms-date], in this order; the date is a reading of the clock, and the
    [Authorization] header is the signature that [_build_signature] gives for
    that same date and for the length of the request's own body. *)
Theorem every_request_is_well_signed (env : environment) (self : LAUploader) :
  (forall data table_name,
      posts_only (well_signed env self) (upload_df env self data table_name))
  /\ (forall file_path table_name delim,
         posts_only (well_signed env self)
                    (upload_file env self file_path table_name delim))
  /\ (forall folder_path table_name delim,
         posts_only (well_signed env self)
                    (upload_folder env self folder_path table_name delim)).
Proof.
  split; [ | split]; intros.
  - apply upload_df_posts_only_from_post_data. apply _post_data_well_signed.
  - apply upload_file_posts_only_from_post_data. apply _post_data_well_signed.
  - apply upload_folder_posts_only_from_post_data. apply _post_data_well_signed.
Qed.

End Requests.

Module BadSecret.
Import PyStr Effects LAUploaderPy Notions MoreNotions MonadFacts StringFacts.
Import Batching PostData.

Lemma upload_df_loop_bad_secret (env : environment) (self : LAUploader)
      (e : exn) (table_name : string) (rows : Pandas.DataFrame) :
  Base64.b64decode (workspace_secret self) = Raises e ->
  forall events w,
    posted (snd (upload_df_loop env self table_name rows events w)) = posted w
    /\ (fst (upload_df_loop env self table_name rows events w) = Raises e
        \/ fst (upload_df_loop env self table_name rows events w)
           = Returns (events ++ map Pandas.astype_str_to_dict rows)%list).
Proof.
  intros Hbad. induction rows as [| row rest IH]; intros events w.
  - cbn. rewrite app_nil_r. split; [reflexivity | right; reflexivity].
  - cbn [upload_df_loop map].
    set (events' := (events ++ [Pandas.astype_str_to_dict row])%list).
    replace (events ++ Pandas.astype_str_to_dict row
                       :: map Pandas.astype_str_to_dict rest)%list
      with (events' ++ map Pandas.astype_str_to_dict rest)%list
      by (unfold events'; rewrite <- app_assoc; reflexivity).
    destruct (sys_getsizeof env (Json.dumps events') >? 26214400); [ | apply IH].
    destruct (debug_then (_debug self)
                "Data larger than 25MB spliting data requests."
                (_post_data env self (Json.dumps events') table_name ;;
                 upload_df_loop env self table_name rest []) w)
      as [w1 [Hrun Hw1]].
    rewrite Hrun. unfold bind.
    destruct (post_data_bad_secret env self (Json.dumps events') table_name w1 e Hbad)
      as [Hres Hp].
    destruct (_post_data env self (Json.dumps events') table_name w1) as [res w2].
    cbn [fst snd] in *. subst res. cbn [fst snd].
    split; [rewrite Hp; exact Hw1 | left; reflexivity].
Qed.

(** X2 -- with a workspace secret that [base64.b64decode] refuses, [upload_df]
    sends no request at all: for a DataFrame with at least one row it raises
    the decoder's exception (the first time a batch is to be sent), and for
    an empty DataFrame it returns. *)
Theorem upload_df_with_undecodable_secret (env : environment) (self : LAUploader)
        (e : exn) (data : Pandas.DataFrame) (table_name : string) (w : world) :
  Base64.b64decode (workspace_secret self) = Raises e ->
  posted (snd (upload_df env self data table_name w)) = posted w
  /\ (data <> [] -> fst (upload_df env self data table_name w) = Raises e)
  /\ (data = [] -> fst (upload_df env self data table_name w) = Returns tt).
Proof.
  intros Hbad.
  destruct (upload_df_loop_bad_secret env self e table_name data Hbad [] w)
    as [Hp Hres].
  unfold upload_df, bind.
  destruct (upload_df_loop env self table_name data [] w) as [res w1] eqn:Hrun.
  cbn [fst snd app] in *.
  destruct Hres as [-> | ->].
  - cbn [fst snd]. split; [exact Hp | ]. split; [reflexivity | ].
    (* an empty table never reaches this case *)
    intros Hd. subst data. cbn in Hrun. discriminate Hrun.
  - destruct data as [| row rest]; cbn [map].
    + unfold ret. destruct (_debug self); cbn [fst snd print posted];
        (split; [exact Hp | ]; split; [intros H; contradiction | reflexivity]).
    + destruct (post_data_bad_secret env self
                  (Json.dumps (Pandas.astype_str_to_dict row
                                 :: map Pandas.astype_str_to_dict rest))
                  table_name w1 e Hbad) as [Hres Hp1].
      destruct (_post_data env self _ table_name w1) as [res w2].
      cbn [fst snd] in *. subst res. cbn [fst snd].
      split; [rewrite Hp1; exact Hp | ]. split; [reflexivity | discriminate].
Qed.

Lemma uploader_with_bad_secret_raises :
  Base64.b64decode (workspace_secret uploader_with_bad_secret)
  = Raises (mkExn BinasciiError
              "Invalid base64-encoded string: number of data characters (9) cannot be 1 more than a multiple of 4"
              None).
Proof. vm_compute. reflexivity. Qed.

Lemma upload_df_with_undecodable_secret_witness :
  posted (snd (upload_df (posix_env (answering 200) no_listing no_files)
                 uploader_with_bad_secret two_rows "Hosts" fresh)) = []
  /\ exists e,
       fst (upload_df (posix_env (answering 200) no_listing no_files)
              uploader_with_bad_secret two_rows "Hosts" fresh) = Raises e
       /\ exc_type e = BinasciiError.
Proof.
  destruct (upload_df_with_undecodable_secret
              (posix_env (answering 200) no_listing no_files)
              uploader_with_bad_secret _ two_rows "Hosts" fresh
              uploader_with_bad_secret_raises) as [Hp [Hraise _]].
  split; [exact Hp | ]. eexists. split; [apply Hraise; discriminate | reflexivity].
Defined.

End BadSecret.

Module BatchShape.
Import PyStr Effects LAUploaderPy Notions MoreNotions MonadFacts StringFacts.
Import Batching Naming.

(** ** Lists *)

Lemma Forall_firstn_of {A : Type} (Q : A -> Prop) (k : nat) (l : list A) :
  Forall Q l -> Forall Q (firstn k l).
Proof.
  revert k. induction l as [| x l IH]; intros [| k] H; cbn [firstn];
    try constructor.
  - inversion H; assumption.
  - apply IH. inversion H; assumption.
Qed.

Lemma Forall_removelast_firstn {A : Type} (Q : A -> Prop) (k : nat) (l : list A) :
  Forall Q (removelast l) -> Forall Q (removelast (firstn k l)).
Proof.
  revert k. induction l as [| x l IH]; intros [| k] H; cbn [firstn removelast];
    try constructor.
  destruct l as [| y l].
  - destruct k; cbn; constructor.
  - destruct (firstn k (y :: l)) as [| z zs] eqn:Hf; [constructor | ].
    rewrite <- Hf. change (removelast (x :: y :: l)) with (x :: removelast (y :: l)) in H.
    inversion H as [| ? ? Hx Hrest]; subst. constructor; [exact Hx | ].
    apply IH. exact Hrest.
Qed.

Lemma length_le_concat {A : Type} (bs : list (list A)) :
  Forall (fun b => b <> []) bs -> (List.length bs <= List.length (List.concat bs))%nat.
Proof.
  induction 1 as [| b bs Hb _ IH]; cbn [List.concat List.length]; [lia | ].
  rewrite length_app. destruct b as [| x b]; [contradiction | ]. cbn [List.length]. lia.
Qed.

(** ** Sizes of the batches of the specification *)

Lemma spec_batches_sizes (size : list Json.record -> Z) (ceiling : Z)
      (records : list Json.record) :
  forall batch,
    (batch = [] \/ size batch <= ceiling) ->
    within_before_last size ceiling batch ->
    Forall (within_before_last size ceiling)
           (spec_batches size ceiling records batch)
    /\ Forall (fun b => ceiling < size b)
              (removelast (spec_batches size ceiling records batch)).
Proof.
  induction records as [| r rest IH]; intros batch Hsize Hprev;
    cbn [spec_batches].
  - destruct batch as [| x b].
    + split; constructor.
    + split; [constructor; [exact Hprev | constructor] | constructor].
  - assert (Hnew : within_before_last size ceiling (batch ++ [r])%list).
    { unfold within_before_last. rewrite removelast_last.
      destruct Hsize as [-> | H]; [left; reflexivity | right; exact H]. }
    destruct (size (batch ++ [r])%list >? ceiling) eqn:Hcmp.
    + destruct (IH [] (or_introl eq_refl) (or_introl eq_refl)) as [H1 H2].
      split; [constructor; assumption | ].
      destruct (spec_batches size ceiling rest []) as [| b bs] eqn:Hsb.
      * cbn. constructor.
      * change (removelast ((batch ++ [r])%list :: b :: bs))
          with ((batch ++ [r])%list :: removelast (b :: bs)).
        constructor; [ | exact H2].
        rewrite Z.gtb_ltb in Hcmp. apply Z.ltb_lt. exact Hcmp.
    + apply IH; [ | exact Hnew]. right.
      rewrite Z.gtb_ltb in Hcmp. apply Z.ltb_ge. exact Hcmp.
Qed.

(** X3 -- the batches that [upload_df] sends, in any run: each of them,
    seen without its last record, measured at most 26,214,400 (or was empty),
    so a batch exceeds the ceiling by its last record only; and each of them
    but the last one sent measures more than 26,214,400. *)
Theorem sent_batches_exceed_by_last_record_only (env : environment)
        (self : LAUploader) (data : Pandas.DataFrame) (table_name : string)
        (w : world) :
  exists new batches,
    posted (snd (upload_df env self data table_name w)) = (posted w ++ new)%list
    /\ bodies new = map Json.dumps batches
    /\ Forall (within_before_last (measured_size env) 26214400) batches
    /\ Forall (fun b => 26214400 < measured_size env b) (removelast batches).
Proof.
  destruct (upload_df_run env self data table_name w) as [new [k [Hp [Hb _]]]].
  destruct (spec_batches_sizes (measured_size env) 26214400
              (map Pandas.astype_str_to_dict data) []
              (or_introl eq_refl) (or_introl eq_refl)) as [H1 H2].
  eexists. eexists. split; [exact Hp | ]. split; [exact Hb | ]. split.
  - apply Forall_firstn_of. exact H1.
  - apply Forall_removelast_firstn. exact H2.
Qed.

(** X4 -- in any run, [upload_df] never sends an empty batch: the bodies it
    has sent are the serialisations of non-empty batches which, put end to
    end, are the first records of the input, in order; so there are at most
    as many requests as rows. *)
Theorem upload_df_sends_nonempty_prefix_batches (env : environment)
        (self : LAUploader) (data : Pandas.DataFrame) (table_name : string)
        (w : world) :
  exists new batches rest,
    posted (snd (upload_df env self data table_name w)) = (posted w ++ new)%list
    /\ bodies new = map Json.dumps batches
    /\ Forall (fun b => b <> []) batches
    /\ (List.concat batches ++ rest)%list = map Pandas.astype_str_to_dict data
    /\ (List.length new <= List.length data)%nat.
Proof.
  destruct (upload_df_run env self data table_name w) as [new [k [Hp [Hb _]]]].
  set (sb := spec_batches (measured_size env) 26214400
               (map Pandas.astype_str_to_dict data) []) in *.
  assert (Hne : Forall (fun b : list Json.record => b <> []) (firstn k sb)).
  { apply Forall_firstn_of. apply spec_batches_nonempty. }
  assert (Hcat : (List.concat (firstn k sb) ++ List.concat (skipn k sb))%list
                 = map Pandas.astype_str_to_dict data).
  { rewrite <- concat_app, firstn_skipn. apply spec_batches_concat. }
  exists new, (firstn k sb), (List.concat (skipn k sb)).
  split; [exact Hp | ]. split; [exact Hb | ]. split; [exact Hne | ].
  split; [exact Hcat | ].
  apply (f_equal (@List.length string)) in Hb. unfold bodies in Hb.
  rewrite !length_map in Hb. rewrite Hb.
  apply (f_equal (@List.length Json.record)) in Hcat.
  rewrite length_app, length_map in Hcat.
  pose proof (length_le_concat _ Hne). lia.
Qed.

End BatchShape.

Module AsciiBody.
Import PyStr Effects LAUploaderPy Notions MoreNotions MonadFacts StringFacts.
Import Batching Naming.

Lemma isascii_append (a b : string) : isascii (a ++ b) = isascii a && isascii b.
Proof.
  unfold isascii. induction a as [| c a IH]; cbn [String.append list_ascii_of_string forallb].
  - reflexivity.
  - rewrite IH, andb_assoc. reflexivity.
Qed.

Lemma escape_char_isascii (c : ascii) : isascii (Json.escape_char c) = true.
Proof. destruct c as [[] [] [] [] [] [] [] []]; vm_compute; reflexivity. Qed.

Lemma escape_isascii (s : string) : isascii (Json.escape s) = true.
Proof.
  induction s as [| c s IH]; cbn [Json.escape]; [reflexivity | ].
  rewrite isascii_append, escape_char_isascii, IH. reflexivity.
Qed.

Lemma join_isascii (sep : string) (parts : list string) :
  isascii sep = true -> Forall (fun p => isascii p = true) parts ->
  isascii (join sep parts) = true.
Proof.
  intros Hsep H. induction H as [| p parts Hp Hparts IH]; [reflexivity | ].
  destruct parts as [| q parts]; [exact Hp | ].
  change (join sep (p :: q :: parts)) with (p ++ sep ++ join sep (q :: parts)).
  rewrite !isascii_append, Hp, Hsep, IH. reflexivity.
Qed.

Lemma dumps_record_isascii (d : Json.record) : isascii (Json.dumps_record d) = true.
Proof.
  unfold Json.dumps_record. rewrite !isascii_append.
  rewrite join_isascii; [reflexivity | reflexivity | ].
  induction d as [| kv d IH]; cbn [map]; constructor; [ | exact IH].
  unfold Json.dumps_item, Json.dumps_str.
  change (String Json.dquote (Json.escape (fst kv) ++ String Json.dquote ""))
    with (String Json.dquote "" ++ (Json.escape (fst kv) ++ String Json.dquote "")).
  change (String Json.dquote (Json.escape (snd kv) ++ String Json.dquote ""))
    with (String Json.dquote "" ++ (Json.escape (snd kv) ++ String Json.dquote "")).
  rewrite !isascii_append, !escape_isascii. reflexivity.
Qed.

(** [json.dumps] gives ASCII text, whatever the characters of the record. *)
Lemma dumps_isascii (events : list Json.record) : isascii (Json.dumps events) = true.
Proof.
  unfold Json.dumps. rewrite !isascii_append.
  rewrite join_isascii; [reflexivity | reflexivity | ].
  induction events as [| d events IH]; cbn [map]; constructor;
    [apply dumps_record_isascii | exact IH].
Qed.

(** ASCII text takes one byte per character. *)
Lemma encode_utf8_length_ascii (s : string) :
  isascii s = true -> Z.of_nat (List.length (encode_utf8 s)) = len s.
Proof.
  unfold isascii, encode_utf8, len.
  induction s as [| c s IH]; cbn [list_ascii_of_string forallb flat_map String.length];
    [reflexivity | ].
  intros H. apply andb_true_iff in H. destruct H as [Hc Hs].
  rewrite length_app, Nat2Z.inj_add, (IH Hs), Nat2Z.inj_succ.
  unfold utf8_char. cbv zeta. rewrite Hc. cbn [List.length]. lia.
Qed.

Lemma _post_data_posts_its_body (env : environment) (self : LAUploader)
      (body table_name : string) :
  posts_only (fun r => req_data r = body) (_post_data env self body table_name).
Proof.
  intros w.
  destruct (_post_data_cases env self body table_name w)
    as [[Hp _] | [req [o [Hp [Hbody _]]]]].
  - exists []. rewrite app_nil_r. split; [exact Hp | constructor].
  - exists [(req, o)]. split; [exact Hp | ]. constructor; [exact Hbody | constructor].
Qed.

Lemma posts_only_weaken {A : Type} (P Q : request -> Prop) (m : M A) :
  (forall r, P r -> Q r) -> posts_only P m -> posts_only Q m.
Proof.
  intros HPQ H w. destruct (H w) as [new [Hp Hall]]. exists new.
  split; [exact Hp | ]. eapply Forall_impl; [ | exact Hall].
  intros p. apply HPQ.
Qed.

(** The body of every request of [upload_df] is the serialisation of a list
    of records. *)
Lemma upload_df_posts_dumps (env : environment) (self : LAUploader)
      (data : Pandas.DataFrame) (table_name : string) :
  posts_only (fun r => exists events, req_data r = Json.dumps events)
             (upload_df env self data table_name).
Proof.
  assert (Hpost : forall events,
             posts_only (fun r => exists evs, req_data r = Json.dumps evs)
                        (_post_data env self (Json.dumps events) table_name)).
  { intros events. eapply posts_only_weaken; [ | apply _post_data_posts_its_body].
    intros r Hr. exists events. exact Hr. }
  assert (Hloop : forall rows events,
             posts_only (fun r => exists evs, req_data r = Json.dumps evs)
                        (upload_df_loop env self table_name rows events)).
  { induction rows as [| row rest IH]; intros events.
    - apply quiet_posts_only. reflexivity.
    - cbn [upload_df_loop].
      destruct (sys_getsizeof env _ >? 26214400); [ | apply IH].
      apply bind_posts_only.
      + destruct (_debug self); apply quiet_posts_only; reflexivity.
      + intros _. apply bind_posts_only; [apply Hpost | intros _; apply IH]. }
  unfold upload_df. apply bind_posts_only; [apply Hloop | intros events].
  apply bind_posts_only.
  - destruct events; [apply quiet_posts_only; reflexivity | apply Hpost].
  - intros _. destruct (_debug self); apply quiet_posts_only; reflexivity.
Qed.

(** A property of the requests of [upload_df], whatever the table and the
    data, is a property of the requests of [upload_file] and
    [upload_folder]. *)
Lemma upload_file_posts_only_from_upload_df (P : request -> Prop)
      (env : environment) (self : LAUploader) :
  (forall data table_name, posts_only P (upload_df env self data table_name)) ->
  forall file_path table_name delim,
    posts_only P (upload_file env self file_path table_name delim).
Proof.
  intros Hdf file_path table_name delim. unfold upload_file.
  apply bind_posts_only; [apply quiet_posts_only; reflexivity | intros data].
  apply Hdf.
Qed.

Lemma upload_folder_posts_only_from_upload_df (P : request -> Prop)
      (env : environment) (self : LAUploader) :
  (forall data table_name, posts_only P (upload_df env self data table_name)) ->
  forall folder_path table_name delim,
    posts_only P (upload_folder env self folder_path table_name delim).
Proof.
  intros Hdf folder_path table_name delim. unfold upload_folder.
  apply bind_posts_only; [apply quiet_posts_only; reflexivity | intros _].
  apply bind_posts_only; [ | intros _; apply quiet_posts_only; reflexivity].
  generalize (glob env (Pathlib.parse (flavour env) folder_path)
                (if negb (String.eqb delim ",") then "*" else "*.csv")).
  intros files. generalize (truthy table_name). intros t_name. revert table_name.
  induction files as [| path rest IH]; intros table_name.
  - apply quiet_posts_only. reflexivity.
  - cbn [upload_folder_loop].
    apply bind_posts_only; [apply quiet_posts_only; reflexivity | intros data].
    apply bind_posts_only; [apply Hdf | intros _].
    apply bind_posts_only; [apply quiet_posts_only; reflexivity | intros _].
    apply IH.
Qed.

(** X5 -- the body of every request that [upload_df], [upload_file] or
    [upload_folder] sends is ASCII text, whatever the characters of the
    column names and values ([json.dumps] escapes the others), so the
    content length that is signed, [len(body)], is the number of bytes of the
    body once encoded. *)
Theorem every_body_is_ascii (env : environment) (self : LAUploader) :
  let ascii_body := fun r : request =>
    isascii (req_data r) = true
    /\ Z.of_nat (List.length (encode_utf8 (req_data r))) = len (req_data r) in
  (forall data table_name,
      posts_only ascii_body (upload_df env self data table_name))
  /\ (forall file_path table_name delim,
         posts_only ascii_body (upload_file env self file_path table_name delim))
  /\ (forall folder_path table_name delim,
         posts_only ascii_body (upload_folder env self folder_path table_name delim)).
Proof.
  cbv zeta.
  assert (Hdf : forall data table_name,
             posts_only (fun r : request =>
                           isascii (req_data r) = true
                           /\ Z.of_nat (List.length (encode_utf8 (req_data r)))
                              = len (req_data r))
                        (upload_df env self data table_name)).
  { intros data table_name.
    eapply posts_only_weaken; [ | apply upload_df_posts_dumps].
    intros r [events Hr]. rewrite Hr.
    split; [apply dumps_isascii | apply encode_utf8_length_ascii, dumps_isascii]. }
  split; [exact Hdf | split]; intros.
  - apply upload_file_posts_only_from_upload_df. exact Hdf.
  - apply upload_folder_posts_only_from_upload_df. exact Hdf.
Qed.

End AsciiBody.

Module Progress.
Import PyStr Effects LAUploaderPy Notions MoreNotions MonadFacts StringFacts.

Lemma silent_prints_only {A : Type} (m : M A) :
  (forall w, console (snd (m w)) = console w) -> prints_only m.
Proof.
  intros H w. exists []. rewrite app_nil_r. split; [apply H | reflexivity].
Qed.

Lemma print_prints_only (line : string) : prints_only (print line).
Proof. intros w. exists [Print line]. split; reflexivity. Qed.

Lemma bind_prints_only {A B : Type} (m : M A) (k : A -> M B) :
  prints_only m -> (forall a, prints_only (k a)) -> prints_only (bind m k).
Proof.
  intros Hm Hk w. unfold bind. destruct (Hm w) as [said1 [Hc1 Hf1]].
  destruct (m w) as [[a | e] w1]; cbn [fst snd] in *.
  - destruct (Hk a w1) as [said2 [Hc2 Hf2]]. exists (said1 ++ said2)%list.
    split; [rewrite Hc2, Hc1, app_assoc; reflexivity | ].
    rewrite filter_app, Hf1, Hf2. reflexivity.
  - exists said1. split; assumption.
Qed.

Lemma _post_data_prints_only (env : environment) (self : LAUploader)
      (body table_name : string) :
  prints_only (_post_data env self body table_name).
Proof.
  intros w. rewrite _post_data_run. cbv zeta.
  destruct (_build_signature self (utcnow_strftime env (clock_reads w))
              (len body) "POST" "application/json" "/api/logs") as [sig | e].
  - eexists. cbn [fst snd console]. split; [reflexivity | ].
    destruct (requests_post env (map fst (posted w)) _); [reflexivity | reflexivity | ].
    destruct (_debug self); reflexivity.
  - exists []. cbn [snd console]. rewrite app_nil_r. split; reflexivity.
Qed.

Lemma upload_df_prints_only (env : environment) (self : LAUploader)
      (data : Pandas.DataFrame) (table_name : string) :
  prints_only (upload_df env self data table_name).
Proof.
  assert (Hloop : forall rows events,
             prints_only (upload_df_loop env self table_name rows events)).
  { induction rows as [| row rest IH]; intros events.
    - apply silent_prints_only. reflexivity.
    - cbn [upload_df_loop].
      destruct (sys_getsizeof env _ >? 26214400); [ | apply IH].
      apply bind_prints_only.
      + destruct (_debug self);
          [apply print_prints_only | apply silent_prints_only; reflexivity].
      + intros _. apply bind_prints_only;
          [apply _post_data_prints_only | intros _; apply IH]. }
  unfold upload_df. apply bind_prints_only; [apply Hloop | intros events].
  apply bind_prints_only.
  - destruct events;
      [apply silent_prints_only; reflexivity | apply _post_data_prints_only].
  - intros _. destruct (_debug self);
      [apply print_prints_only | apply silent_prints_only; reflexivity].
Qed.

Lemma tqdm_then {A : Type} (ev : console_event) (k : unit -> M A) (w : world) :
  bind (tqdm ev) k w
  = k tt (mkWorld (posted w) (clock_reads w) (console w ++ [ev])).
Proof. reflexivity. Qed.

(** One round of the loop over the files. *)
Lemma upload_folder_loop_cons (env : environment) (self : LAUploader)
      (delim : string) (t_name : bool) (path : Pathlib.PurePath)
      (rest : list Pathlib.PurePath) (table_name : option string) (w : world) :
  upload_folder_loop env self delim t_name (path :: rest) table_name w
  = match read_csv env (Pathlib.render (flavour env) path) delim with
    | Raises e => (Raises e, w)
    | Returns data =>
        let table_name' :=
          if negb t_name then Some (table_name_from_path env path)
          else table_name in
        match upload_df env self data (assigned table_name') w with
        | (Raises e, w1) => (Raises e, w1)
        | (Returns _, w1) =>
            upload_folder_loop env self delim t_name rest table_name'
              (mkWorld (posted w1) (clock_reads w1)
                       (console w1 ++ [TqdmUpdate 1]))
        end
    end.
Proof.
  cbn [upload_folder_loop]. unfold bind at 1. unfold lift.
  destruct (read_csv env (Pathlib.render (flavour env) path) delim) as [data | e];
    [ | reflexivity].
  cbv zeta. unfold bind at 1.
  destruct (upload_df env self data _ w) as [[[] | e] w1]; reflexivity.
Qed.

(** The loop over the files reports one step for each file that was read
    and uploaded: all of them when it returns, fewer when it raises. *)
Lemma upload_folder_loop_progress (env : environment) (self : LAUploader)
      (delim : string) (t_name : bool) (input_files : list Pathlib.PurePath) :
  forall table_name w,
  exists said k,
    console (snd (upload_folder_loop env self delim t_name input_files table_name w))
    = (console w ++ said)%list
    /\ filter is_progress said = repeat (TqdmUpdate 1) k
    /\ match fst (upload_folder_loop env self delim t_name input_files table_name w) with
       | Returns _ => k = List.length input_files
       | Raises _ => (k < List.length input_files)%nat
       end.
Proof.
  induction input_files as [| path rest IH]; intros table_name w.
  - exists [], 0%nat. cbn. rewrite app_nil_r. repeat split.
  - rewrite upload_folder_loop_cons. cbv zeta.
    destruct (read_csv env (Pathlib.render (flavour env) path) delim) as [data | e].
    + set (table_name' := if negb t_name
                          then Some (table_name_from_path env path)
                          else table_name).
      destruct (upload_df_prints_only env self data (assigned table_name') w)
        as [said1 [Hc1 Hf1]].
      destruct (upload_df env self data (assigned table_name') w)
        as [[[] | e] w1]; cbn [fst snd] in *.
      * match goal with
        | |- context [upload_folder_loop env self delim t_name rest ?tn ?w2] =>
            destruct (IH tn w2) as [said2 [k [Hc2 [Hf2 Hk]]]];
            destruct (upload_folder_loop env self delim t_name rest tn w2)
              as [res w3]
        end.
        exists (said1 ++ [TqdmUpdate 1] ++ said2)%list, (S k).
        cbn [console fst snd] in *. split.
        -- rewrite Hc2, Hc1, <- !app_assoc. reflexivity.
        -- split.
           ++ rewrite !filter_app, Hf1, Hf2. reflexivity.
           ++ destruct res; cbn [List.length]; lia.
      * exists said1, 0%nat. split; [exact Hc1 | ].
        split; [exact Hf1 | cbn [List.length]; lia].
    + exists [], 0%nat. cbn [fst snd]. rewrite app_nil_r.
      split; [reflexivity | ]. split; [reflexivity | cbn [List.length]; lia].
Qed.

(** X6 -- the progress bar of [upload_folder]: it is opened with the number
    of selected files, advanced by one after each file that was read and
    uploaded, and closed after the last one.  When the run raises -- a file
    cannot be read, or an upload fails -- the bar has advanced by fewer steps
    than there are files and is never closed. *)
Theorem upload_folder_progress (env : environment) (self : LAUploader)
        (folder_path : string) (table_name : option string) (delim : string)
        (w : world) :
  let input_files :=
    glob env (Pathlib.parse (flavour env) folder_path)
         (if negb (String.eqb delim ",") then "*" else "*.csv") in
  exists said k,
    console (snd (upload_folder env self folder_path table_name delim w))
    = (console w ++ said)%list
    /\ match fst (upload_folder env self folder_path table_name delim w) with
       | Returns _ =>
           k = List.length input_files
           /\ filter is_progress said
              = (TqdmOpen (Z.of_nat (List.length input_files))
                 :: repeat (TqdmUpdate 1) k ++ [TqdmClose])%list
       | Raises _ =>
           (k < List.length input_files)%nat
           /\ filter is_progress said
              = TqdmOpen (Z.of_nat (List.length input_files))
                :: repeat (TqdmUpdate 1) k
       end.
Proof.
  cbv zeta. unfold upload_folder.
  set (files := glob env (Pathlib.parse (flavour env) folder_path)
                  (if negb (String.eqb delim ",") then "*" else "*.csv")).
  rewrite !tqdm_then. cbv beta. unfold bind.
  match goal with
  | |- context [upload_folder_loop env self delim ?t files table_name ?w1] =>
      destruct (upload_folder_loop_progress env self delim t files table_name w1)
        as [said [k [Hc [Hf Hk]]]];
      destruct (upload_folder_loop env self delim t files table_name w1)
        as [[[] | e] w2]
  end; cbn [fst snd console] in *.
  - unfold tqdm. cbn [fst snd console].
    exists ([TqdmOpen (Z.of_nat (List.length files))] ++ said ++ [TqdmClose])%list, k.
    split; [rewrite Hc, <- !app_assoc; reflexivity | ].
    split; [exact Hk | ].
    rewrite !filter_app, Hf. reflexivity.
  - exists ([TqdmOpen (Z.of_nat (List.length files))] ++ said)%list, k.
    split; [rewrite Hc, <- !app_assoc; reflexivity | ].
    split; [exact Hk | ]. rewrite filter_app, Hf. reflexivity.
Qed.

End Progress.

Module TableNames.
Import PyStr Effects LAUploaderPy Notions MoreNotions MonadFacts StringFacts.
Import Naming Progress.

(** ** An empty table name *)

(** When the caller gave no name, the loop over the files does not depend on
    the value that its [table_name] variable holds on entry. *)
Lemma upload_folder_loop_without_name (env : environment) (self : LAUploader)
      (delim : string) (input_files : list Pathlib.PurePath)
      (table_name1 table_name2 : option string) (w : world) :
  upload_folder_loop env self delim false input_files table_name1 w
  = upload_folder_loop env self delim false input_files table_name2 w.
Proof.
  destruct input_files as [| path rest]; [reflexivity | ].
  rewrite !upload_folder_loop_cons. reflexivity.
Qed.

(** X7 -- an empty string given as table name counts as no table name:
    [upload_file] and [upload_folder] called with [table_name=""] do exactly
    what they do with [table_name=None], deriving the name from each path. *)
Theorem empty_table_name_is_no_table_name (env : environment) (self : LAUploader)
        (path delim : string) (w : world) :
  upload_file env self path (Some "") delim w
  = upload_file env self path None delim w
  /\ upload_folder env self path (Some "") delim w
     = upload_folder env self path None delim w.
Proof.
  split; [reflexivity | ].
  unfold upload_folder. cbn [truthy String.eqb negb]. rewrite !tqdm_then. cbv beta.
  unfold bind.
  rewrite (upload_folder_loop_without_name env self delim _ (Some "") None).
  reflexivity.
Qed.

(** ** The fields of [split] *)

Lemma split_not_nil (sep : ascii) (s : string) : split sep s <> [].
Proof.
  destruct s as [| c s]; cbn [split]; [discriminate | ].
  destruct (Ascii.eqb c sep); [discriminate | ].
  destruct (split sep s); discriminate.
Qed.

Lemma split_without_sep (sep : ascii) (s : string) :
  occurs sep s = false -> split sep s = [s].
Proof.
  induction s as [| c s IH]; cbn [occurs split]; [reflexivity | ].
  intros H. apply orb_false_iff in H. destruct H as [Hc Hs].
  rewrite Ascii.eqb_sym, Hc, (IH Hs). reflexivity.
Qed.

(** [(p + sep + s).split(sep) == p.split(sep) + s.split(sep)] *)
Lemma split_app (sep : ascii) (p s : string) :
  split sep (p ++ String sep s) = (split sep p ++ split sep s)%list.
Proof.
  induction p as [| c p IH]; cbn [String.append split].
  - rewrite Ascii.eqb_refl. reflexivity.
  - destruct (Ascii.eqb c sep).
    + rewrite IH. reflexivity.
    + rewrite IH. pose proof (split_not_nil sep p) as Hp.
      destruct (split sep p) as [| f fs]; [contradiction | reflexivity].
Qed.

Lemma last_item_app (a b : list string) :
  b <> [] -> last_item (a ++ b)%list = last_item b.
Proof.
  intros Hb. unfold last_item. induction a as [| x a IH]; [reflexivity | ].
  cbn [app]. destruct (a ++ b)%list as [| y l] eqn:E.
  - destruct a; [cbn in E; contradiction | discriminate E].
  - cbn [List.last]. rewrite <- IH. reflexivity.
Qed.

(** X8 -- the table name that [upload_file] and [upload_folder] derive,
    [str(path).split("\\")[-1].split(".")[0]]: within the text of the path,
    it is what stands after the last backslash (the whole text when there is
    none) and before the first dot that follows (to the end when there is
    none).  So a forward slash does not separate, and of a name with several
    dots only the part before the first one is kept. *)
Theorem table_name_from_path_is_between_last_backslash_and_first_dot
        (env : environment) (path : Pathlib.PurePath) (dir stem tail : string) :
  Pathlib.render (flavour env) path = dir ++ stem ++ tail ->
  (dir = "" \/ exists d, dir = d ++ "\") ->
  (tail = "" \/ exists e, tail = String "." e) ->
  occurs "\" stem = false ->
  occurs "\" tail = false ->
  occurs "." stem = false ->
  table_name_from_path env path = stem.
Proof.
  intros Hpath Hdir Htail Hs1 Ht1 Hs2. unfold table_name_from_path.
  rewrite Hpath.
  assert (Hno : occurs "\" (stem ++ tail) = false).
  { clear - Hs1 Ht1. induction stem as [| c stem IH]; cbn [String.append occurs] in *;
      [exact Ht1 | ].
    apply orb_false_iff in Hs1. destruct Hs1 as [Hc Hs]. rewrite Hc, (IH Hs).
    reflexivity. }
  assert (Hlast : last_item (split "\" (dir ++ stem ++ tail)) = stem ++ tail).
  { destruct Hdir as [-> | [d ->]].
    - cbn [String.append]. rewrite (split_without_sep _ _ Hno). reflexivity.
    - rewrite append_assoc. cbn [String.append]. rewrite split_app.
      rewrite last_item_app by apply split_not_nil.
      rewrite (split_without_sep _ _ Hno). reflexivity. }
  rewrite Hlast.
  destruct Htail as [-> | [e ->]].
  - rewrite append_empty_r, (split_without_sep _ _ Hs2). reflexivity.
  - rewrite split_app, (split_without_sep _ _ Hs2). reflexivity.
Qed.

Lemma table_name_from_path_witness :
  table_name_from_path (posix_env (answering 200) no_listing no_files)
    (Pathlib.parse Pathlib.posix "C:\logs\hosts.2024.csv")
  = "hosts".
Proof.
  apply (table_name_from_path_is_between_last_backslash_and_first_dot
           (posix_env (answering 200) no_listing no_files)
           (Pathlib.parse Pathlib.posix "C:\logs\hosts.2024.csv")
           "C:\logs\" "hosts" ".2024.csv").
  - reflexivity.
  - right. exists "C:\logs". reflexivity.
  - right. exists "2024.csv". reflexivity.
  - reflexivity.
  - reflexivity.
  - reflexivity.
Defined.

(** ** A table name given by the caller *)

(** X9 -- with a non-empty table name from the caller, every request that
    [upload_file] or [upload_folder] sends carries that name, sanitised, in
    its [Log-Type] header, whatever the paths of the files are. *)
Theorem given_table_name_is_used (env : environment) (self : LAUploader)
        (name : string) :
  name <> "" ->
  (forall file_path delim,
      posts_only (fun r => log_type r = Some (keep_word_chars name))
                 (upload_file env self file_path (Some name) delim))
  /\ (forall folder_path delim,
         posts_only (fun r => log_type r = Some (keep_word_chars name))
                    (upload_folder env self folder_path (Some name) delim)).
Proof.
  intros Hname. split.
  - intros file_path delim. unfold upload_file.
    apply bind_posts_only; [apply quiet_posts_only; reflexivity | intros data].
    assert (Ht : truthy (Some name) = true).
    { cbn. destruct (String.eqb name "") eqn:E; [ | reflexivity].
      apply String.eqb_eq in E. contradiction. }
    rewrite Ht. cbn [negb assigned]. apply upload_df_posts_only.
  - intros folder_path delim. apply upload_folder_shared_name. exact Hname.
Qed.

Lemma given_table_name_is_used_witness :
  posts_only (fun r => log_type r = Some "AllLogs")
             (upload_folder (posix_env (answering 200)
                               (fun _ => ["hosts.csv"; "users.csv"])
                               (fun _ _ => Returns two_rows))
                            sample_uploader "v1.2" (Some "All-Logs") ",").
Proof.
  destruct (given_table_name_is_used
              (posix_env (answering 200) (fun _ => ["hosts.csv"; "users.csv"])
                         (fun _ _ => Returns two_rows))
              sample_uploader "All-Logs") as [_ H].
  - discriminate.
  - apply H.
Defined.

(** ** The files of a folder *)

(** X10 -- the files that [upload_folder] reads, where names are matched as
    on POSIX: with the comma as delimiter, the entries of the folder whose
    name ends in [.csv] (in lower case; a name that is just [.csv] counts);
    with any other delimiter, every entry of the folder.  Each is the folder
    path extended by the entry's name. *)
Theorem upload_folder_reads_csv_or_all (env : environment)
        (folder : Pathlib.PurePath) (delim : string) (path : Pathlib.PurePath) :
  fnmatch_name env = Pathlib.fnmatch ->
  In path (glob env folder (if negb (String.eqb delim ",") then "*" else "*.csv"))
  <-> exists name,
        In name (scandir env (Pathlib.render (flavour env) folder))
        /\ path = Pathlib.child folder name
        /\ (delim = "," -> exists stem, name = stem ++ ".csv").
Proof. apply upload_folder_selection. Qed.

Lemma upload_folder_reads_csv_or_all_witness :
  In (Pathlib.mkPath "" ["logs"; "hosts.csv"])
     (glob (posix_env (answering 200)
                      (fun _ => ["hosts.csv"; "notes.txt"; "users.CSV"]) no_files)
           (Pathlib.parse Pathlib.posix "logs") "*.csv").
Proof.
  apply (upload_folder_reads_csv_or_all
           (posix_env (answering 200)
                      (fun _ => ["hosts.csv"; "notes.txt"; "users.CSV"]) no_files)
           (Pathlib.parse Pathlib.posix "logs") "," _ eq_refl).
  exists "hosts.csv". split; [left; reflexivity | ].
  split; [reflexivity | intros _; exists "hosts"; reflexivity].
Defined.

End TableNames.

Module SignatureShape.
Import PyStr Effects LAUploaderPy Notions MoreNotions StringFacts.

Lemma be_bytes_length (width : nat) (x : Z) :
  List.length (Sha256.be_bytes width x) = width.
Proof. unfold Sha256.be_bytes. rewrite length_map, length_rev, length_seq. reflexivity. Qed.

(** A SHA-256 digest has 32 bytes. *)
Lemma sha256_length (msg : list byte) : List.length (Sha256.sha256 msg) = 32%nat.
Proof.
  unfold Sha256.sha256.
  destruct (fold_left Sha256.compress _ Sha256.initial)
    as [[[[[[[a b] c] d] e] f] g] h].
  cbn [flat_map]. rewrite !length_app, !be_bytes_length. reflexivity.
Qed.

Lemma hmac_sha256_length (key msg : list byte) :
  List.length (Sha256.hmac_sha256 key msg) = 32%nat.
Proof. unfold Sha256.hmac_sha256. apply sha256_length. Qed.

(** The base64 text of [n] bytes has [4 * ceil(n / 3)] characters. *)
Lemma b64encode_len (data : list byte) :
  len (Base64.b64encode data) = 4 * ((Z.of_nat (List.length data) + 2) / 3).
Proof.
  assert (H : forall n data, (List.length data <= n)%nat ->
                len (Base64.b64encode data)
                = 4 * ((Z.of_nat (List.length data) + 2) / 3)).
  { clear data. induction n as [| n IH]; intros data Hn.
    - destruct data; [reflexivity | cbn in Hn; lia].
    - destruct data as [| a [| b [| c rest]]]; try reflexivity.
      cbn [Base64.b64encode]. cbv zeta. rewrite !len_String.
      rewrite IH by (cbn [List.length] in Hn; lia).
      cbn [List.length]. rewrite !Nat2Z.inj_succ.
      replace (Z.succ (Z.succ (Z.succ (Z.of_nat (List.length rest)))) + 2)
        with ((Z.of_nat (List.length rest) + 2) + 1 * 3) by lia.
      rewrite Z.div_add by lia. lia. }
  apply (H (List.length data)). lia.
Qed.

(** X11 -- with a decodable secret, the value of the [Authorization] header
    is ["SharedKey "], the workspace id, a colon and a text of exactly 44
    characters (the base64 of the 32 bytes of an HMAC-SHA256), whatever the
    date, the content length and the other fields are. *)
Theorem build_signature_shape (self : LAUploader) (key : list byte)
        (date method content_type resource : string) (content_length : Z) :
  Base64.b64decode (workspace_secret self) = Returns key ->
  exists encoded_hash,
    _build_signature self date content_length method content_type resource
    = Returns ("SharedKey " ++ workspace self ++ ":" ++ encoded_hash)
    /\ len encoded_hash = 44
    /\ len ("SharedKey " ++ workspace self ++ ":" ++ encoded_hash)
       = len (workspace self) + 55.
Proof.
  intros Hkey. unfold _build_signature. rewrite Hkey. cbv zeta.
  eexists. split; [reflexivity | ].
  assert (H44 : forall k m, len (Base64.b64encode (Sha256.hmac_sha256 k m)) = 44).
  { intros k m. rewrite b64encode_len, hmac_sha256_length. reflexivity. }
  split; [apply H44 | ].
  rewrite !len_append, H44. change (len "SharedKey ") with 10.
  change (len ":") with 1. lia.
Qed.

Lemma build_signature_shape_witness :
  exists encoded_hash,
    _build_signature sample_uploader "Mon, 02 Nov 2026 10:00:00 GMT" 24
      "POST" "application/json" "/api/logs"
    = Returns ("SharedKey ws:" ++ encoded_hash)
    /\ len encoded_hash = 44.
Proof.
  destruct (build_signature_shape sample_uploader (encode_utf8 "secret-key")
              "Mon, 02 Nov 2026 10:00:00 GMT" "POST" "application/json"
              "/api/logs" 24 Policy.sample_uploader_key)
    as [h [H1 [H2 _]]].
  exists h. split; [exact H1 | exact H2].
Defined.

End SignatureShape.

(* ================================================================== *)
(** * Further properties of the IntSights parser *)
(* ================================================================== *)

Module ParserEdges.
Import PyStr PyVal IntSightsPy Severity.

Section Parser.

Variable _failed_response : pydict -> bool.
Variable strptime : string -> string -> result datetime.

Lemma dt_strptime_returns (v : pyval) (format : string) :
  (exists t, dt_strptime strptime v format = Returns t)
  <-> exists text d, v = PStr text /\ strptime text format = Returns d.
Proof.
  split.
  - intros [t H]. destruct v as [| b | z | text | l | items | d0];
      cbn [dt_strptime] in H; try discriminate H.
    destruct (strptime text format) as [d | e] eqn:E; cbn [rbind] in H;
      [ | discriminate H].
    exists text, d. split; [reflexivity | exact E].
  - intros [text [d [-> H]]]. cbn [dt_strptime]. rewrite H. eexists. reflexivity.
Qed.

(** X12 -- when [parse_results] returns for a matched response (one that
    passes the failure test, has a [dict] as [RawResult] and is not
    whitelisted): exactly when the response has a [Status], the values under
    ["tags"] and ["SystemTags"] (each an empty list when absent) can be
    added, and ["firstSeen"], ["lastSeen"] and ["lastUpdateDate"] are all
    present as strings that [strptime] accepts.  Every other key may be
    absent. *)
Theorem parse_results_returns_iff (response d : pydict) :
  _failed_response response = false ->
  lookup response "RawResult" = Some (PDict d) ->
  truth (match lookup d "whitelisted" with Some v => v | None => PBool false end)
  = false ->
  (exists t, parse_results _failed_response strptime response = Returns t)
  <-> ((exists code, lookup response "Status" = Some code)
       /\ (exists tags,
              add (match lookup d "tags" with Some v => v | None => PList [] end)
                  (match lookup d "SystemTags" with Some v => v | None => PList [] end)
              = Returns tags)
       /\ (exists text t, lookup d "firstSeen" = Some (PStr text)
                          /\ strptime text "%Y-%m-%dT%H:%M:%S.%fZ" = Returns t)
       /\ (exists text t, lookup d "lastSeen" = Some (PStr text)
                          /\ strptime text "%Y-%m-%dT%H:%M:%S.%fZ" = Returns t)
       /\ (exists text t, lookup d "lastUpdateDate" = Some (PStr text)
                          /\ strptime text "%Y-%m-%dT%H:%M:%S.%fZ" = Returns t)).
Proof.
  intros Hf Hraw Hw.
  rewrite (parse_results_past_not_found _failed_response strptime response d Hf Hraw).
  rewrite !(raw_get_dict response d _ _ Hraw). cbn [rbind]. rewrite Hw.
  assert (Hdate : forall key,
             (exists t, dt_strptime strptime
                          (match lookup d key with Some v => v | None => PNone end)
                          "%Y-%m-%dT%H:%M:%S.%fZ" = Returns t)
             <-> exists text t, lookup d key = Some (PStr text)
                                /\ strptime text "%Y-%m-%dT%H:%M:%S.%fZ" = Returns t).
  { intros key. rewrite dt_strptime_returns. split.
    - intros [text [t [Hv Ht]]]. exists text, t. split; [ | exact Ht].
      destruct (lookup d key); [rewrite Hv; reflexivity | discriminate Hv].
    - intros [text [t [Hv Ht]]]. exists text, t. rewrite Hv.
      split; [reflexivity | exact Ht]. }
  rewrite <- !Hdate. unfold getitem.
  destruct (lookup response "Status") as [code | ]; cbn [rbind].
  - destruct (add _ _) as [tags | e]; cbn [rbind].
    + destruct (dt_strptime strptime
                  (match lookup d "firstSeen" with Some v => v | None => PNone end) _)
        as [t1 | e1]; cbn [rbind].
      * destruct (dt_strptime strptime
                    (match lookup d "lastSeen" with Some v => v | None => PNone end) _)
          as [t2 | e2]; cbn [rbind].
        -- destruct (dt_strptime strptime
                       (match lookup d "lastUpdateDate" with Some v => v | None => PNone end) _)
             as [t3 | e3]; cbn [rbind].
           ++ split; [intros _ | intros _; eexists; reflexivity].
              repeat split; eexists; reflexivity.
           ++ split; [intros [t H]; discriminate H | ].
              intros [_ [_ [_ [_ [t H]]]]]. discriminate H.
        -- split; [intros [t H]; discriminate H | ].
           intros [_ [_ [_ [[t H] _]]]]. discriminate H.
      * split; [intros [t H]; discriminate H | ].
        intros [_ [_ [[t H] _]]]. discriminate H.
    + split; [intros [t H]; discriminate H | ].
      intros [_ [[t H] _]]. discriminate H.
  - split; [intros [t H]; discriminate H | ].
    intros [[code H] _]. discriminate H.
Qed.

(** X13 -- the level [information] of a parsed match: it is reported exactly
    when the response has no ["severity"] key or has ["Low"] under it; so a
    match without severity is not told apart from a low one, and is not
    [unknown]. *)
Theorem parse_results_information_iff (response d : pydict)
        (is_match : bool) (severity : ResultSeverity) (details : pyval) :
  _failed_response response = false ->
  lookup response "RawResult" = Some (PDict d) ->
  truth (match lookup d "whitelisted" with Some v => v | None => PBool false end)
  = false ->
  parse_results _failed_response strptime response
  = Returns (is_match, severity, details) ->
  (severity = information
   <-> lookup d "severity" = None \/ lookup d "severity" = Some (PStr "Low")).
Proof.
  intros Hf Hraw Hw Hres.
  destruct (parse_results_matched _failed_response strptime response d
              is_match severity details Hf Hraw Hw Hres) as [_ [Hsev _]].
  cbv zeta in Hsev. split.
  - intros Hinfo. rewrite Hinfo in Hsev.
    destruct (lookup d "severity") as [v | ]; [right | left; reflexivity].
    destruct v as [| b | z | s | l | items | t]; cbn [eq_str] in Hsev;
      try discriminate Hsev.
    destruct (String.eqb s "Low") eqn:E.
    + apply String.eqb_eq in E. subst s. reflexivity.
    + destruct (String.eqb s "Medium"); [discriminate Hsev | ].
      destruct (String.eqb s "High"); discriminate Hsev.
  - intros [H | H]; rewrite H in Hsev; exact Hsev.
Qed.


End Parser.

Lemma parse_results_returns_iff_witness :
  exists t,
    parse_results status_failed_response strptime_padded sample_response = Returns t.
Proof.
  apply (parse_results_returns_iff status_failed_response strptime_padded
           sample_response sample_raw eq_refl eq_refl eq_refl).
  split; [eexists; reflexivity | ].
  split; [eexists; reflexivity | ].
  split; [eexists; eexists; split; [reflexivity | vm_compute; reflexivity] | ].
  split; eexists; eexists; (split; [reflexivity | vm_compute; reflexivity]).
Defined.

Lemma parse_results_information_iff_witness :
  high = information
  <-> lookup sample_raw "severity" = None
      \/ lookup sample_raw "severity" = Some (PStr "Low").
Proof.
  eapply (parse_results_information_iff status_failed_response strptime_padded
            sample_response sample_raw true high _ eq_refl eq_refl eq_refl).
  vm_compute. reflexivity.
Defined.


End ParserEdges.

(* ================================================================== *)
(** * Properties of the notebook magics *)
(* ================================================================== *)

Module Magics.
Import PyStr PyVal AgentsPy StringFacts.

(** The template has one replacement field, [{question}], and no other
    brace: formatting it with a question succeeds, whatever the question. *)
Lemma custom_system_message_formats (question : string) :
  plain_fields CUSTOM_SYSTEM_MESSAGE None = true
  /\ exists prompt,
       format CUSTOM_SYSTEM_MESSAGE [("question", question)] = Returns prompt.
Proof.
  split; [vm_compute; reflexivity | ].
  eexists. vm_compute. reflexivity.
Qed.

(** X15 -- the cell magic [%%ask] of [DocsRagMagic] cannot answer: [ask]
    passes the keyword [agent_prompt] to [ask_question], which has no such
    parameter, so for every line and every cell the call raises [TypeError]
    before [ask_question] starts; no agent is reset, no chat is initiated
    and nothing is displayed. *)
Theorem ask_always_raises_type_error (chat : chat_service) (self : DocsRagMagic)
        (line cell : string) (history : list agent_event) :
  ask chat self line cell history
  = (Raises (mkExn TypeError
               "ask_question() got an unexpected keyword argument 'agent_prompt'"
               None),
     history).
Proof.
  unfold ask.
  destruct (custom_system_message_formats (strip cell)) as [_ [prompt Hprompt]].
  unfold abind at 1. unfold alift. rewrite Hprompt.
  unfold abind at 1. reflexivity.
Qed.

(** Called as it is defined, with its three arguments, [ask_question]
    resets the assistant, then starts the chat with the question, and
    returns what the chat returns. *)
Lemma ask_question_positional (chat : chat_service) (assistant proxy question : string)
      (history : list agent_event) :
  call (ask_question chat)
       [AgentArg assistant; AgentArg proxy; StrArg question] [] history
  = (chat (history ++ [Reset assistant])%list question,
     (history ++ [Reset assistant; InitiateChat proxy assistant question])%list).
Proof.
  unfold call, ask_question. cbn. unfold abind, alift, record. cbn.
  rewrite <- app_assoc. reflexivity.
Qed.

(** ** Substrings *)

Lemma prefix_iff (p s : string) :
  String.prefix p s = true <-> exists t, s = p ++ t.
Proof.
  revert s. induction p as [| c p IH]; intros s.
  - split; [intros _; exists s; reflexivity | intros _; destruct s; reflexivity].
  - destruct s as [| d s]; cbn [String.prefix].
    + split; [discriminate | intros [t H]; discriminate H].
    + destruct (ascii_dec c d) as [-> | Hne].
      * rewrite IH. split.
        -- intros [t ->]. exists t. reflexivity.
        -- intros [t H]. inversion H. exists t. reflexivity.
      * split; [discriminate | ]. intros [t H]. cbn in H. injection H as Hcd _.
        symmetry in Hcd. contradiction.
Qed.

Lemma contains_iff (s needle : string) :
  contains s needle = true <-> exists a b, s = a ++ needle ++ b.
Proof.
  induction s as [| c s IH]; cbn [contains]; rewrite orb_true_iff, prefix_iff.
  - split.
    + intros [[t H] | H]; [exists "", t; exact H | discriminate H].
    + intros [a [b H]]. left. destruct a as [| x a]; [ | discriminate H].
      exists b. exact H.
  - split.
    + intros [[t H] | H].
      * exists "", t. exact H.
      * apply IH in H. destruct H as [a [b H]]. exists (String c a), b.
        cbn. rewrite H. reflexivity.
    + intros [[| x a] [b H]].
      * left. exists b. exact H.
      * right. apply IH. inversion H. exists a, b. reflexivity.
Qed.

(** X16 -- the termination test of the user proxy of [CodeAutogenMagic]: a
    message with no ["content"], or with [None] as content, does not
    terminate the chat and raises nothing; a message whose content is a
    string terminates the chat exactly when the text [TERMINATE], in capitals,
    occurs somewhere in it. *)
Theorem is_termination_msg_spec (msg : pydict) :
  (lookup msg "content" = None -> is_termination_msg msg = Returns false)
  /\ (lookup msg "content" = Some PNone -> is_termination_msg msg = Returns false)
  /\ (forall text,
         lookup msg "content" = Some (PStr text) ->
         exists b,
           is_termination_msg msg = Returns b
           /\ (b = true <-> exists before after,
                              text = before ++ "TERMINATE" ++ after)).
Proof.
  unfold is_termination_msg, get, getitem. split; [ | split].
  - intros H. rewrite H. reflexivity.
  - intros H. rewrite H. reflexivity.
  - intros text H. rewrite H. cbn [rbind is_None negb contains_item].
    eexists. split; [reflexivity | ]. apply contains_iff.
Qed.

End Magics.

Module WholeFolder.
Import PyStr Effects LAUploaderPy Notions MoreNotions MonadFacts StringFacts.
Import Batching Accepted Policy Progress.

Lemma bodies_app (a b : list (request * post_outcome)) :
  bodies (a ++ b) = (bodies a ++ bodies b)%list.
Proof. unfold bodies. apply map_app. Qed.

Lemma upload_folder_loop_sends_every_file (env : environment) (self : LAUploader)
      (key : list byte) (delim : string) (t_name : bool)
      (input_files : list Pathlib.PurePath) :
  accepts_all env ->
  Base64.b64decode (workspace_secret self) = Returns key ->
  (forall path, In path input_files ->
                exists data,
                  read_csv env (Pathlib.render (flavour env) path) delim
                  = Returns data) ->
  forall table_name w,
    fst (upload_folder_loop env self delim t_name input_files table_name w)
    = Returns tt
    /\ exists new,
         posted (snd (upload_folder_loop env self delim t_name input_files
                        table_name w))
         = (posted w ++ new)%list
         /\ bodies new = flat_map (file_bodies env delim) input_files.
Proof.
  intros Hacc Hkey. induction input_files as [| path rest IH]; intros Hread table_name w.
  - split; [reflexivity | ]. exists []. cbn. rewrite app_nil_r. split; reflexivity.
  - rewrite upload_folder_loop_cons. cbv zeta. cbn [flat_map]. unfold file_bodies at 1.
    destruct (Hread path (or_introl eq_refl)) as [data Hdata]. rewrite Hdata.
    set (name := assigned (if negb t_name
                           then Some (table_name_from_path env path)
                           else table_name)).
    pose proof (upload_df_accepted env self key data name w Hacc Hkey) as Hok.
    destruct (upload_df_posts_spec_batches env self key name data w Hacc Hkey)
      as [new1 [Hp1 Hb1]].
    destruct (upload_df env self data name w) as [res w1].
    cbn [fst snd] in *. subst res.
    match goal with
    | |- context [upload_folder_loop env self delim t_name rest ?tn ?w2] =>
        destruct (IH (fun p Hin => Hread p (or_intror Hin)) tn w2)
          as [Hret [new2 [Hp2 Hb2]]]
    end.
    split; [exact Hret | ].
    exists (new1 ++ new2)%list. cbn [posted] in Hp2. split.
    + rewrite Hp2, Hp1, app_assoc. reflexivity.
    + rewrite bodies_app, Hb1, Hb2. reflexivity.
Qed.

(** X17 -- a whole folder, when every selected file can be read, every
    request is accepted and the secret decodes: [upload_folder] returns, and
    the bodies it has sent are, file after file in the order of the listing,
    the serialised batches of each file's rows; nothing of a file is skipped
    and nothing is sent twice. *)
Theorem upload_folder_sends_every_file (env : environment) (self : LAUploader)
        (key : list byte) (folder_path : string) (table_name : option string)
        (delim : string) (w : world) :
  let input_files :=
    glob env (Pathlib.parse (flavour env) folder_path)
         (if negb (String.eqb delim ",") then "*" else "*.csv") in
  accepts_all env ->
  Base64.b64decode (workspace_secret self) = Returns key ->
  (forall path, In path input_files ->
                exists data,
                  read_csv env (Pathlib.render (flavour env) path) delim
                  = Returns data) ->
  fst (upload_folder env self folder_path table_name delim w) = Returns tt
  /\ exists new,
       posted (snd (upload_folder env self folder_path table_name delim w))
       = (posted w ++ new)%list
       /\ bodies new = flat_map (file_bodies env delim) input_files.
Proof.
  cbv zeta. intros Hacc Hkey Hread. unfold upload_folder.
  rewrite !tqdm_then. cbv beta. unfold bind.
  match goal with
  | |- context [upload_folder_loop env self delim ?t ?files table_name ?w1] =>
      destruct (upload_folder_loop_sends_every_file env self key delim t files
                  Hacc Hkey Hread table_name w1) as [Hret [new [Hp Hb]]];
      destruct (upload_folder_loop env self delim t files table_name w1)
        as [res w2]
  end.
  cbn [fst snd posted] in *. subst res. unfold tqdm. cbn [fst snd posted].
  split; [reflexivity | ]. exists new. split; [exact Hp | exact Hb].
Qed.

Lemma upload_folder_sends_every_file_witness :
  let env := posix_env (answering 200) (fun _ => ["hosts.csv"; "users.csv"])
                       (fun _ _ => Returns two_rows) in
  fst (upload_folder env sample_uploader "logs" None "," fresh) = Returns tt
  /\ bodies (posted (snd (upload_folder env sample_uploader "logs" None "," fresh)))
     = [Json.dumps (map Pandas.astype_str_to_dict two_rows);
        Json.dumps (map Pandas.astype_str_to_dict two_rows)].
Proof.
  cbv zeta.
  destruct (upload_folder_sends_every_file
              (posix_env (answering 200) (fun _ => ["hosts.csv"; "users.csv"])
                         (fun _ _ => Returns two_rows))
              sample_uploader (encode_utf8 "secret-key") "logs" None "," fresh)
    as [Hret [new [Hp Hb]]].
  - intros history r. reflexivity.
  - exact sample_uploader_key.
  - intros path _. exists two_rows. reflexivity.
  - split; [exact Hret | ]. rewrite Hp. cbn [posted fresh app]. rewrite Hb.
    vm_compute. reflexivity.
Defined.

End WholeFolder.

Module FreshDates.
Import PyStr Effects LAUploaderPy Notions MoreNotions MonadFacts StringFacts.
Import Progress.

Lemma still_reads_clock_per_request {A : Type} (env : environment) (m : M A) :
  (forall w, posted (snd (m w)) = posted w
             /\ clock_reads (snd (m w)) = clock_reads w) ->
  reads_clock_per_request env m.
Proof.
  intros H w. destruct (H w) as [Hp Hc]. exists [].
  rewrite app_nil_r, Nat.add_0_r. split; [exact Hp | ]. split; [exact Hc | ].
  intros [| i] p Hi; discriminate Hi.
Qed.

Lemma bind_reads_clock_per_request {A B : Type} (env : environment)
      (m : M A) (k : A -> M B) :
  reads_clock_per_request env m ->
  (forall a, reads_clock_per_request env (k a)) ->
  reads_clock_per_request env (bind m k).
Proof.
  intros Hm Hk w. unfold bind. destruct (Hm w) as [new1 [Hp1 [Hc1 Hd1]]].
  destruct (m w) as [[a | e] w1]; cbn [fst snd] in *.
  - destruct (Hk a w1) as [new2 [Hp2 [Hc2 Hd2]]]. exists (new1 ++ new2)%list.
    split; [rewrite Hp2, Hp1, app_assoc; reflexivity | ].
    split; [rewrite Hc2, Hc1, length_app; lia | ].
    intros i p Hi.
    destruct (Nat.lt_ge_cases i (List.length new1)) as [Hlt | Hge].
    + rewrite nth_error_app1 in Hi by exact Hlt. apply Hd1. exact Hi.
    + rewrite nth_error_app2 in Hi by exact Hge.
      rewrite (Hd2 _ _ Hi), Hc1. f_equal. f_equal. lia.
  - exists new1. split; [exact Hp1 | ]. split; [exact Hc1 | exact Hd1].
Qed.

Lemma _post_data_reads_clock (env : environment) (self : LAUploader)
      (key : list byte) (body table_name : string) :
  Base64.b64decode (workspace_secret self) = Returns key ->
  reads_clock_per_request env (_post_data env self body table_name).
Proof.
  intros Hkey w. rewrite _post_data_run. cbv zeta.
  unfold _build_signature. rewrite Hkey. cbv zeta.
  eexists. cbn [fst snd posted clock_reads]. split; [reflexivity | ].
  split; [cbn [List.length]; lia | ].
  intros [| i] p Hi; cbn in Hi; [ | destruct i; discriminate Hi].
  inversion Hi. cbn. rewrite Nat.add_0_r. reflexivity.
Qed.

Lemma upload_df_reads_clock (env : environment) (self : LAUploader)
      (key : list byte) (data : Pandas.DataFrame) (table_name : string) :
  Base64.b64decode (workspace_secret self) = Returns key ->
  reads_clock_per_request env (upload_df env self data table_name).
Proof.
  intros Hkey.
  assert (Hquiet : forall (b : bool) line,
             reads_clock_per_request env (if b then print line else ret tt)).
  { intros [] line; apply still_reads_clock_per_request; intros w; split; reflexivity. }
  assert (Hloop : forall rows events,
             reads_clock_per_request env (upload_df_loop env self table_name rows events)).
  { induction rows as [| row rest IH]; intros events.
    - apply still_reads_clock_per_request. intros w. split; reflexivity.
    - cbn [upload_df_loop].
      destruct (sys_getsizeof env _ >? 26214400); [ | apply IH].
      apply bind_reads_clock_per_request; [apply Hquiet | intros _].
      apply bind_reads_clock_per_request;
        [apply (_post_data_reads_clock env self key); exact Hkey | intros _; apply IH]. }
  unfold upload_df.
  apply bind_reads_clock_per_request; [apply Hloop | intros events].
  apply bind_reads_clock_per_request; [ | intros _; apply Hquiet].
  destruct events.
  - apply still_reads_clock_per_request. intros w. split; reflexivity.
  - apply (_post_data_reads_clock env self key). exact Hkey.
Qed.

(** X18 -- with a decodable secret, every request of an upload is dated and
    signed with a clock reading of its own: in a run of [upload_df],
    [upload_file] or [upload_folder] the clock is read exactly once per
    request sent, and the [x-ms-date] header of the [i]-th request of the run
    is the [i]-th of these readings; no reading is used for two requests. *)
Theorem every_request_has_its_own_clock_reading (env : environment)
        (self : LAUploader) (key : list byte) :
  Base64.b64decode (workspace_secret self) = Returns key ->
  (forall data table_name,
      reads_clock_per_request env (upload_df env self data table_name))
  /\ (forall file_path table_name delim,
         reads_clock_per_request env
           (upload_file env self file_path table_name delim))
  /\ (forall folder_path table_name delim,
         reads_clock_per_request env
           (upload_folder env self folder_path table_name delim)).
Proof.
  intros Hkey. split; [ | split].
  - intros. apply (upload_df_reads_clock env self key). exact Hkey.
  - intros. unfold upload_file.
    apply bind_reads_clock_per_request.
    + apply still_reads_clock_per_request. intros w. split; reflexivity.
    + intros data. apply (upload_df_reads_clock env self key). exact Hkey.
  - intros. unfold upload_folder.
    apply bind_reads_clock_per_request;
      [apply still_reads_clock_per_request; intros w; split; reflexivity | intros _].
    apply bind_reads_clock_per_request;
      [ | intros _; apply still_reads_clock_per_request; intros w; split; reflexivity].
    generalize (glob env (Pathlib.parse (flavour env) folder_path)
                  (if negb (String.eqb delim ",") then "*" else "*.csv")).
    intros files. generalize (truthy table_name). intros t_name. revert table_name.
    induction files as [| path rest IH]; intros table_name.
    + apply still_reads_clock_per_request. intros w. split; reflexivity.
    + cbn [upload_folder_loop].
      apply bind_reads_clock_per_request;
        [apply still_reads_clock_per_request; intros w; split; reflexivity
        | intros data].
      apply bind_reads_clock_per_request;
        [apply (upload_df_reads_clock env self key); exact Hkey | intros _].
      apply bind_reads_clock_per_request;
        [apply still_reads_clock_per_request; intros w; split; reflexivity
        | intros _].
      apply IH.
Qed.

Lemma every_request_has_its_own_clock_reading_witness :
  reads_clock_per_request
    (posix_env (answering 200) (fun _ => ["hosts.csv"; "users.csv"])
               (fun _ _ => Returns two_rows))
    (upload_folder
       (posix_env (answering 200) (fun _ => ["hosts.csv"; "users.csv"])
                  (fun _ _ => Returns two_rows))
       sample_uploader "logs" None ",").
Proof.
  destruct (every_request_has_its_own_clock_reading
              (posix_env (answering 200) (fun _ => ["hosts.csv"; "users.csv"])
                         (fun _ _ => Returns two_rows))
              sample_uploader (encode_utf8 "secret-key")
              Policy.sample_uploader_key) as [_ [_ H]].
  apply H.
Defined.

End FreshDates.

Module FileByFile.
Import PyStr Effects LAUploaderPy Notions MoreNotions MonadFacts StringFacts.
Import Batching Accepted Policy Progress Naming WholeFolder.

Lemma body_and_table_app (a b : list (request * post_outcome)) :
  body_and_table (a ++ b) = (body_and_table a ++ body_and_table b)%list.
Proof. unfold body_and_table. apply map_app. Qed.

Lemma body_and_table_of_bodies (table : option string)
      (new : list (request * post_outcome)) :
  Forall (fun p => log_type (fst p) = table) new ->
  body_and_table new = map (fun b => (b, table)) (bodies new).
Proof.
  unfold body_and_table, bodies. induction 1 as [| p new Hp _ IH]; cbn [map].
  - reflexivity.
  - rewrite Hp, IH. reflexivity.
Qed.

(** One file, all requests accepted: its batches, under the name given. *)
Lemma upload_df_bodies_and_table (env : environment) (self : LAUploader)
      (key : list byte) (data : Pandas.DataFrame) (table_name : string) (w : world) :
  accepts_all env ->
  Base64.b64decode (workspace_secret self) = Returns key ->
  exists new,
    posted (snd (upload_df env self data table_name w)) = (posted w ++ new)%list
    /\ body_and_table new
       = map (fun b => (b, Some (keep_word_chars table_name)))
             (map Json.dumps
                  (spec_batches (measured_size env) 26214400
                     (map Pandas.astype_str_to_dict data) [])).
Proof.
  intros Hacc Hkey.
  destruct (upload_df_posts_spec_batches env self key table_name data w Hacc Hkey)
    as [new [Hp Hb]].
  destruct (upload_df_posts_only env self data table_name w) as [new' [Hp' Hall]].
  assert (new' = new) by (rewrite Hp in Hp'; apply app_inv_head in Hp'; congruence).
  subst new'. exists new. split; [exact Hp | ].
  rewrite (body_and_table_of_bodies _ _ Hall), Hb. reflexivity.
Qed.

(** X19 -- a whole folder without a table name from the caller, when every
    selected file can be read, every request is accepted and the secret
    decodes: the requests sent are, file after file in the order of the
    listing, the serialised batches of each file's rows, each under the
    (sanitised) name derived from the path of that same file. *)
Theorem upload_folder_names_each_file (env : environment) (self : LAUploader)
        (key : list byte) (folder_path delim : string) (w : world) :
  let input_files :=
    glob env (Pathlib.parse (flavour env) folder_path)
         (if negb (String.eqb delim ",") then "*" else "*.csv") in
  accepts_all env ->
  Base64.b64decode (workspace_secret self) = Returns key ->
  (forall path, In path input_files ->
                exists data,
                  read_csv env (Pathlib.render (flavour env) path) delim
                  = Returns data) ->
  exists new,
    posted (snd (upload_folder env self folder_path None delim w))
    = (posted w ++ new)%list
    /\ body_and_table new
       = flat_map
           (fun path =>
              map (fun b => (b, Some (keep_word_chars (table_name_from_path env path))))
                  (file_bodies env delim path))
           input_files.
Proof.
  cbv zeta. intros Hacc Hkey Hread. unfold upload_folder.
  rewrite !tqdm_then. cbv beta. unfold bind. cbn [truthy].
  match goal with
  | |- context [upload_folder_loop env self delim false ?files None ?w1] =>
      assert (Hloop : forall fs tn w0,
                 (forall path, In path fs ->
                               exists data,
                                 read_csv env (Pathlib.render (flavour env) path) delim
                                 = Returns data) ->
                 exists new,
                   posted (snd (upload_folder_loop env self delim false fs tn w0))
                   = (posted w0 ++ new)%list
                   /\ body_and_table new
                      = flat_map
                          (fun path =>
                             map (fun b => (b, Some (keep_word_chars
                                                       (table_name_from_path env path))))
                                 (file_bodies env delim path))
                          fs);
      [ | destruct (Hloop files None w1 Hread) as [new [Hp Hb]];
          destruct (upload_folder_loop env self delim false files None w1)
            as [[[] | e] w2] ]
  end.
  - induction fs as [| path rest IH]; intros tn w0 Hr.
    + exists []. cbn. rewrite app_nil_r. split; reflexivity.
    + rewrite upload_folder_loop_cons. cbv zeta. cbn [negb assigned flat_map].
      unfold file_bodies at 1.
      destruct (Hr path (or_introl eq_refl)) as [data Hdata]. rewrite Hdata.
      pose proof (upload_df_accepted env self key data
                    (table_name_from_path env path) w0 Hacc Hkey) as Hok.
      destruct (upload_df_bodies_and_table env self key data
                  (table_name_from_path env path) w0 Hacc Hkey)
        as [new1 [Hp1 Hb1]].
      destruct (upload_df env self data (table_name_from_path env path) w0)
        as [res w1'].
      cbn [fst snd] in *. subst res.
      match goal with
      | |- context [upload_folder_loop env self delim false rest ?tn' ?w2'] =>
          destruct (IH tn' w2' (fun p Hin => Hr p (or_intror Hin)))
            as [new2 [Hp2 Hb2]]
      end.
      exists (new1 ++ new2)%list. cbn [posted] in Hp2. split.
      * rewrite Hp2, Hp1, app_assoc. reflexivity.
      * rewrite body_and_table_app, Hb1, Hb2. reflexivity.
  - cbn [fst snd posted] in *. unfold tqdm. cbn [snd posted].
    exists new. split; [exact Hp | exact Hb].
  - cbn [fst snd posted] in *. exists new. split; [exact Hp | exact Hb].
Qed.

Lemma upload_folder_names_each_file_witness :
  let env := posix_env (answering 200) (fun _ => ["hosts.csv"; "users.csv"])
                       (fun _ _ => Returns two_rows) in
  body_and_table (posted (snd (upload_folder env sample_uploader "logs" None "," fresh)))
  = [(Json.dumps (map Pandas.astype_str_to_dict two_rows), Some "logshosts");
     (Json.dumps (map Pandas.astype_str_to_dict two_rows), Some "logsusers")].
Proof.
  cbv zeta.
  destruct (upload_folder_names_each_file
              (posix_env (answering 200) (fun _ => ["hosts.csv"; "users.csv"])
                         (fun _ _ => Returns two_rows))
              sample_uploader (encode_utf8 "secret-key") "logs" "," fresh)
    as [new [Hp Hb]].
  - intros history r. reflexivity.
  - exact sample_uploader_key.
  - intros path _. exists two_rows. reflexivity.
  - rewrite Hp. cbn [posted fresh app]. rewrite Hb. vm_compute. reflexivity.
Defined.

End FileByFile.
